(** * Notion API importer: a shallow embedding of [src/formats/notion-api.ts]

    The importer reads a Notion database over HTTP, turns every page into a
    Markdown note with YAML frontmatter and writes one [.base] view file.
    This development embeds the TypeScript source function by function:

    - the run-time values the code manipulates ([JSValue], JSON data after
      type erasure) and the few JavaScript operations the source applies to
      them (member access, optional chaining, truthiness, [join], [trim]);
    - [extractPropertyValue], [convertPageToMarkdown], [createBaseFile],
      [fetchAllPages] and [import], the [async] ones in a small monad of
      promises over an explicit world (scripted HTTP replies, cancellation
      polls, vault, observable trace).

    The embedding comes first, the properties proved about it follow. *)

From Stdlib Require Import List String Ascii ZArith Bool Lia Arith.
From Stdlib Require Import DecimalString DecimalPos.
Import ListNotations.
Open Scope string_scope.

(* ================================================================== *)
(** * Strings as the source uses them *)
(* ================================================================== *)

Module Str.

(** A string is a sequence of code units; the model keeps the code units
    below 256.  [length] is [String.prototype.length]. *)

Definition LF : ascii := ascii_of_nat 10.
Definition dquote : ascii := ascii_of_nat 34.
Definition backslash : ascii := ascii_of_nat 92.
Definition colon : ascii := ":"%char.
Definition space : ascii := " "%char.

Definition str (c : ascii) : string := String c EmptyString.

Definition isEmpty (s : string) : bool :=
  match s with EmptyString => true | String _ _ => false end.

(** White space and line terminators removed by [String.prototype.trim]:
    TAB, LF, VT, FF, CR, SP and NBSP. *)
Definition isWhite (c : ascii) : bool :=
  let n := nat_of_ascii c in
  (((9 <=? n) && (n <=? 13)) || (n =? 32) || (n =? 160))%nat.

Fixpoint trimStart (s : string) : string :=
  match s with
  | EmptyString => EmptyString
  | String c r => if isWhite c then trimStart r else s
  end.

Fixpoint trimEnd (s : string) : string :=
  match s with
  | EmptyString => EmptyString
  | String c r =>
      let r' := trimEnd r in
      if isWhite c && isEmpty r' then EmptyString else String c r'
  end.

Definition trim (s : string) : string := trimEnd (trimStart s).

(** [s.includes(c)] for a one-character needle. *)
Fixpoint includes (c : ascii) (s : string) : bool :=
  match s with
  | EmptyString => false
  | String d r => Ascii.eqb d c || includes c r
  end.

(** [s.replace(/c/g, by)] for a one-character pattern. *)
Fixpoint replaceAll (c : ascii) (by_ : string) (s : string) : string :=
  match s with
  | EmptyString => EmptyString
  | String d r =>
      if Ascii.eqb d c then by_ ++ replaceAll c by_ r
      else String d (replaceAll c by_ r)
  end.

(** [strs.join(sep)] on strings. *)
Fixpoint join (sep : string) (strs : list string) : string :=
  match strs with
  | [] => EmptyString
  | [s] => s
  | s :: rest => s ++ sep ++ join sep rest
  end.

(** Decimal rendering of an integer, as [String(n)] prints it. *)
Definition ofZ (n : Z) : string := NilZero.string_of_int (Z.to_int n).
Definition ofNat (n : nat) : string := ofZ (Z.of_nat n).

(** The decimal digits, of which index keys are made. *)
Definition isDigit (c : ascii) : bool :=
  let n := nat_of_ascii c in ((48 <=? n) && (n <=? 57))%nat.

End Str.

(* ================================================================== *)
(** * JavaScript values and completions *)
(* ================================================================== *)

(** The data are JSON documents after type erasure ([any] in the source).
    Numbers are modelled on the integers, with [String(n)] the decimal
    rendering: that is what JavaScript prints for the integers it holds
    exactly, up to 2^53 in magnitude; numbers with a fraction and larger
    magnitudes are outside the model.  An object lists its own properties in
    enumeration order, each key once. *)

#[local] Unset Elimination Schemes.
Inductive JSValue : Type :=
| JUndefined
| JNull
| JBool (b : bool)
| JNum (n : Z)
| JStr (s : string)
| JArr (items : list JSValue)
| JObj (fields : list (string * JSValue)).
#[local] Set Elimination Schemes.

(** What a [throw] carries: a [TypeError] raised by the language itself, or
    an error raised by a host capability (HTTP transport, vault write). *)
Inductive Exn : Type :=
| TypeError (msg : string)
| HostError (msg : string).

(** Result of evaluating synchronous code. *)
Inductive Completion (A : Type) : Type :=
| Normal (a : A)
| Throw (e : Exn).
Arguments Normal {A} a.
Arguments Throw {A} e.

Definition bindC {A B} (c : Completion A) (k : A -> Completion B) : Completion B :=
  match c with
  | Normal a => k a
  | Throw e => Throw e
  end.

Declare Scope completion_scope.
Delimit Scope completion_scope with comp.
Notation "x <- c ;; k" := (bindC c (fun x => k))
  (at level 61, c at next level, right associativity) : completion_scope.
Open Scope completion_scope.

(** [arr.map(f)] with a callback that may throw: left to right, the first
    exception wins. *)
Fixpoint mapC {A B} (f : A -> Completion B) (l : list A) : Completion (list B) :=
  match l with
  | [] => Normal []
  | x :: r => y <- f x ;; ys <- mapC f r ;; Normal (y :: ys)
  end.

Module JS.

Definition isNullish (v : JSValue) : bool :=
  match v with JUndefined | JNull => true | _ => false end.

(** ToBoolean. *)
Definition truthy (v : JSValue) : bool :=
  match v with
  | JUndefined | JNull => false
  | JBool b => b
  | JNum n => negb (Z.eqb n 0)
  | JStr s => negb (Str.isEmpty s)
  | JArr _ | JObj _ => true
  end.

(** [a || b] with an already evaluated right operand. *)
Definition or (a b : JSValue) : JSValue := if truthy a then a else b.

Fixpoint lookup (k : string) (fs : list (string * JSValue)) : option JSValue :=
  match fs with
  | [] => None
  | (k', v) :: r => if String.eqb k' k then Some v else lookup k r
  end.

Definition indexed {A} (l : list A) : list (string * A) :=
  combine (map Str.ofNat (seq 0 (List.length l))) l.

(** Own enumerable string-keyed properties, in enumeration order. *)
Definition ownEntries (v : JSValue) : list (string * JSValue) :=
  match v with
  | JObj fs => fs
  | JArr l => indexed l
  | JStr s => indexed (map (fun c => JStr (Str.str c)) (list_ascii_of_string s))
  | _ => []
  end.

Definition getOwn (v : JSValue) (k : string) : JSValue :=
  match lookup k (ownEntries v) with
  | Some x => x
  | None => JUndefined
  end.

(** [v.k] and [v[k]].  Reading through [null] or [undefined] throws.  Of
    the inherited members only [length] is a data value; the others the
    source could reach by a computed key are functions, which carry none of
    the properties the source reads next, so they read as [undefined]. *)
Definition member (v : JSValue) (k : string) : Completion JSValue :=
  match v with
  | JUndefined | JNull =>
      Throw (TypeError ("Cannot read properties of null or undefined: " ++ k))
  | JArr l =>
      Normal (if String.eqb k "length" then JNum (Z.of_nat (List.length l)) else getOwn v k)
  | JStr s =>
      Normal (if String.eqb k "length" then JNum (Z.of_nat (String.length s)) else getOwn v k)
  | _ => Normal (getOwn v k)
  end.

(** [v?.k]: never throws. *)
Definition optMember (v : JSValue) (k : string) : JSValue :=
  match member v k with
  | Normal x => x
  | Throw _ => JUndefined
  end.

(** [Object.entries(v)] and [Object.keys(v)]. *)
Definition entries (v : JSValue) : Completion (list (string * JSValue)) :=
  if isNullish v
  then Throw (TypeError "Cannot convert undefined or null to object")
  else Normal (ownEntries v).

Definition keys (v : JSValue) : Completion (list string) :=
  es <- entries v ;; Normal (map fst es).

Definition hasOwn (k : string) (fs : list (string * JSValue)) : bool :=
  match lookup k fs with Some _ => true | None => false end.

(** ToString, which is also [v.toString()] on every value that has one.
    A JSON object inherits [Object.prototype.toString] unless an own,
    hence non-callable, [toString] property shadows it. *)
Fixpoint toString (v : JSValue) : Completion string :=
  match v with
  | JUndefined => Normal "undefined"
  | JNull => Normal "null"
  | JBool true => Normal "true"
  | JBool false => Normal "false"
  | JNum n => Normal (Str.ofZ n)
  | JStr s => Normal s
  | JArr l =>
      strs <- mapC (fun x => match x with
                             | JUndefined | JNull => Normal EmptyString
                             | _ => toString x
                             end) l ;;
      Normal (Str.join "," strs)
  | JObj fs =>
      if hasOwn "toString" fs
      then Throw (TypeError "Cannot convert object to primitive value")
      else Normal "[object Object]"
  end.

(** The element conversion of [Array.prototype.join]. *)
Definition joinElement (v : JSValue) : Completion string :=
  if isNullish v then Normal EmptyString else toString v.

(** [arr.join(sep)]. *)
Definition join (sep : string) (l : list JSValue) : Completion string :=
  strs <- mapC joinElement l ;; Normal (Str.join sep strs).

(** [v === 'lit']. *)
Definition isStr (lit : string) (v : JSValue) : bool :=
  match v with JStr s => String.eqb s lit | _ => false end.

(** [recv?.map(f).join(sep)]: a nullish receiver short-circuits the whole
    chain to [undefined]; only arrays have a callable [map]. *)
Definition optMapJoin (recv : JSValue) (f : JSValue -> Completion JSValue)
    (sep : string) : Completion JSValue :=
  match recv with
  | JUndefined | JNull => Normal JUndefined
  | JArr l => ys <- mapC f l ;; s <- join sep ys ;; Normal (JStr s)
  | _ => Throw (TypeError "map is not a function")
  end.

(** [recv?.trim()]. *)
Definition optTrim (recv : JSValue) : Completion JSValue :=
  match recv with
  | JUndefined | JNull => Normal JUndefined
  | JStr s => Normal (JStr (Str.trim s))
  | _ => Throw (TypeError "trim is not a function")
  end.

(** [(joined || '').trim() || null] where [joined] is a string or
    [undefined]. *)
Definition trimOrNull (joined : JSValue) : Completion JSValue :=
  t <- optTrim (or joined (JStr "")) ;; Normal (or t JNull).

End JS.

(* ================================================================== *)
(** * Property value extractor *)
(* ================================================================== *)

(** The [case] labels of the [switch (property.type)] in
    [extractPropertyValue]; [TOther] is the [default] label. *)
Inductive PropertyTag : Type :=
| TRichText | TNumber | TSelect | TMultiSelect | TDate | TCheckbox
| TUrl | TEmail | TPhoneNumber | TPeople | TFiles | TRelation
| TFormula | TRollup | TOther.

Definition caseLabel (tag : string) : PropertyTag :=
  if String.eqb tag "rich_text" then TRichText
  else if String.eqb tag "number" then TNumber
  else if String.eqb tag "select" then TSelect
  else if String.eqb tag "multi_select" then TMultiSelect
  else if String.eqb tag "date" then TDate
  else if String.eqb tag "checkbox" then TCheckbox
  else if String.eqb tag "url" then TUrl
  else if String.eqb tag "email" then TEmail
  else if String.eqb tag "phone_number" then TPhoneNumber
  else if String.eqb tag "people" then TPeople
  else if String.eqb tag "files" then TFiles
  else if String.eqb tag "relation" then TRelation
  else if String.eqb tag "formula" then TFormula
  else if String.eqb tag "rollup" then TRollup
  else TOther.

(** The label [switch (discriminant)] selects: [===] against string
    literals, so a discriminant that is not a string falls to [default]. *)
Definition switchLabel (discriminant : JSValue) : PropertyTag :=
  match discriminant with
  | JStr tag => caseLabel tag
  | _ => TOther
  end.

(** Field access in the two positions where the extractor recurses on what
    it reads: written as a traversal of the field list with a continuation so
    that the recursion stays structural.  [withField_lookup] below relates it
    to [JS.lookup]. *)
Definition withField {A} (k : string) (fs : list (string * JSValue))
    (absent : A) (present : JSValue -> A) : A :=
  (fix go (l : list (string * JSValue)) : A :=
     match l with
     | [] => absent
     | (k', v) :: r => if String.eqb k' k then present v else go r
     end) fs.

(** [text => text.plain_text] *)
Definition plainText (text : JSValue) : Completion JSValue :=
  JS.member text "plain_text".

(** [item => item.name] *)
Definition itemName (item : JSValue) : Completion JSValue :=
  JS.member item "name".

(** [person => person.name || person.id] *)
Definition personLabel (person : JSValue) : Completion JSValue :=
  name <- JS.member person "name" ;;
  if JS.truthy name then Normal name else JS.member person "id".

(** [file => file.name || file.file?.url || file.external?.url] *)
Definition fileLabel (file : JSValue) : Completion JSValue :=
  name <- JS.member file "name" ;;
  if JS.truthy name then Normal name
  else
    inner <- JS.member file "file" ;;
    let url := JS.optMember inner "url" in
    if JS.truthy url then Normal url
    else
      external <- JS.member file "external" ;;
      Normal (JS.optMember external "url").

(** [rel => rel.id] *)
Definition relationId (rel : JSValue) : Completion JSValue :=
  JS.member rel "id".

(** [x !== null && x !== undefined ? x : null] *)
Definition presentOrNull (x : JSValue) : JSValue :=
  if JS.isNullish x then JNull else x.

(** [extractPropertyValue(property)].  Only an object can carry a [type]
    that selects a [case]; [null] and [undefined] make [property.type]
    throw; any other value reads [type] as [undefined] and takes [default]. *)
Fixpoint extractPropertyValue (property : JSValue) : Completion JSValue :=
  match property with
  | JUndefined | JNull =>
      Throw (TypeError "Cannot read properties of null or undefined: type")
  | JObj fields =>
      let field k := JS.getOwn property k in
      match switchLabel (field "type") with
      | TRichText =>
          richText <- JS.optMapJoin (field "rich_text") plainText "" ;;
          JS.trimOrNull richText
      | TNumber => Normal (presentOrNull (field "number"))
      | TSelect => Normal (JS.or (JS.optMember (field "select") "name") JNull)
      | TMultiSelect =>
          multiSelect <- JS.optMapJoin (field "multi_select") itemName ", " ;;
          JS.trimOrNull multiSelect
      | TDate => Normal (JS.or (JS.optMember (field "date") "start") JNull)
      | TCheckbox => Normal (presentOrNull (field "checkbox"))
      | TUrl => t <- JS.optTrim (field "url") ;; Normal (JS.or t JNull)
      | TEmail => t <- JS.optTrim (field "email") ;; Normal (JS.or t JNull)
      | TPhoneNumber => t <- JS.optTrim (field "phone_number") ;; Normal (JS.or t JNull)
      | TPeople =>
          people <- JS.optMapJoin (field "people") personLabel ", " ;;
          JS.trimOrNull people
      | TFiles =>
          files <- JS.optMapJoin (field "files") fileLabel ", " ;;
          JS.trimOrNull files
      | TRelation =>
          relations <- JS.optMapJoin (field "relation") relationId ", " ;;
          JS.trimOrNull relations
      | TFormula =>
          (* this.extractPropertyValue(property.formula) *)
          withField "formula" fields
            (Throw (TypeError "Cannot read properties of null or undefined: type"))
            (fun formula => extractPropertyValue formula)
      | TRollup =>
          (* property.rollup?.array?.map(item => this.extractPropertyValue(item)).join(', ') *)
          rollup <-
            withField "rollup" fields (Normal JUndefined)
              (fun rollup =>
                 match rollup with
                 | JObj rfields =>
                     withField "array" rfields (Normal JUndefined)
                       (fun array =>
                          match array with
                          | JUndefined | JNull => Normal JUndefined
                          | JArr items =>
                              ys <- mapC extractPropertyValue items ;;
                              s <- JS.join ", " ys ;;
                              Normal (JStr s)
                          | _ => Throw (TypeError "map is not a function")
                          end)
                 | _ => Normal JUndefined
                 end) ;;
          JS.trimOrNull rollup
      | TOther => Normal JNull
      end
  | _ => Normal JNull
  end.


(* ================================================================== *)
(** * Document serializer: the synchronous part of [convertPageToMarkdown] *)
(* ================================================================== *)

(** ** [x > 0] on a value read from JSON

    The comparison of line 277 converts its left operand with ToNumber, which
    on a string is StringToNumber: white space is trimmed, and what is left
    is empty (zero), a binary, octal or hexadecimal integer, a decimal with
    optional sign, fraction and exponent, or [Infinity]; anything else is
    NaN, which compares false.  Only the sign of the number is needed. *)

Definition digitOf (c : ascii) : option Z :=
  let n := Z.of_nat (nat_of_ascii c) in
  if ((48 <=? n) && (n <=? 57))%Z then Some (n - 48)%Z
  else if ((97 <=? n) && (n <=? 122))%Z then Some (n - 87)%Z
  else if ((65 <=? n) && (n <=? 90))%Z then Some (n - 55)%Z
  else None.

Fixpoint digitsFrom (base acc : Z) (s : string) : option Z :=
  match s with
  | EmptyString => Some acc
  | String c r =>
      match digitOf c with
      | Some d => if (d <? base)%Z then digitsFrom base (acc * base + d)%Z r else None
      | None => None
      end
  end.

(** The value of a non-empty sequence of digits of the base. *)
Definition numeral (base : Z) (s : string) : option Z :=
  if Str.isEmpty s then None else digitsFrom base 0 s.

(** The decimal digits a string starts with, and what follows them. *)
Fixpoint spanDigits (s : string) : string * string :=
  match s with
  | EmptyString => (EmptyString, EmptyString)
  | String c r =>
      if Str.isDigit c
      then let (digits, rest) := spanDigits r in (String c digits, rest)
      else (EmptyString, s)
  end.

(** The optional exponent part that ends a decimal literal. *)
Definition exponentPart (s : string) : option Z :=
  match s with
  | EmptyString => Some 0%Z
  | String c r =>
      if Ascii.eqb c "e" || Ascii.eqb c "E" then
        match r with
        | String sign digits =>
            if Ascii.eqb sign "+" then numeral 10 digits
            else if Ascii.eqb sign "-" then option_map Z.opp (numeral 10 digits)
            else numeral 10 r
        | EmptyString => None
        end
      else None
  end.

(** An unsigned decimal literal denotes [m * 10^e]: it is positive as a
    number when it does not round to zero, that is when it exceeds 2^-1075,
    half the least positive double (the tie rounds to zero). *)
Definition unsignedDecimalPositive (s : string) : bool :=
  if String.eqb s "Infinity" then true
  else
    let (int, afterInt) := spanDigits s in
    let (frac, afterFrac) :=
      match afterInt with
      | String c r => if Ascii.eqb c "." then spanDigits r else (EmptyString, afterInt)
      | EmptyString => (EmptyString, afterInt)
      end in
    if Str.isEmpty int && Str.isEmpty frac then false
    else
      match exponentPart afterFrac, digitsFrom 10 0 (int ++ frac) with
      | Some exponent, Some m =>
          let e := (exponent - Z.of_nat (String.length frac))%Z in
          if (0 <=? e)%Z then (0 <? m)%Z
          else (10 ^ (- e) <? m * 2 ^ 1075)%Z
      | _, _ => false
      end.

Definition nonDecimalPositive (base : Z) (digits : string) : bool :=
  match numeral base digits with
  | Some n => (0 <? n)%Z
  | None => false
  end.

(** [StringToNumber(s) > 0]. *)
Definition positiveNumeral (s : string) : bool :=
  let t := Str.trim s in
  match t with
  | String c r =>
      if Ascii.eqb c "+" then unsignedDecimalPositive r
      else if Ascii.eqb c "-" then false
      else if Ascii.eqb c "0" then
        match r with
        | String p digits =>
            if Ascii.eqb p "x" || Ascii.eqb p "X" then nonDecimalPositive 16 digits
            else if Ascii.eqb p "o" || Ascii.eqb p "O" then nonDecimalPositive 8 digits
            else if Ascii.eqb p "b" || Ascii.eqb p "B" then nonDecimalPositive 2 digits
            else unsignedDecimalPositive t
        | EmptyString => false
        end
      else unsignedDecimalPositive t
  | EmptyString => false
  end.

(** [x > 0].  [undefined] converts to NaN and [null] to zero; an array or an
    object converts through its string, which throws for an object whose own
    [toString] property shadows the inherited method. *)
Definition gtZero (x : JSValue) : Completion bool :=
  match x with
  | JUndefined | JNull => Normal false
  | JBool b => Normal b
  | JNum n => Normal (0 <? n)%Z
  | JStr s => Normal (positiveNumeral s)
  | JArr _ | JObj _ => s <- JS.toString x ;; Normal (positiveNumeral s)
  end.

(** [Object.keys(databaseDetails.properties).find(key =>
      databaseDetails.properties[key].type === 'title')];
    [None] is [undefined]. *)
Fixpoint findTitleKey (properties : JSValue) (keys : list string)
    : Completion (option string) :=
  match keys with
  | [] => Normal None
  | key :: rest =>
      schema <- JS.member properties key ;;
      type <- JS.member schema "type" ;;
      if JS.isStr "title" type then Normal (Some key)
      else findTitleKey properties rest
  end.

Definition titleProperty (databaseDetails : JSValue) : Completion (option string) :=
  properties <- JS.member databaseDetails "properties" ;;
  keys <- JS.keys properties ;;
  findTitleKey properties keys.

(** [recv.map(f).join(sep)] without optional chaining. *)
Definition mapJoin (recv : JSValue) (f : JSValue -> Completion JSValue)
    (sep : string) : Completion string :=
  match recv with
  | JUndefined | JNull =>
      Throw (TypeError "Cannot read properties of null or undefined: map")
  | JArr l => ys <- mapC f l ;; JS.join sep ys
  | _ => Throw (TypeError "map is not a function")
  end.

(** Lines 274-280: the title of the note. *)
Definition resolveTitle (page databaseDetails : JSValue) : Completion string :=
  titleProperty <- titleProperty databaseDetails ;;
  match titleProperty with
  | None => Normal "Untitled"
  | Some key =>
      if Str.isEmpty key then Normal "Untitled"
      else
        properties <- JS.member page "properties" ;;
        titleValue <- JS.member properties key ;;
        if JS.truthy titleValue then
          runs <- JS.member titleValue "title" ;;
          if JS.truthy runs then
            len <- JS.member runs "length" ;;
            positive <- gtZero len ;;
            if positive then mapJoin runs plainText ""
            else Normal "Untitled"
          else Normal "Untitled"
        else Normal "Untitled"
  end.

(** [String(value).replace(/\n/g, ' ').replace(/"/g, '\\"')] *)
Definition cleanValue (s : string) : string :=
  Str.replaceAll Str.dquote (String Str.backslash (Str.str Str.dquote))
    (Str.replaceAll Str.LF " " s).

(** The test of line 295. *)
Definition needsQuotes (clean : string) : bool :=
  Str.includes Str.colon clean || Str.includes Str.LF clean
  || (100 <? String.length clean)%nat.

Definition newline : string := Str.str Str.LF.

(** Lines 292-300: what one extracted value appends to the frontmatter (the
    empty string when the guard of line 292 fails). *)
Definition frontmatterLine (key : string) (value : JSValue) : Completion string :=
  if JS.truthy value then
    text <- JS.toString value ;;
    if negb (Str.isEmpty (Str.trim text)) then
      let clean := cleanValue text in
      if needsQuotes clean
      then Normal (key ++ ": " ++ Str.str Str.dquote ++ clean ++ Str.str Str.dquote ++ newline)
      else Normal (key ++ ": " ++ clean ++ newline)
    else Normal ""
  else Normal "".

(** [databaseDetails.properties[key]?.type !== 'title'] *)
Definition notTitleTyped (databaseDetails : JSValue) (key : string) : Completion bool :=
  properties <- JS.member databaseDetails "properties" ;;
  schema <- JS.member properties key ;;
  Normal (negb (JS.isStr "title" (JS.optMember schema "type"))).

(** One turn of the loop of lines 289-302. *)
Definition propertyLine (databaseDetails : JSValue) (entry : string * JSValue)
    : Completion string :=
  let '(key, property) := entry in
  keep <- notTitleTyped databaseDetails key ;;
  if keep then
    value <- extractPropertyValue property ;;
    frontmatterLine key value
  else Normal "".

(** Lines 283-302: the frontmatter before its closing fence. *)
Definition frontmatter (page databaseDetails : JSValue) : Completion string :=
  id <- (v <- JS.member page "id" ;; JS.toString v) ;;
  created <- (v <- JS.member page "created_time" ;; JS.toString v) ;;
  updated <- (v <- JS.member page "last_edited_time" ;; JS.toString v) ;;
  properties <- JS.member page "properties" ;;
  entries <- JS.entries properties ;;
  lines <- mapC (propertyLine databaseDetails) entries ;;
  Normal ("---" ++ newline
          ++ "notion_id: " ++ id ++ newline
          ++ "created: " ++ created ++ newline
          ++ "updated: " ++ updated ++ newline
          ++ String.concat "" lines).

(** The note as [saveAsMarkdownFile] receives it: title and Markdown text. *)
Definition renderPage (page databaseDetails : JSValue) : Completion (string * string) :=
  title <- resolveTitle page databaseDetails ;;
  front <- frontmatter page databaseDetails ;;
  Normal (title,
          front ++ "---" ++ newline ++ newline
          ++ "# " ++ title ++ newline ++ newline).

(* ================================================================== *)
(** * The host application and the world a run acts on *)
(* ================================================================== *)

(** [NotionDatabase] (lines 5-9). *)
Record NotionDatabase : Type := {
  db_id : string;
  db_title : string;
  db_properties : list string
}.

(** The output folder; the source reads its [path] only. *)
Record Folder : Type := { path : string }.

(** What the importer inherits from [FormatImporter] and the vault, none of
    it defined in this file of the repository: taken as parameters.  A write
    returns the vault it leaves behind and whether it threw.
    [getOutputFolder] is awaited at line 158: it looks the output folder up
    in the vault and answers with it or with [null], or its promise
    rejects. *)
Record Host : Type := {
  Vault : Type;
  sanitizeFilePath : string -> string;
  saveAsMarkdownFile : Folder -> string -> string -> Vault -> Completion unit * Vault;
  vaultCreate : string -> string -> Vault -> Completion unit * Vault;
  getOutputFolder : Vault -> Completion (option Folder)
}.

(** What an observer of a run sees, oldest first. *)
Inductive Event : Type :=
| Status (text : string)                       (* ctx.status *)
| Notice (text : string)                       (* new Notice *)
| ConsoleError (text : string) (error : Exn)   (* console.error *)
| Request (url : string) (body : option JSValue) (* requestUrl *)
| NoteSuccess (name : string)                  (* ctx.reportNoteSuccess *)
| Progress (current total : nat)               (* ctx.reportProgress *)
| Failed (name : string) (error : Exn).        (* ctx.reportFailed *)

(** How one [requestUrl] call settles. *)
Inductive Reply : Type :=
| Json (data : JSValue)
| Fails (error : Exn).

(** The importer object's fields (lines 19-22). *)
Record Importer : Type := {
  notionToken : string;
  selectedDatabaseId : string;
  databases : list NotionDatabase;
  createBaseFiles : bool
}.

Section Run.

Variable host : Host.

(** The world: the replies the remote service will give to the successive
    [requestUrl] calls, what the successive [ctx.isCancelled()] polls will
    answer, the number of polls made so far, the vault and the trace. *)
Record World : Type := {
  replies : list Reply;
  cancelled : nat -> bool;
  polls : nat;
  vault : Vault host;
  trace : list Event
}.

(** A promise is fulfilled, rejected, or still pending (the remote service
    never answers). *)
Inductive Settled (A : Type) : Type :=
| Fulfilled (a : A)
| Rejected (e : Exn)
| Pending.
Arguments Fulfilled {A} a.
Arguments Rejected {A} e.
Arguments Pending {A}.

Definition Async (A : Type) : Type := World -> Settled A * World.

Definition ret {A} (a : A) : Async A := fun w => (Fulfilled a, w).

Definition bind {A B} (m : Async A) (k : A -> Async B) : Async B :=
  fun w =>
    match m w with
    | (Fulfilled a, w') => k a w'
    | (Rejected e, w') => (Rejected e, w')
    | (Pending, w') => (Pending, w')
    end.

(** Synchronous code inside an [async] function. *)
Definition sync {A} (c : Completion A) : Async A :=
  fun w =>
    match c with
    | Normal a => (Fulfilled a, w)
    | Throw e => (Rejected e, w)
    end.

(** [try { body } catch (error) { handler }] *)
Definition tryCatch {A} (body : Async A) (handler : Exn -> Async A) : Async A :=
  fun w =>
    match body w with
    | (Rejected e, w') => handler e w'
    | settled => settled
    end.

Definition emit (e : Event) : Async unit :=
  fun w => (Fulfilled tt,
            {| replies := replies w; cancelled := cancelled w; polls := polls w;
               vault := vault w; trace := trace w ++ [e] |}).

(** [ctx.isCancelled()] *)
Definition isCancelled : Async bool :=
  fun w => (Fulfilled (cancelled w (polls w)),
            {| replies := replies w; cancelled := cancelled w; polls := S (polls w);
               vault := vault w; trace := trace w |}).

(** [await requestUrl({url, body})], then [response.json]. *)
Definition requestUrl (url : string) (body : option JSValue) : Async JSValue :=
  fun w =>
    let w' r := {| replies := r; cancelled := cancelled w; polls := polls w;
                   vault := vault w; trace := trace w ++ [Request url body] |} in
    match replies w with
    | [] => (Pending, w' [])
    | Json data :: r => (Fulfilled data, w' r)
    | Fails e :: r => (Rejected e, w' r)
    end.

(** A vault write. *)
Definition write (op : Vault host -> Completion unit * Vault host) : Async unit :=
  fun w =>
    let '(c, v) := op (vault w) in
    let w' := {| replies := replies w; cancelled := cancelled w; polls := polls w;
                 vault := v; trace := trace w |} in
    match c with
    | Normal _ => (Fulfilled tt, w')
    | Throw e => (Rejected e, w')
    end.

End Run.

Arguments Fulfilled {A} a.
Arguments Rejected {A} e.
Arguments Pending {A}.
Arguments ret {host A} a.
Arguments bind {host A B} m k.
Arguments sync {host A} c.
Arguments tryCatch {host A} body handler.
Arguments emit {host} e.
Arguments isCancelled {host}.
Arguments requestUrl {host} url body.
Arguments write {host} op.

Declare Scope async_scope.
Delimit Scope async_scope with async.
Notation "x <~ m ;; k" := (bind m (fun x => k))
  (at level 61, m at next level, right associativity) : async_scope.
Notation "m ;;; k" := (bind m (fun _ => k))
  (at level 61, right associativity) : async_scope.
Open Scope async_scope.

(* ================================================================== *)
(** * Paginator: [fetchDatabaseDetails] and [fetchAllPages] *)
(* ================================================================== *)

(** [...v] in an argument list: arrays and strings are iterable, the other
    JSON values are not. *)
Definition spread (v : JSValue) : Completion (list JSValue) :=
  match v with
  | JArr l => Normal l
  | JStr s => Normal (map (fun c => JStr (Str.str c)) (list_ascii_of_string s))
  | _ => Throw (TypeError "value is not iterable")
  end.

Definition databaseUrl (databaseId : string) : string :=
  "https://api.notion.com/v1/databases/" ++ databaseId.

Definition queryUrl (databaseId : string) : string :=
  databaseUrl databaseId ++ "/query".

(** The object handed to [JSON.stringify] at lines 249-252. *)
Definition queryBody (nextCursor : JSValue) : JSValue :=
  JObj [("start_cursor", nextCursor); ("page_size", JNum 100)].

Section Paginator.

Variable host : Host.

(** Lines 223-233. *)
Definition fetchDatabaseDetails (databaseId : string) : Async host JSValue :=
  requestUrl (databaseUrl databaseId) None.

(** The [while] loop of lines 240-262, on the loop variables [pages],
    [hasMore] and [nextCursor].  It runs on the number of replies the service
    still holds: every turn consumes one, and a call issued when none is left
    never settles. *)
Fixpoint fetchLoop (remaining : nat) (databaseId : string)
    (pages : list JSValue) (hasMore nextCursor : JSValue)
    : Async host (list JSValue) :=
  if negb (JS.truthy hasMore) then ret pages
  else
    stop <~ isCancelled ;;
    if stop then ret pages
    else
      data <~ requestUrl (queryUrl databaseId) (Some (queryBody nextCursor)) ;;
      match remaining with
      | O => fun w => (Pending, w)
      | S remaining' =>
          results <~ sync (r <- JS.member data "results" ;; spread r) ;;
          let pages' := (pages ++ results)%list in
          hasMore' <~ sync (JS.member data "has_more") ;;
          nextCursor' <~ sync (JS.member data "next_cursor") ;;
          emit (Status ("Fetched " ++ Str.ofNat (List.length pages') ++ " pages...")) ;;;
          fetchLoop remaining' databaseId pages' hasMore' nextCursor'
      end.

(** Lines 235-265. *)
Definition fetchAllPages (databaseId : string) : Async host (list JSValue) :=
  fun w => fetchLoop (List.length (replies host w)) databaseId [] (JBool true) JUndefined w.

End Paginator.

(* ================================================================== *)
(** * Schema inferrer and view-schema emitter: [createBaseFile] *)
(* ================================================================== *)

(** [value !== null && value !== undefined && value !== '' && value !== false] *)
Definition hasData (value : JSValue) : bool :=
  match value with
  | JNull | JUndefined => false
  | JStr s => negb (Str.isEmpty s)
  | JBool b => b
  | _ => true
  end.

(** [Set.prototype.add] on a set kept in insertion order. *)
Definition setAdd (key : string) (set : list string) : list string :=
  if existsb (String.eqb key) set then set else (set ++ [key])%list.

(** One turn of the inner loop of lines 398-408. *)
Definition scanEntry (databaseDetails : JSValue) (actualProperties : list string)
    (entry : string * JSValue) : Completion (list string) :=
  let '(key, property) := entry in
  keep <- notTitleTyped databaseDetails key ;;
  if keep then
    value <- extractPropertyValue property ;;
    Normal (if hasData value then setAdd key actualProperties else actualProperties)
  else Normal actualProperties.

Fixpoint scanEntries (databaseDetails : JSValue) (actualProperties : list string)
    (entries : list (string * JSValue)) : Completion (list string) :=
  match entries with
  | [] => Normal actualProperties
  | entry :: rest =>
      set <- scanEntry databaseDetails actualProperties entry ;;
      scanEntries databaseDetails set rest
  end.

(** The outer loop of lines 397-409. *)
Fixpoint scanPages (databaseDetails : JSValue) (actualProperties : list string)
    (pages : list JSValue) : Completion (list string) :=
  match pages with
  | [] => Normal actualProperties
  | page :: rest =>
      properties <- JS.member page "properties" ;;
      entries <- JS.entries properties ;;
      set <- scanEntries databaseDetails actualProperties entries ;;
      scanPages databaseDetails set rest
  end.

(** Lines 396-411: [propertiesWithData]. *)
Definition propertiesWithData (databaseDetails : JSValue) (pages : list JSValue)
    : Completion (list string) :=
  scanPages databaseDetails [] pages.

Definition quoted (s : string) : string :=
  Str.str Str.dquote ++ s ++ Str.str Str.dquote.

(** Lines 421-424. *)
Definition propertySection (propName : string) : string :=
  "  " ++ propName ++ ":" ++ newline
  ++ "    displayName: " ++ quoted propName ++ newline.

(** Lines 447-449. *)
Definition orderEntry (propName : string) : string :=
  "      - " ++ propName ++ newline.

(** Lines 414-465: the text of the [.base] file. *)
Definition baseContent (databaseTitle : string) (propertiesWithData : list string)
    : string :=
  "# Obsidian Base file for " ++ databaseTitle ++ newline
  ++ "# Generated from Notion API" ++ newline ++ newline
  ++ "properties:" ++ newline
  ++ String.concat "" (map propertySection propertiesWithData)
  ++ "  notion_id:" ++ newline
  ++ "    displayName: " ++ quoted "Notion ID" ++ newline
  ++ "  created:" ++ newline
  ++ "    displayName: " ++ quoted "Created (Notion)" ++ newline
  ++ "  updated:" ++ newline
  ++ "    displayName: " ++ quoted "Updated (Notion)" ++ newline ++ newline
  ++ "views:" ++ newline
  ++ "  - type: table" ++ newline
  ++ "    name: " ++ quoted (databaseTitle ++ " Table") ++ newline
  ++ "    limit: 100" ++ newline
  ++ "    filters:" ++ newline
  ++ "      and:" ++ newline
  ++ "        - file.ext == " ++ quoted "md" ++ newline
  ++ "        - notion_id != null" ++ newline
  ++ "        - file.inFolder(this.file.folder)" ++ newline
  ++ "    order:" ++ newline
  ++ "      - file.name" ++ newline
  ++ String.concat "" (map orderEntry (firstn 8 propertiesWithData))
  ++ "      - created" ++ newline
  ++ "      - updated" ++ newline ++ newline
  ++ "  - type: card" ++ newline
  ++ "    name: " ++ quoted (databaseTitle ++ " Cards") ++ newline
  ++ "    limit: 50" ++ newline ++ newline
  ++ "# Instructions:" ++ newline
  ++ "# 1. This .base file creates native Obsidian database views" ++ newline
  ++ "# 2. Requires Obsidian 1.7+ with Bases feature enabled" ++ newline
  ++ "# 3. Open this file in Obsidian to see your database" ++ newline
  ++ "# 4. You can edit views, filters, and properties as needed" ++ newline
  ++ "# 5. See https://help.obsidian.md/bases/syntax for full documentation" ++ newline.

Section Conversion.

Variable host : Host.

(** Lines 267-318. *)
Definition convertPageToMarkdown (page : JSValue) (folder : Folder)
    (databaseDetails : JSValue) : Async host (option string) :=
  tryCatch
    (rendered <~ sync (renderPage page databaseDetails) ;;
     let '(title, markdown) := rendered in
     let fileName := sanitizeFilePath host title ++ ".md" in
     write (saveAsMarkdownFile host folder title markdown) ;;;
     ret (Some fileName))
    (fun error =>
       emit (ConsoleError "Error converting page:" error) ;;;
       ret None).

(** Lines 390-478. *)
Definition createBaseFile (database : NotionDatabase) (databaseDetails : JSValue)
    (pages : list JSValue) (folder : Folder) : Async host (option string) :=
  tryCatch
    (let databaseTitle := db_title database in
     withData <~ sync (propertiesWithData databaseDetails pages) ;;
     let content := baseContent databaseTitle withData in
     let baseFileName := sanitizeFilePath host databaseTitle ++ ".base" in
     let baseFilePath := path folder ++ "/" ++ baseFileName in
     write (vaultCreate host baseFilePath content) ;;;
     ret (Some baseFileName))
    (fun error =>
       emit (ConsoleError "Error creating base file:" error) ;;;
       ret None).

End Conversion.

(* ================================================================== *)
(** * The run: [import] *)
(* ================================================================== *)

Section Importing.

Variable host : Host.
Variable this : Importer.

(** Lines 194-197: [if (fileName) { convertedFiles.push(fileName);
    ctx.reportNoteSuccess(fileName); }] *)
Definition recordFile (fileName : option string) (convertedFiles : list string)
    : Async host (list string) :=
  match fileName with
  | Some name =>
      if Str.isEmpty name then ret convertedFiles
      else emit (NoteSuccess name) ;;; ret (convertedFiles ++ [name])%list
  | None => ret convertedFiles
  end.

(** The [for] loop of lines 189-200 from index [i] on, [pages] being the
    records not yet visited and [total] the second argument of
    [ctx.reportProgress].  [None] is the [return] of line 190. *)
Fixpoint convertLoop (folder : Folder) (databaseDetails : JSValue)
    (pages : list JSValue) (i total : nat) (convertedFiles : list string)
    : Async host (option (list string)) :=
  match pages with
  | [] => ret (Some convertedFiles)
  | page :: rest =>
      stop <~ isCancelled ;;
      if stop then ret None
      else
        fileName <~ convertPageToMarkdown host page folder databaseDetails ;;
        convertedFiles' <~ recordFile fileName convertedFiles ;;
        emit (Progress (i + 1) total) ;;;
        convertLoop folder databaseDetails rest (S i) total convertedFiles'
  end.

(** Lines 202-211. *)
Definition baseFileStep (selectedDatabase : NotionDatabase) (folder : Folder)
    (databaseDetails : JSValue) (pages : list JSValue)
    (convertedFiles : list string) : Async host (list string) :=
  if createBaseFiles this then
    stop <~ isCancelled ;;
    if stop then ret convertedFiles
    else
      emit (Status "Creating Obsidian Base file...") ;;;
      baseFileName <~ createBaseFile host selectedDatabase databaseDetails pages folder ;;
      convertedFiles' <~ recordFile baseFileName convertedFiles ;;
      emit (Progress (List.length pages + 1) (List.length pages + 1)) ;;;
      ret convertedFiles'
  else ret convertedFiles.

(** The [try] block of lines 170-215. *)
Definition importBody (selectedDatabase : NotionDatabase) (folder : Folder)
    : Async host unit :=
  emit (Status "Fetching database details...") ;;;
  databaseDetails <~ fetchDatabaseDetails host (selectedDatabaseId this) ;;
  stop <~ isCancelled ;;
  if stop then ret tt
  else
    emit (Status "Fetching database pages...") ;;;
    pages <~ fetchAllPages host (selectedDatabaseId this) ;;
    stop <~ isCancelled ;;
    if stop then ret tt
    else
      emit (Status "Converting pages to markdown...") ;;;
      let total := List.length pages + (if createBaseFiles this then 1 else 0) in
      converted <~ convertLoop folder databaseDetails pages 0 total [] ;;
      match converted with
      | None => ret tt
      | Some convertedFiles =>
          convertedFiles' <~
            baseFileStep selectedDatabase folder databaseDetails pages convertedFiles ;;
          emit (Status "Import completed successfully!") ;;;
          emit (Notice ("Successfully imported "
                        ++ Str.ofNat (List.length convertedFiles')
                        ++ " files from " ++ db_title selectedDatabase))
      end.

(** Lines 147-221.  The [await] of line 158 stands before the [try] of line
    170: a rejection of [getOutputFolder] is the rejection of [import]. *)
Definition import : Async host unit :=
  if Str.isEmpty (notionToken this) then
    emit (Notice "Please enter your Notion Integration Token.")
  else if Str.isEmpty (selectedDatabaseId this) then
    emit (Notice "Please select a database to import.")
  else
    fun w =>
      match getOutputFolder host (vault host w) with
      | Throw error => (Rejected error, w)
      | Normal None => emit (Notice "Please select a location to export to.") w
      | Normal (Some folder) =>
          match find (fun db => String.eqb (db_id db) (selectedDatabaseId this))
                     (databases this) with
          | None => emit (Notice "Selected database not found.") w
          | Some selectedDatabase =>
              tryCatch
                (importBody selectedDatabase folder)
                (fun error =>
                   emit (ConsoleError "Import failed:" error) ;;;
                   emit (Failed (db_title selectedDatabase) error) ;;;
                   emit (Notice "Import failed. Check the console for details."))
                w
          end
      end.

End Importing.

(* ================================================================== *)
(** * Payload shapes *)
(* ================================================================== *)

(** The extractor is written against the payloads the Notion API documents.
    [wellShaped] says which JSON values have that shape, as far as the
    extractor looks: sequences are arrays (or absent), their elements are
    objects, strings are strings, and every leaf it prints is a primitive. *)

Definition isPrimitive (v : JSValue) : bool :=
  match v with
  | JArr _ | JObj _ => false
  | _ => true
  end.

Definition isObject (v : JSValue) : bool :=
  match v with JObj _ => true | _ => false end.

(** An absent sequence, or an array whose elements satisfy [ok]. *)
Definition optArrayOf (ok : JSValue -> bool) (v : JSValue) : bool :=
  match v with
  | JUndefined | JNull => true
  | JArr l => forallb ok l
  | _ => false
  end.

(** An object whose members [ks] are primitives (or absent). *)
Definition recordOf (ks : list string) (v : JSValue) : bool :=
  isObject v && forallb (fun k => isPrimitive (JS.getOwn v k)) ks.

(** An absent member, or a record. *)
Definition optRecordOf (ks : list string) (v : JSValue) : bool :=
  JS.isNullish v || recordOf ks v.

Definition optString (v : JSValue) : bool :=
  match v with
  | JUndefined | JNull | JStr _ => true
  | _ => false
  end.

Definition fileShape (file : JSValue) : bool :=
  recordOf ["name"] file
  && optRecordOf ["url"] (JS.getOwn file "file")
  && optRecordOf ["url"] (JS.getOwn file "external").

(** The payloads of the twelve types that do not nest. *)
Definition flatShape (label : PropertyTag) (property : JSValue) : bool :=
  let field k := JS.getOwn property k in
  match label with
  | TRichText => optArrayOf (recordOf ["plain_text"]) (field "rich_text")
  | TNumber => isPrimitive (field "number")
  | TSelect => optRecordOf ["name"] (field "select")
  | TMultiSelect => optArrayOf (recordOf ["name"]) (field "multi_select")
  | TDate => optRecordOf ["start"] (field "date")
  | TCheckbox => isPrimitive (field "checkbox")
  | TUrl => optString (field "url")
  | TEmail => optString (field "email")
  | TPhoneNumber => optString (field "phone_number")
  | TPeople => optArrayOf (recordOf ["name"; "id"]) (field "people")
  | TFiles => optArrayOf fileShape (field "files")
  | TRelation => optArrayOf (recordOf ["id"]) (field "relation")
  | TFormula | TRollup => false
  | TOther => true
  end.

(** Well-shaped payloads: a formula wraps a well-shaped payload, a rollup
    holds an array of them (or none), to any depth of nesting; a value that is
    not an object carries no type tag and is only required to exist. *)
Fixpoint wellShaped (property : JSValue) : bool :=
  match property with
  | JObj fields =>
      match switchLabel (JS.getOwn property "type") with
      | TFormula => withField "formula" fields false (fun formula => wellShaped formula)
      | TRollup =>
          withField "rollup" fields true
            (fun rollup =>
               match rollup with
               | JUndefined | JNull => true
               | JObj rfields =>
                   withField "array" rfields true
                     (fun array =>
                        match array with
                        | JUndefined | JNull => true
                        | JArr items => forallb wellShaped items
                        | _ => false
                        end)
               | _ => false
               end)
      | label => flatShape label property
      end
  | JUndefined | JNull => false
  | _ => true
  end.

(** A record as the query endpoint returns it: an object whose [id] and
    time stamps are primitives and whose [properties] is an object of
    well-shaped payloads. *)
Definition wellShapedPage (page : JSValue) : bool :=
  recordOf ["id"; "created_time"; "last_edited_time"] page
  && match JS.getOwn page "properties" with
     | JObj fields => forallb (fun kv => wellShaped (snd kv)) fields
     | _ => false
     end.

(** A database object as the API returns it: its [properties] is an object
    of objects. *)
Definition wellShapedSchema (databaseDetails : JSValue) : bool :=
  isObject databaseDetails
  && match JS.getOwn databaseDetails "properties" with
     | JObj fields => forallb (fun kv => isObject (snd kv)) fields
     | _ => false
     end.

(** Size of a value, for induction through member reads. *)
Fixpoint size (v : JSValue) : nat :=
  match v with
  | JArr l => S (list_sum (map size l))
  | JObj fs => S (list_sum (map (fun kv => size (snd kv)) fs))
  | _ => 1
  end.

(* ================================================================== *)
(** * Readings of the source's expressions and of the specification *)
(* ================================================================== *)

(** [property.rollup?.array] for the values [rollup] can take. *)
Definition rollupArray (rollup : JSValue) : JSValue :=
  match rollup with
  | JObj rfields => JS.getOwn rollup "array"
  | _ => JUndefined
  end.

(** [databaseDetails.properties[key]?.type === 'title'] as a pure reading. *)
Definition isTitleTyped (databaseDetails : JSValue) (key : string) : bool :=
  JS.isStr "title"
    (JS.optMember (JS.getOwn (JS.getOwn databaseDetails "properties") key) "type").

(** The value is not [null], not [undefined], not the empty string and not
    [false]. *)
Definition meaningful (value : JSValue) : Prop :=
  value <> JNull /\ value <> JUndefined /\ value <> JStr "" /\ value <> JBool false.

(** Property [name] is not the title property, and some record holds a
    payload under that name whose extracted value is meaningful. *)
Definition activeIn (databaseDetails : JSValue) (pages : list JSValue)
    (name : string) : Prop :=
  isTitleTyped databaseDetails name = false
  /\ exists page properties property value,
       In page pages
       /\ JS.member page "properties" = Normal properties
       /\ In (name, property) (JS.ownEntries properties)
       /\ extractPropertyValue property = Normal value
       /\ meaningful value.

(** The schema property whose type tag is [title]: the first one in key
    order. *)
Definition schemaTitleKey (databaseDetails : JSValue) : option string :=
  let properties := JS.getOwn databaseDetails "properties" in
  find (fun key => JS.isStr "title" (JS.getOwn (JS.getOwn properties key) "type"))
       (map fst (JS.ownEntries properties)).

(** The text runs of the record's value for property [key]; none when the
    property or its runs are absent. *)
Definition titleRuns (page : JSValue) (key : string) : list JSValue :=
  match JS.optMember (JS.getOwn (JS.getOwn page "properties") key) "title" with
  | JArr runs => runs
  | _ => []
  end.

(** The text of one run, as [join] prints its [plain_text]. *)
Definition runText (run : JSValue) : string :=
  match JS.joinElement (JS.getOwn run "plain_text") with
  | Normal s => s
  | Throw _ => EmptyString
  end.

Definition titleOfRuns (runs : list JSValue) : string :=
  match runs with
  | [] => "Untitled"
  | _ => String.concat "" (map runText runs)
  end.

(** The title as the specification words it: the concatenated runs when the
    schema has a title property that is present and non-empty in the record,
    ["Untitled"] in every other case. *)
Definition titleAsSpecified (page databaseDetails : JSValue) : string :=
  match schemaTitleKey databaseDetails with
  | Some key => titleOfRuns (titleRuns page key)
  | None => "Untitled"
  end.

(** The record's title payload has the documented shape: absent, or an
    object whose [title] is an array of text runs (or absent). *)
Definition wellShapedTitle (page databaseDetails : JSValue) : bool :=
  isObject page && isObject (JS.getOwn page "properties")
  && match schemaTitleKey databaseDetails with
     | None => true
     | Some key =>
         let titleValue := JS.getOwn (JS.getOwn page "properties") key in
         JS.isNullish titleValue
         || (isObject titleValue
             && optArrayOf (recordOf ["plain_text"]) (JS.getOwn titleValue "title"))
     end.

(** Strings made of the characters of the [', '] separator only. *)
Definition onlySeparators (s : string) : bool :=
  forallb (fun c => Ascii.eqb c ","%char || Ascii.eqb c Str.space)
          (list_ascii_of_string s).

(** The conversion of [page] fails with this error, leaving this vault:
    either its serialization throws, or the write of the note does. *)
Definition conversionFailure (host : Host) (page : JSValue) (folder : Folder)
    (databaseDetails : JSValue) (v : Vault host) : option (Exn * Vault host) :=
  match renderPage page databaseDetails with
  | Throw error => Some (error, v)
  | Normal (title, markdown) =>
      match saveAsMarkdownFile host folder title markdown v with
      | (Throw error, v') => Some (error, v')
      | (Normal _, _) => None
      end
  end.

(** The importer is configured: a token, a selected database that is among
    the loaded ones, an output folder. *)
Definition configured (host : Host) (this : Importer) (w : World host)
    (selectedDatabase : NotionDatabase) (folder : Folder) : Prop :=
  Str.isEmpty (notionToken this) = false
  /\ Str.isEmpty (selectedDatabaseId this) = false
  /\ getOutputFolder host (vault host w) = Normal (Some folder)
  /\ find (fun db => String.eqb (db_id db) (selectedDatabaseId this)) (databases this)
     = Some selectedDatabase.

(* ================================================================== *)
(** * Reading a run: pages served and events observed *)
(* ================================================================== *)

(** The records of one reply of the query endpoint, and its cursor. *)
Definition resultsOf (data : JSValue) : list JSValue :=
  match JS.getOwn data "results" with
  | JArr l => l
  | _ => []
  end.

Definition cursorOf (data : JSValue) : JSValue := JS.getOwn data "next_cursor".

(** [data] is a page of records that reports [hasMore]. *)
Definition isPageWith (hasMore : bool) (data : JSValue) : bool :=
  isObject data
  && match JS.getOwn data "results" with JArr _ => true | _ => false end
  && match JS.getOwn data "has_more" with
     | JBool b => Bool.eqb b hasMore
     | _ => false
     end.

(** At least one page; every page but the last reports [has_more = true],
    the last reports [has_more = false]. *)
Fixpoint paginated (datas : list JSValue) : bool :=
  match datas with
  | [] => false
  | [data] => isPageWith false data
  | data :: rest => isPageWith true data && paginated rest
  end.

(** What a successful fetch of the pages [datas] adds to the trace, when
    the first call carries [cursor] and [count] records are already held. *)
Fixpoint pageEvents (databaseId : string) (cursor : JSValue) (count : nat)
    (datas : list JSValue) : list Event :=
  match datas with
  | [] => []
  | data :: rest =>
      let count' := count + List.length (resultsOf data) in
      Request (queryUrl databaseId) (Some (queryBody cursor))
      :: Status ("Fetched " ++ Str.ofNat count' ++ " pages...")
      :: pageEvents databaseId (cursorOf data) count' rest
  end.

(** The cursors of the successive calls: none, then each page's. *)
Definition cursorsSent (datas : list JSValue) : list JSValue :=
  JUndefined :: map cursorOf (removelast datas).

(** The cursor the call after [datas] carries. *)
Definition cursorAfter (cursor : JSValue) (datas : list JSValue) : JSValue :=
  last (map cursorOf datas) cursor.

(** The [requestUrl] calls of a trace. *)
Fixpoint requestsOf (events : list Event) : list (string * option JSValue) :=
  match events with
  | [] => []
  | Request url body :: rest => (url, body) :: requestsOf rest
  | _ :: rest => requestsOf rest
  end.

(** The [ctx.reportFailed] calls of a trace. *)
Fixpoint failuresOf (events : list Event) : list (string * Exn) :=
  match events with
  | [] => []
  | Failed name error :: rest => (name, error) :: failuresOf rest
  | _ :: rest => failuresOf rest
  end.

(** The [ctx.reportNoteSuccess] calls of a trace. *)
Fixpoint successesOf (events : list Event) : list string :=
  match events with
  | [] => []
  | NoteSuccess name :: rest => name :: successesOf rest
  | _ :: rest => successesOf rest
  end.

(** The world in which [import] calls [fetchAllPages], when the run started
    in [w], the database object was served and no cancellation was seen. *)
Definition atPagination (host : Host) (this : Importer) (w : World host)
    : World host :=
  {| replies := tl (replies host w); cancelled := cancelled host w;
     polls := S (polls host w); vault := vault host w;
     trace := trace host w
              ++ [Status "Fetching database details...";
                  Request (databaseUrl (selectedDatabaseId this)) None;
                  Status "Fetching database pages..."] |}.

(** What a run adds to the trace when the page fetch after [datas] fails
    with [error]. *)
Definition abortedRunEvents (this : Importer) (selectedDatabase : NotionDatabase)
    (datas : list JSValue) (error : Exn) : list Event :=
  ([Status "Fetching database details...";
    Request (databaseUrl (selectedDatabaseId this)) None;
    Status "Fetching database pages..."]
   ++ pageEvents (selectedDatabaseId this) JUndefined 0 datas
   ++ [Request (queryUrl (selectedDatabaseId this))
         (Some (queryBody (cursorAfter JUndefined datas)));
       ConsoleError "Import failed:" error;
       Failed (db_title selectedDatabase) error;
       Notice "Import failed. Check the console for details."])%list.

(* ================================================================== *)
(** * Sample data *)
(* ================================================================== *)

(** A rollup payload over [items], as the API shapes it. *)
Definition rollupOf (items : list JSValue) : JSValue :=
  JObj [("id", JStr "r"); ("type", JStr "rollup");
        ("rollup", JObj [("type", JStr "array"); ("array", JArr items);
                         ("function", JStr "show_original")])].

(** A payload whose type tag the extractor does not know. *)
Definition unknownPayload : JSValue :=
  JObj [("type", JStr "status"); ("status", JObj [("name", JStr "Done")])].

(** A formula payload without its computed value. *)
Definition formulaWithoutValue : JSValue :=
  JObj [("id", JStr "f"); ("type", JStr "formula")].

(** A nested payload: a rollup of a formula over a number and of a text. *)
Definition nestedPayload : JSValue :=
  rollupOf
    [JObj [("type", JStr "formula");
           ("formula", JObj [("type", JStr "number"); ("number", JNum 7)])];
     JObj [("type", JStr "rich_text");
           ("rich_text", JArr [JObj [("plain_text", JStr "seven")]])]].

Module Sample.

Definition textRun (s : string) : JSValue :=
  JObj [("type", JStr "text"); ("plain_text", JStr s)].

Definition titleOf (s : string) : JSValue :=
  JObj [("id", JStr "title"); ("type", JStr "title"); ("title", JArr [textRun s])].

Definition numberOf (n : JSValue) : JSValue :=
  JObj [("id", JStr "n"); ("type", JStr "number"); ("number", n)].

Definition checkboxOf (b : bool) : JSValue :=
  JObj [("id", JStr "c"); ("type", JStr "checkbox"); ("checkbox", JBool b)].

Definition richTextOf (s : string) : JSValue :=
  JObj [("id", JStr "t"); ("type", JStr "rich_text"); ("rich_text", JArr [textRun s])].

Definition typed (tag : string) : JSValue :=
  JObj [("id", JStr tag); ("type", JStr tag)].

Definition pageOf (id : string) (properties : list (string * JSValue)) : JSValue :=
  JObj [("object", JStr "page"); ("id", JStr id);
        ("created_time", JStr "2024-01-01T00:00:00.000Z");
        ("last_edited_time", JStr "2024-01-02T00:00:00.000Z");
        ("properties", JObj properties)].

(** The database of the specification's end-to-end scenario: a title, a
    number property [count] and a checkbox property [done]. *)
Definition schema : JSValue :=
  JObj [("object", JStr "database");
        ("properties", JObj [("Name", typed "title"); ("count", typed "number");
                             ("done", typed "checkbox"); ("note", typed "rich_text")])].

(** Record A: [count] is 0, [done] is false. *)
Definition recordA : JSValue :=
  pageOf "a" [("Name", titleOf "A"); ("count", numberOf (JNum 0));
              ("done", checkboxOf false)].

(** Record B: [count] is null, [done] is false. *)
Definition recordB : JSValue :=
  pageOf "b" [("Name", titleOf "B"); ("count", numberOf JNull);
              ("done", checkboxOf false)].

(** A text of two lines. *)
Definition twoLines : string := "line one" ++ newline ++ "line two".

Definition recordC : JSValue :=
  pageOf "c" [("Name", titleOf "C"); ("note", richTextOf twoLines)].

(** A database whose title property has the empty name, and a record of it. *)
Definition unnamedSchema : JSValue :=
  JObj [("object", JStr "database"); ("properties", JObj [("", typed "title")])].

Definition unnamedRecord : JSValue := pageOf "u" [("", titleOf "Plan")].

(** A record whose formula payload lacks its value. *)
Definition brokenRecord : JSValue :=
  pageOf "x" [("Name", titleOf "X"); ("total", formulaWithoutValue)].

End Sample.

(** A host that keeps the vault as the list of files written, oldest first,
    and refuses to write a note whose title is in [unwritable]. *)
Definition listHost (unwritable : list string) : Host :=
  {| Vault := list (string * string);
     sanitizeFilePath := fun name => name;
     saveAsMarkdownFile := fun folder title markdown files =>
       if existsb (String.eqb title) unwritable
       then (Throw (HostError "write failed"), files)
       else (Normal tt, List.app files [(path folder ++ "/" ++ title ++ ".md", markdown)]);
     vaultCreate := fun filePath content files =>
       (Normal tt, List.app files [(filePath, content)]);
     getOutputFolder := fun _ => Normal (Some {| path := "Notion" |}) |}.

Module Scenario.

Definition database : NotionDatabase :=
  {| db_id := "db1"; db_title := "Tasks"; db_properties := ["Name"; "count"; "done"] |}.

Definition importer : Importer :=
  {| notionToken := "secret_token"; selectedDatabaseId := "db1";
     databases := [database]; createBaseFiles := true |}.

Definition page (results : list JSValue) (hasMore : bool) (cursor : JSValue) : JSValue :=
  JObj [("object", JStr "list"); ("results", JArr results);
        ("next_cursor", cursor); ("has_more", JBool hasMore)].

Definition world (host : Host) (v : Vault host) (script : list Reply)
    (cancel : nat -> bool) : World host :=
  {| replies := script; cancelled := cancel; polls := 0; vault := v; trace := [] |}.

Definition never : nat -> bool := fun _ => false.
Definition always : nat -> bool := fun _ => true.

(** Two pages of one record each. *)
Definition twoPages : list JSValue :=
  [page [Sample.recordA] true (JStr "cursor-1"); page [Sample.recordB] false JNull].

(** The specification's end-to-end scenario: the database object, then the
    two pages, into an empty vault, never cancelled. *)
Definition start : World (listHost []) :=
  world (listHost []) [] (Json Sample.schema :: map Json twoPages) never.

(** The paginator entered when cancellation is already signalled. *)
Definition cancelledStart : World (listHost []) :=
  world (listHost []) [] (map Json twoPages) always.

End Scenario.

Module Aborted.

(** One page that reports more, then a transport error. *)
Definition error : Exn := HostError "net::ERR_CONNECTION_RESET".

Definition firstPage : JSValue :=
  Scenario.page [Sample.recordA] true (JStr "cursor-1").

Definition script : list Reply :=
  [Json Sample.schema; Json firstPage; Fails error].

Definition start : World (listHost []) :=
  Scenario.world (listHost []) [] script Scenario.never.

End Aborted.

Module Skipped.

(** A record that cannot be serialized, then one that can. *)
Definition folder : Folder := {| path := "Notion" |}.

Definition pages : list JSValue := [Sample.brokenRecord; Sample.recordA].

Definition start : World (listHost []) :=
  Scenario.world (listHost []) [] [] Scenario.never.

End Skipped.

(* ================================================================== *)
(** * Further readings *)
(* ================================================================== *)

(** Number of occurrences of a character. *)
Fixpoint countChar (c : ascii) (s : string) : nat :=
  match s with
  | EmptyString => 0
  | String d r => (if Ascii.eqb d c then 1 else 0) + countChar c r
  end.

(** The value part of a frontmatter line for the cleaned text [clean]. *)
Definition lineBody (quote : bool) (clean : string) : string :=
  if quote then quoted clean else clean.

(** The labels whose [case] ends in [.trim() || null]. *)
Definition trimmedLabel (label : PropertyTag) : bool :=
  match label with
  | TRichText | TMultiSelect | TUrl | TEmail | TPhoneNumber
  | TPeople | TFiles | TRelation | TRollup => true
  | _ => false
  end.

Module More.

(** A rollup that aggregates to a number, as the API shapes it. *)
Definition numericRollup : JSValue :=
  JObj [("id", JStr "r"); ("type", JStr "rollup");
        ("rollup", JObj [("type", JStr "number"); ("number", JNum 42);
                         ("function", JStr "sum")])].

(** A formula that computes a text. *)
Definition textFormula : JSValue :=
  JObj [("id", JStr "f"); ("type", JStr "formula");
        ("formula", JObj [("type", JStr "string"); ("string", JStr "hello")])].

(** A multi-select with padded option names. *)
Definition paddedOptions : JSValue :=
  JObj [("id", JStr "m"); ("type", JStr "multi_select");
        ("multi_select", JArr [JObj [("name", JStr " red")];
                               JObj [("name", JStr "blue  ")]])].

End More.

(** The computation leaves an observation [f] of the world as it found it,
    however it settles. *)
Definition preserves {host : Host} {X A : Type} (f : World host -> X)
    (m : Async host A) : Prop :=
  forall w, f (snd (m w)) = f w.

(** Observations of a world: the failures and the successes reported so
    far. *)
Definition failuresSoFar {host : Host} (w : World host) : list (string * Exn) :=
  failuresOf (trace host w).

Definition successesSoFar {host : Host} (w : World host) : list string :=
  successesOf (trace host w).

(** The event is neither a [ctx.reportFailed] nor a [ctx.reportNoteSuccess]
    call. *)
Definition isReport (e : Event) : bool :=
  match e with
  | Failed _ _ | NoteSuccess _ => true
  | _ => false
  end.

Module Midway.

(** Two pages that both report more, a third one behind them; cancellation
    is signalled from the third poll on. *)
Definition served : list JSValue :=
  [Scenario.page [Sample.recordA] true (JStr "cursor-1");
   Scenario.page [Sample.recordB] true (JStr "cursor-2")].

Definition unread : list Reply :=
  [Json (Scenario.page [Sample.recordC] false JNull)].

Definition start : World (listHost []) :=
  Scenario.world (listHost []) [] (map Json served ++ unread)%list
    (fun k => (2 <=? k)%nat).

End Midway.

(** One of the four guards of lines 148-168 stops the run, in the order
    the code tests them: the fourth is reached with the folder that
    [getOutputFolder] returned. *)
Definition misconfigured (host : Host) (this : Importer) (w : World host) : Prop :=
  Str.isEmpty (notionToken this) = true
  \/ Str.isEmpty (selectedDatabaseId this) = true
  \/ getOutputFolder host (vault host w) = Normal None
  \/ ((exists folder, getOutputFolder host (vault host w) = Normal (Some folder))
      /\ find (fun db => String.eqb (db_id db) (selectedDatabaseId this))
              (databases this)
         = None).

(** The [ctx.reportProgress] calls of a trace. *)
Fixpoint progressOf (events : list Event) : list (nat * nat) :=
  match events with
  | [] => []
  | Progress current total :: rest => (current, total) :: progressOf rest
  | _ :: rest => progressOf rest
  end.

Module Misuse.

(** The importer before a token was entered. *)
Definition noToken : Importer :=
  {| notionToken := ""; selectedDatabaseId := ""; databases := [];
     createBaseFiles := true |}.

(** The scenario with cancellation signalled from the start. *)
Definition cancelledRun : World (listHost []) :=
  Scenario.world (listHost []) [] (Json Sample.schema :: map Json Scenario.twoPages)
    Scenario.always.

(** A host whose [getOutputFolder] rejects (the folder cannot be created,
    say), and the scenario started on it. *)
Definition folderError : Exn := HostError "Folder already exists.".

Definition lockedHost : Host :=
  {| Vault := list (string * string);
     sanitizeFilePath := sanitizeFilePath (listHost []);
     saveAsMarkdownFile := saveAsMarkdownFile (listHost []);
     vaultCreate := vaultCreate (listHost []);
     getOutputFolder := fun _ => Throw folderError |}.

Definition lockedStart : World lockedHost :=
  Scenario.world lockedHost [] (Json Sample.schema :: map Json Scenario.twoPages)
    Scenario.never.

End Misuse.

(** The calls made on the import context [ctx], which is the reporting
    channel of a run: [status], [reportNoteSuccess], [reportProgress] and
    [reportFailed].  Notices, console logs and requests go elsewhere. *)
Definition throughContext (e : Event) : bool :=
  match e with
  | Status _ | NoteSuccess _ | Progress _ _ | Failed _ _ => true
  | Notice _ | ConsoleError _ _ | Request _ _ => false
  end.

Module Unreported.

(** A complete run over one page of two records, the first of which cannot
    be serialized. *)
Definition start : World (listHost []) :=
  Scenario.world (listHost []) []
    [Json Sample.schema; Json (Scenario.page Skipped.pages false JNull)]
    Scenario.never.

End Unreported.

(* ================================================================== *)
(** * Database directory: [loadDatabases] and [updateDatabaseDropdown] *)
(* ================================================================== *)

(** An element of [this.databases] as line 111 builds it.  The interface
    [NotionDatabase] declares [id] and [title] as strings; at run time they
    are whatever the search reply holds. *)
Record LoadedDatabase : Type := {
  ld_id : JSValue;
  ld_title : JSValue;
  ld_properties : list string
}.

(** The element read as a [NotionDatabase], when its [id] and [title] are
    the strings the interface declares. *)
Definition typedDatabase (db : LoadedDatabase) : option NotionDatabase :=
  match ld_id db, ld_title db with
  | JStr id, JStr title =>
      Some {| db_id := id; db_title := title; db_properties := ld_properties db |}
  | _, _ => None
  end.

(** The callback of lines 111-115. *)
Definition toDatabase (db : JSValue) : Completion LoadedDatabase :=
  id <- JS.member db "id" ;;
  title <- JS.member db "title" ;;
  let first := JS.optMember (JS.optMember title "0") "plain_text" in
  properties <- JS.member db "properties" ;;
  keys <- JS.keys (JS.or properties (JObj [])) ;;
  Normal {| ld_id := id;
            ld_title := JS.or first (JStr "Untitled Database");
            ld_properties := keys |}.

(** [recv.map(f)] on a value read from JSON. *)
Definition mapArray {B} (recv : JSValue) (f : JSValue -> Completion B)
    : Completion (list B) :=
  match recv with
  | JUndefined | JNull =>
      Throw (TypeError "Cannot read properties of null or undefined: map")
  | JArr l => mapC f l
  | _ => Throw (TypeError "map is not a function")
  end.

(** Lines 109-115: [data.results.map(...)]. *)
Definition mapDatabases (data : JSValue) : Completion (list LoadedDatabase) :=
  results <- JS.member data "results" ;;
  mapArray results toDatabase.

(** The calls made on the dropdown of the rebuilt setting. *)
Inductive DropdownCall : Type :=
| AddOption (value : JSValue) (display : string)
| SetDisabled (disabled : bool)
| OnChange.

(** [`${db.title} (${db.properties.length} properties)`] *)
Definition optionLabel (db : LoadedDatabase) : Completion string :=
  title <- JS.toString (ld_title db) ;;
  Normal (title ++ " (" ++ Str.ofNat (List.length (ld_properties db)) ++ " properties)").

(** The [forEach] of lines 137-139: the calls made, and the error that cut
    it short, if any. *)
Fixpoint addOptions (databases : list LoadedDatabase)
    : list DropdownCall * option Exn :=
  match databases with
  | [] => ([], None)
  | db :: rest =>
      match optionLabel db with
      | Throw error => ([], Some error)
      | Normal label =>
          let '(calls, thrown) := addOptions rest in
          (AddOption (ld_id db) label :: calls, thrown)
      end
  end.

(** Lines 124-145: the calls on the new dropdown, and the error thrown, if
    any. *)
Definition updateDatabaseDropdown (databases : list LoadedDatabase)
    : list DropdownCall * option Exn :=
  match databases with
  | [] => ([AddOption (JStr "") "No databases found"; SetDisabled true], None)
  | _ =>
      let '(calls, thrown) := addOptions databases in
      match thrown with
      | Some error => (AddOption (JStr "") "Select a database..." :: calls, Some error)
      | None =>
          ((AddOption (JStr "") "Select a database..." :: calls) ++ [OnChange], None)%list
      end
  end.

(** What a call of [loadDatabases] leaves behind: the new value of
    [this.databases] ([None] when it was not assigned) and the calls made on
    a rebuilt dropdown (none when it was not rebuilt). *)
Record Loaded : Type := {
  assigned : option (list LoadedDatabase);
  dropdown : list DropdownCall
}.

Definition searchUrl : string := "https://api.notion.com/v1/search".

(** The object handed to [JSON.stringify] at lines 104-106. *)
Definition searchBody : JSValue :=
  JObj [("filter", JObj [("property", JStr "object"); ("value", JStr "database")])].

Section DirectoryRun.

Variable host : Host.

(** The [catch] block of lines 118-121. *)
Definition loadFailed {A} (error : Exn) (result : A) : Async host A :=
  emit (ConsoleError "Failed to load databases:" error) ;;;
  emit (Notice "Failed to load databases. Check your token and try again.") ;;;
  ret result.

(** Lines 92-122, for the token the importer holds. *)
Definition loadDatabases (token : string) : Async host Loaded :=
  if Str.isEmpty token then ret {| assigned := None; dropdown := [] |}
  else
    fun w =>
      match requestUrl searchUrl (Some searchBody) w with
      | (Fulfilled data, w1) =>
          match mapDatabases data with
          | Throw error => loadFailed error {| assigned := None; dropdown := [] |} w1
          | Normal databases =>
              match updateDatabaseDropdown databases with
              | (calls, None) =>
                  (Fulfilled {| assigned := Some databases; dropdown := calls |}, w1)
              | (calls, Some error) =>
                  loadFailed error {| assigned := Some databases; dropdown := calls |} w1
              end
          end
      | (Rejected error, w1) =>
          loadFailed error {| assigned := None; dropdown := [] |} w1
      | (Pending, w1) => (Pending, w1)
      end.

(** The [onChange] handler of lines 56-61: the token it stores, and what
    loading left behind. *)
Definition onTokenChange (value : string) : Async host (string * Loaded) :=
  let token := Str.trim value in
  if Str.isEmpty token then ret (token, {| assigned := None; dropdown := [] |})
  else loaded <~ loadDatabases token ;; ret (token, loaded).

End DirectoryRun.

Module Directory.

(** A database object of the search reply. *)
Definition databaseOf (id : string) (title : list string)
    (properties : list (string * JSValue)) : JSValue :=
  JObj [("object", JStr "database"); ("id", JStr id);
        ("title", JArr (map Sample.textRun title));
        ("properties", JObj properties)].

Definition tasks : JSValue :=
  databaseOf "db1" ["Tasks"]
    [("Name", Sample.typed "title"); ("count", Sample.typed "number");
     ("done", Sample.typed "checkbox")].

Definition untitled : JSValue := databaseOf "db2" [] [("Name", Sample.typed "title")].

Definition reply : JSValue :=
  JObj [("object", JStr "list"); ("results", JArr [tasks; untitled]);
        ("has_more", JBool false)].

Definition start : World (listHost []) :=
  Scenario.world (listHost []) [] [Json reply] Scenario.never.

Definition offline : World (listHost []) :=
  Scenario.world (listHost []) [] [Fails (HostError "net::ERR_INTERNET_DISCONNECTED")]
    Scenario.never.

End Directory.

(** The option [updateDatabaseDropdown] adds for a database whose title is
    the string [title]. *)
Definition optionOf (db : LoadedDatabase) (title : string) : DropdownCall :=
  AddOption (ld_id db)
    (title ++ " (" ++ Str.ofNat (List.length (ld_properties db)) ++ " properties)").

(** The title of a loaded database, when it is a string. *)
Definition titleText (db : LoadedDatabase) : string :=
  match ld_title db with
  | JStr title => title
  | _ => EmptyString
  end.

Definition hasTextTitle (db : LoadedDatabase) : bool :=
  match ld_title db with
  | JStr _ => true
  | _ => false
  end.
(* ================================================================== *)
(** * Properties: JavaScript layer *)
(* ================================================================== *)

Lemma bindC_inv {A B} (c : Completion A) (k : A -> Completion B) (b : B) :
  bindC c k = Normal b -> exists a, c = Normal a /\ k a = Normal b.
Proof. destruct c as [a|e]; simpl; intros H; [exists a; auto | discriminate]. Qed.

Lemma withField_lookup {A} (k : string) (fs : list (string * JSValue))
    (absent : A) (present : JSValue -> A) :
  withField k fs absent present =
  match JS.lookup k fs with
  | Some v => present v
  | None => absent
  end.
Proof.
  unfold withField.
  induction fs as [|[k' v] r IH]; simpl; [reflexivity|].
  destruct (String.eqb k' k); [reflexivity | exact IH].
Qed.

Lemma lookup_In (k : string) (fs : list (string * JSValue)) (v : JSValue) :
  JS.lookup k fs = Some v -> In (k, v) fs.
Proof.
  induction fs as [|[k' x] r IH]; simpl; [discriminate|].
  destruct (String.eqb k' k) eqn:E.
  - apply String.eqb_eq in E. intros [= ->]. left; congruence.
  - intros H. right. auto.
Qed.

Lemma In_size_field (k : string) (v : JSValue) (fs : list (string * JSValue)) :
  In (k, v) fs -> size v < size (JObj fs).
Proof.
  simpl. induction fs as [|[k' x] r IH]; simpl; [tauto|].
  intros [[= -> ->] | H]; [lia|]. apply IH in H. lia.
Qed.

Lemma In_size_item (x : JSValue) (l : list JSValue) :
  In x l -> size x < size (JArr l).
Proof.
  simpl. induction l as [|y r IH]; simpl; [tauto|].
  intros [-> | H]; [lia|]. apply IH in H. lia.
Qed.

Lemma lookup_size (k : string) (fs : list (string * JSValue)) (v : JSValue) :
  JS.lookup k fs = Some v -> size v < size (JObj fs).
Proof. intros H. eapply In_size_field, lookup_In, H. Qed.

(** Induction on the size of a value. *)
Lemma size_induction (P : JSValue -> Prop) :
  (forall v, (forall u, size u < size v -> P u) -> P v) -> forall v, P v.
Proof.
  intros step v.
  assert (H : forall n u, size u < n -> P u).
  { induction n as [|n IH]; intros u Hu; [lia|].
    apply step. intros u' Hu'. apply IH. lia. }
  apply (H (S (size v))). lia.
Qed.

Lemma mapC_Normal {A B} (f : A -> Completion B) (g : A -> B) (l : list A) :
  Forall (fun x => f x = Normal (g x)) l -> mapC f l = Normal (map g l).
Proof.
  induction 1 as [|x r Hx _ IH]; simpl; [reflexivity|].
  rewrite Hx, IH. reflexivity.
Qed.

Lemma mapC_total {A B} (f : A -> Completion B) (Q : B -> Prop) (l : list A) :
  Forall (fun x => exists y, f x = Normal y /\ Q y) l ->
  exists ys, mapC f l = Normal ys /\ Forall Q ys.
Proof.
  induction 1 as [|x r [y [Hy Qy]] _ [ys [IH Qys]]]; simpl.
  - exists []. auto.
  - rewrite Hy, IH. simpl. exists (y :: ys). auto.
Qed.

Lemma toString_primitive (v : JSValue) :
  isPrimitive v = true -> exists s, JS.toString v = Normal s.
Proof.
  destruct v as [| |[|]| | | |]; simpl; intros H; try discriminate; eauto.
Qed.

Lemma joinElement_primitive (v : JSValue) :
  isPrimitive v = true -> exists s, JS.joinElement v = Normal s.
Proof.
  intros H. unfold JS.joinElement.
  destruct (JS.isNullish v); [eauto | apply toString_primitive, H].
Qed.

Lemma join_primitives (sep : string) (l : list JSValue) :
  Forall (fun v => isPrimitive v = true) l -> exists s, JS.join sep l = Normal s.
Proof.
  intros H. unfold JS.join.
  destruct (mapC_total JS.joinElement (fun _ => True) l) as [strs [E _]].
  - eapply Forall_impl; [|exact H]. intros v Hv.
    destruct (joinElement_primitive v Hv) as [s Hs]. eauto.
  - rewrite E. simpl. eauto.
Qed.

Lemma trimOrNull_total (joined : JSValue) :
  (joined = JUndefined \/ exists s, joined = JStr s) ->
  exists v, JS.trimOrNull joined = Normal v /\ isPrimitive v = true.
Proof.
  intros [-> | [s ->]]; unfold JS.trimOrNull, JS.or; simpl.
  - exists JNull. auto.
  - destruct (Str.isEmpty s) eqn:E; simpl.
    + destruct s; [|discriminate]. simpl. exists JNull. auto.
    + destruct (Str.isEmpty (Str.trim s)); simpl; eauto.
Qed.

(** [recv?.map(f).join(sep)] settles on a string or [undefined] when the
    receiver is an absent sequence or an array on whose elements the callback
    returns primitives. *)
Lemma optMapJoin_total (recv : JSValue) (f : JSValue -> Completion JSValue)
    (sep : string) (ok : JSValue -> bool) :
  optArrayOf ok recv = true ->
  (forall x, ok x = true -> exists y, f x = Normal y /\ isPrimitive y = true) ->
  exists joined, JS.optMapJoin recv f sep = Normal joined
                 /\ (joined = JUndefined \/ exists s, joined = JStr s).
Proof.
  intros Hrecv Hf.
  destruct recv as [| | | | |l|]; simpl in *; try discriminate; eauto.
  destruct (mapC_total f (fun y => isPrimitive y = true) l) as [ys [E Hys]].
  - rewrite forallb_forall in Hrecv. apply Forall_forall.
    intros x Hx. apply Hf, Hrecv, Hx.
  - rewrite E. simpl.
    destruct (join_primitives sep ys Hys) as [s Hs].
    rewrite Hs. simpl. eauto.
Qed.

(* ================================================================== *)
(** * Properties: property value extractor *)
(* ================================================================== *)

Lemma recordOf_member (ks : list string) (v : JSValue) (k : string) :
  recordOf ks v = true -> In k ks ->
  JS.member v k = Normal (JS.getOwn v k) /\ isPrimitive (JS.getOwn v k) = true.
Proof.
  unfold recordOf. intros H Hk.
  apply andb_true_iff in H as [Hobj Hall].
  rewrite forallb_forall in Hall.
  destruct v; try discriminate. split; [reflexivity | apply Hall, Hk].
Qed.

Lemma optRecordOf_optMember (ks : list string) (v : JSValue) (k : string) :
  optRecordOf ks v = true -> In k ks -> isPrimitive (JS.optMember v k) = true.
Proof.
  unfold optRecordOf. intros H Hk.
  apply orb_true_iff in H as [H | H].
  - destruct v; try discriminate; reflexivity.
  - destruct (recordOf_member ks v k H Hk) as [E P].
    unfold JS.optMember. rewrite E. exact P.
Qed.

Lemma or_primitive (a b : JSValue) :
  isPrimitive a = true -> isPrimitive b = true -> isPrimitive (JS.or a b) = true.
Proof. unfold JS.or. destruct (JS.truthy a); auto. Qed.

Lemma plainText_total (x : JSValue) :
  recordOf ["plain_text"] x = true ->
  exists y, plainText x = Normal y /\ isPrimitive y = true.
Proof.
  intros H. destruct (recordOf_member _ _ "plain_text" H) as [E P]; [simpl; auto|].
  unfold plainText. rewrite E. eauto.
Qed.

Lemma itemName_total (x : JSValue) :
  recordOf ["name"] x = true ->
  exists y, itemName x = Normal y /\ isPrimitive y = true.
Proof.
  intros H. destruct (recordOf_member _ _ "name" H) as [E P]; [simpl; auto|].
  unfold itemName. rewrite E. eauto.
Qed.

Lemma relationId_total (x : JSValue) :
  recordOf ["id"] x = true ->
  exists y, relationId x = Normal y /\ isPrimitive y = true.
Proof.
  intros H. destruct (recordOf_member _ _ "id" H) as [E P]; [simpl; auto|].
  unfold relationId. rewrite E. eauto.
Qed.

Lemma personLabel_total (x : JSValue) :
  recordOf ["name"; "id"] x = true ->
  exists y, personLabel x = Normal y /\ isPrimitive y = true.
Proof.
  intros H.
  destruct (recordOf_member _ _ "name" H) as [E1 P1]; [simpl; auto|].
  destruct (recordOf_member _ _ "id" H) as [E2 P2]; [simpl; auto|].
  unfold personLabel. rewrite E1. simpl.
  destruct (JS.truthy (JS.getOwn x "name")); [eauto | rewrite E2; eauto].
Qed.

Lemma fileLabel_total (x : JSValue) :
  fileShape x = true ->
  exists y, fileLabel x = Normal y /\ isPrimitive y = true.
Proof.
  unfold fileShape. intros H.
  apply andb_true_iff in H as [H Hext]. apply andb_true_iff in H as [Hname Hfile].
  destruct (recordOf_member _ _ "name" Hname) as [E1 P1]; [simpl; auto|].
  assert (Hobj : isObject x = true).
  { unfold recordOf in Hname. apply andb_true_iff in Hname. tauto. }
  destruct x as [| | | | | |fs]; try discriminate.
  unfold fileLabel. rewrite E1. simpl bindC.
  destruct (JS.truthy _); [eauto|].
  cbn [JS.member bindC].
  destruct (JS.truthy (JS.optMember _ "url")) eqn:Eurl.
  - eexists; split; [reflexivity|].
    apply (optRecordOf_optMember ["url"]); [exact Hfile | simpl; auto].
  - eexists; split; [reflexivity|].
    apply (optRecordOf_optMember ["url"]); [exact Hext | simpl; auto].
Qed.

Lemma optTrim_total (v : JSValue) :
  optString v = true ->
  exists t, JS.optTrim v = Normal t /\ isPrimitive t = true.
Proof. destruct v; simpl; intros H; try discriminate; eauto. Qed.

(** The extractor on a payload of one of the twelve flat types. *)
Lemma extract_flat (fields : list (string * JSValue)) :
  let label := switchLabel (JS.getOwn (JObj fields) "type") in
  label <> TFormula -> label <> TRollup ->
  flatShape label (JObj fields) = true ->
  exists v, extractPropertyValue (JObj fields) = Normal v /\ isPrimitive v = true.
Proof.
  intros label Hf Hr Hshape.
  cbn [extractPropertyValue]. fold label.
  destruct label eqn:El; try congruence; cbn [flatShape] in Hshape.
  - destruct (optMapJoin_total _ plainText "" _ Hshape plainText_total) as [j [E Hj]].
    rewrite E. simpl bindC. apply trimOrNull_total, Hj.
  - eexists; split; [reflexivity|]. unfold presentOrNull.
    destruct (JS.isNullish _); auto.
  - eexists; split; [reflexivity|]. apply or_primitive; [|reflexivity].
    apply (optRecordOf_optMember ["name"]); simpl; auto.
  - destruct (optMapJoin_total _ itemName ", " _ Hshape itemName_total) as [j [E Hj]].
    rewrite E. simpl bindC. apply trimOrNull_total, Hj.
  - eexists; split; [reflexivity|]. apply or_primitive; [|reflexivity].
    apply (optRecordOf_optMember ["start"]); simpl; auto.
  - eexists; split; [reflexivity|]. unfold presentOrNull.
    destruct (JS.isNullish _); auto.
  - destruct (optTrim_total _ Hshape) as [t [E P]]. rewrite E. simpl.
    eexists; split; [reflexivity|]. apply or_primitive; auto.
  - destruct (optTrim_total _ Hshape) as [t [E P]]. rewrite E. simpl.
    eexists; split; [reflexivity|]. apply or_primitive; auto.
  - destruct (optTrim_total _ Hshape) as [t [E P]]. rewrite E. simpl.
    eexists; split; [reflexivity|]. apply or_primitive; auto.
  - destruct (optMapJoin_total _ personLabel ", " _ Hshape personLabel_total) as [j [E Hj]].
    rewrite E. simpl bindC. apply trimOrNull_total, Hj.
  - destruct (optMapJoin_total _ fileLabel ", " _ Hshape fileLabel_total) as [j [E Hj]].
    rewrite E. simpl bindC. apply trimOrNull_total, Hj.
  - destruct (optMapJoin_total _ relationId ", " _ Hshape relationId_total) as [j [E Hj]].
    rewrite E. simpl bindC. apply trimOrNull_total, Hj.
  - eexists; split; reflexivity.
Qed.

(** The recursion equations of the two nesting cases, with the member reads
    written as in the source. *)
Lemma extract_formula (fields : list (string * JSValue)) :
  switchLabel (JS.getOwn (JObj fields) "type") = TFormula ->
  extractPropertyValue (JObj fields)
  = extractPropertyValue (JS.getOwn (JObj fields) "formula").
Proof.
  intros H. cbn [extractPropertyValue]. rewrite H.
  rewrite withField_lookup. unfold JS.getOwn. cbn [JS.ownEntries].
  destruct (JS.lookup "formula" fields); reflexivity.
Qed.

Lemma extract_rollup (fields : list (string * JSValue)) :
  switchLabel (JS.getOwn (JObj fields) "type") = TRollup ->
  extractPropertyValue (JObj fields)
  = (rollup <- JS.optMapJoin (rollupArray (JS.getOwn (JObj fields) "rollup"))
                 extractPropertyValue ", " ;;
     JS.trimOrNull rollup).
Proof.
  intros H. cbn [extractPropertyValue]. rewrite H.
  rewrite withField_lookup. unfold JS.getOwn. cbn [JS.ownEntries].
  destruct (JS.lookup "rollup" fields) as [rollup|]; [|reflexivity].
  destruct rollup as [| | | | | |rfields]; try reflexivity.
  rewrite withField_lookup. unfold rollupArray, JS.getOwn. cbn [JS.ownEntries].
  destruct (JS.lookup "array" rfields) as [array|]; [|reflexivity].
  destruct array; reflexivity.
Qed.

(** Index keys start with a digit, so no member the source names is one. *)
Lemma ofNat_head (n : nat) :
  exists c r, Str.ofNat n = String c r /\ Str.isDigit c = true.
Proof.
  unfold Str.ofNat, Str.ofZ.
  destruct (Z.of_nat n) as [|p|p] eqn:E; [| |lia].
  - exists "0"%char, EmptyString. split; reflexivity.
  - simpl. pose proof (DecimalPos.Unsigned.to_uint_nonnil p) as Hnil.
    destruct (Pos.to_uint p); try congruence; simpl;
      eexists; eexists; split; reflexivity.
Qed.

Lemma lookup_indexed_name {A} (k : string) (l : list A) (f : A -> JSValue) c r :
  k = String c r -> Str.isDigit c = false ->
  JS.lookup k (JS.indexed (map f l)) = None.
Proof.
  intros -> Hc. unfold JS.indexed.
  generalize (seq 0 (List.length (map f l))) as ns.
  induction (map f l) as [|x xs IH]; intros [|n ns]; simpl; try reflexivity.
  destruct (ofNat_head n) as [c' [r' [E D]]]. rewrite E.
  destruct (String.eqb (String c' r') (String c r)) eqn:Q.
  - apply String.eqb_eq in Q. injection Q as -> ->. congruence.
  - apply IH.
Qed.

Lemma getOwn_name_nonobject (v : JSValue) (k : string) c r :
  k = String c r -> Str.isDigit c = false -> isObject v = false ->
  JS.getOwn v k = JUndefined.
Proof.
  intros Hk Hc Hv. unfold JS.getOwn.
  destruct v as [| | | | s|l|fs]; try reflexivity; try discriminate; cbn [JS.ownEntries].
  - erewrite lookup_indexed_name; eauto.
  - rewrite <- (map_id l). erewrite lookup_indexed_name; eauto.
Qed.

(** A value that is neither an object nor nullish reads [type] as
    [undefined]: the [switch] takes [default], as the last branch of
    [extractPropertyValue] has it. *)
Lemma switchLabel_nonobject (v : JSValue) :
  isObject v = false -> switchLabel (JS.optMember v "type") = TOther.
Proof.
  intros Hv.
  destruct v as [| | | | s|l|fs]; try reflexivity; try discriminate;
    unfold JS.optMember, JS.member; cbn [String.eqb Ascii.eqb Bool.eqb];
    erewrite getOwn_name_nonobject; reflexivity.
Qed.

(** [rollupArray] is [rollup?.array]. *)
Lemma rollupArray_optMember (rollup : JSValue) :
  rollupArray rollup = JS.optMember rollup "array".
Proof.
  destruct rollup as [| | | | s|l|fs]; try reflexivity;
    unfold JS.optMember, JS.member; cbn [String.eqb Ascii.eqb Bool.eqb]; simpl rollupArray;
    symmetry; eapply getOwn_name_nonobject; reflexivity.
Qed.

Lemma wellShaped_formula (fields : list (string * JSValue)) :
  switchLabel (JS.getOwn (JObj fields) "type") = TFormula ->
  wellShaped (JObj fields) = true ->
  exists formula, JS.lookup "formula" fields = Some formula
                  /\ wellShaped formula = true.
Proof.
  intros El H. cbn [wellShaped] in H. rewrite El in H.
  rewrite withField_lookup in H.
  destruct (JS.lookup "formula" fields) as [formula|]; [eauto | discriminate].
Qed.

Lemma wellShaped_rollup (fields : list (string * JSValue)) :
  switchLabel (JS.getOwn (JObj fields) "type") = TRollup ->
  wellShaped (JObj fields) = true ->
  let array := rollupArray (JS.getOwn (JObj fields) "rollup") in
  JS.isNullish array = true
  \/ exists rfields items,
       JS.lookup "rollup" fields = Some (JObj rfields)
       /\ JS.lookup "array" rfields = Some (JArr items)
       /\ array = JArr items
       /\ forallb wellShaped items = true.
Proof.
  intros El H. cbn [wellShaped] in H. rewrite El in H.
  rewrite withField_lookup in H. unfold JS.getOwn. cbn [JS.ownEntries].
  destruct (JS.lookup "rollup" fields) as [rollup|]; [|left; reflexivity].
  destruct rollup as [| | | | | |rfields]; try discriminate; try (left; reflexivity).
  rewrite withField_lookup in H. unfold rollupArray, JS.getOwn. cbn [JS.ownEntries].
  destruct (JS.lookup "array" rfields) as [array|] eqn:Ea; [|left; reflexivity].
  destruct array as [| | | | |items|]; try discriminate; try (left; reflexivity).
  right. exists rfields, items. auto.
Qed.

(** The extractor on well-shaped payloads, by induction on their size. *)
Lemma extract_wellShaped (property : JSValue) :
  wellShaped property = true ->
  exists v, extractPropertyValue property = Normal v
            /\ isPrimitive v = true
            /\ (switchLabel (JS.getOwn property "type") = TOther -> v = JNull).
Proof.
  induction property as [property IH] using size_induction.
  intros Hshape.
  destruct property as [| | b|n|s|l|fields]; try discriminate;
    try (exists JNull; repeat split; reflexivity).
  destruct (switchLabel (JS.getOwn (JObj fields) "type")) eqn:El.
  15: { exists JNull. cbn [extractPropertyValue]. rewrite El. auto. }
  13: {
    destruct (wellShaped_formula fields El Hshape) as [formula [Hl Hf]].
    rewrite (extract_formula fields El). unfold JS.getOwn. cbn [JS.ownEntries].
    rewrite Hl.
    destruct (IH formula (lookup_size _ _ _ Hl) Hf) as [v [E [P _]]].
    exists v. repeat split; auto. discriminate. }
  13: {
    rewrite (extract_rollup fields El).
    destruct (wellShaped_rollup fields El Hshape) as [Hn | [rfields [items [Hr [Ha [Earr Hitems]]]]]].
    - destruct (rollupArray _); try discriminate; simpl;
        exists JNull; repeat split; auto.
    - rewrite Earr. cbn [JS.optMapJoin].
      destruct (mapC_total extractPropertyValue (fun y => isPrimitive y = true) items)
        as [ys [E Hys]].
      { rewrite forallb_forall in Hitems. apply Forall_forall. intros x Hx.
        destruct (IH x) as [v [Ev [Pv _]]]; eauto.
        pose proof (lookup_size _ _ _ Hr). pose proof (lookup_size _ _ _ Ha).
        pose proof (In_size_item _ _ Hx). lia. }
      rewrite E. cbn [bindC].
      destruct (join_primitives ", " ys Hys) as [s Hs]. rewrite Hs. cbn [bindC].
      destruct (trimOrNull_total (JStr s)) as [v [Ev Pv]]; [eauto|].
      exists v. repeat split; auto. discriminate. }
  all: cbn [wellShaped] in Hshape; rewrite El in Hshape;
    pose proof (extract_flat fields) as Hflat; cbv zeta in Hflat; rewrite El in Hflat;
    destruct (Hflat ltac:(discriminate) ltac:(discriminate) Hshape) as [v [E P]];
    exists v; repeat split; auto; discriminate.
Qed.

(** C2 (amended): on every well-shaped payload, nested formulas and rollups
    of any depth included, the extractor returns without raising, and what it
    returns is a string, a number, a boolean or [null]; a payload whose type
    tag is none of the fourteen known ones yields [null]. *)
Theorem extractPropertyValue_total_on_wellShaped (property : JSValue) :
  wellShaped property = true ->
  exists v, extractPropertyValue property = Normal v
            /\ isPrimitive v = true
            /\ (switchLabel (JS.getOwn property "type") = TOther -> v = JNull).
Proof. exact (extract_wellShaped property). Qed.

Lemma extractPropertyValue_total_witness :
  wellShaped nestedPayload = true
  /\ exists v, extractPropertyValue nestedPayload = Normal v
               /\ isPrimitive v = true
               /\ (switchLabel (JS.getOwn nestedPayload "type") = TOther -> v = JNull).
Proof.
  split; [reflexivity|].
  apply (extractPropertyValue_total_on_wellShaped nestedPayload). reflexivity.
Defined.

(** C2 (as stated) fails: a formula payload that lacks its computed value
    makes the extractor raise a [TypeError] instead of yielding [null]. *)
Lemma extractPropertyValue_raises_on_malformed :
  extractPropertyValue formulaWithoutValue
  = Throw (TypeError "Cannot read properties of null or undefined: type")
  /\ ~ (forall property, exists v, extractPropertyValue property = Normal v).
Proof.
  split; [reflexivity|].
  intros H. destruct (H formulaWithoutValue) as [v Hv]. discriminate.
Qed.

(* ------------------------------------------------------------------ *)
(** ** Rollups whose elements all extract to [null] *)

Lemma join_empties_step (k : nat) :
  Str.join ", " (repeat EmptyString (S (S k)))
  = String "," (String " " (Str.join ", " (repeat EmptyString (S k)))).
Proof. reflexivity. Qed.

Lemma commas_step (k : nat) :
  Str.join " " (repeat "," (S (S k)))
  = String "," (String " " (Str.join " " (repeat "," (S k)))).
Proof. reflexivity. Qed.

Lemma commas_nonempty (k : nat) :
  Str.isEmpty (Str.join " " (repeat "," (S k))) = false.
Proof. destruct k; reflexivity. Qed.

Lemma trimEnd_empties (k : nat) :
  Str.trimEnd (Str.join ", " (repeat EmptyString (S k)))
  = Str.join " " (repeat "," k).
Proof.
  induction k as [|k IH]; [reflexivity|].
  rewrite join_empties_step. cbn [Str.trimEnd]. rewrite IH.
  destruct k as [|k]; [reflexivity|].
  rewrite commas_step.
  change (Str.isWhite ",") with false. change (Str.isWhite " ") with true.
  rewrite commas_nonempty. reflexivity.
Qed.

Lemma trim_empties (k : nat) :
  Str.trim (Str.join ", " (repeat EmptyString (S k)))
  = Str.join " " (repeat "," k).
Proof.
  unfold Str.trim. destruct k as [|k]; [reflexivity|].
  rewrite join_empties_step. cbn [Str.trimStart]. 
  change (Str.isWhite ",") with false. cbv iota.
  rewrite <- join_empties_step. apply trimEnd_empties.
Qed.

Lemma onlySeparators_commas (k : nat) :
  onlySeparators (Str.join " " (repeat "," k)) = true.
Proof.
  induction k as [|k IH]; [reflexivity|].
  destruct k as [|k]; [reflexivity|].
  rewrite commas_step. unfold onlySeparators in *. simpl in *. exact IH.
Qed.

Lemma join_nulls (items : list JSValue) :
  JS.join ", " (map (fun _ => JNull) items)
  = Normal (Str.join ", " (repeat EmptyString (List.length items))).
Proof.
  unfold JS.join.
  rewrite (mapC_Normal JS.joinElement (fun _ => EmptyString)).
  - simpl. rewrite map_map. f_equal. f_equal.
    induction items; simpl; congruence.
  - apply Forall_forall. intros x Hx. apply in_map_iff in Hx as [? [<- _]]. reflexivity.
Qed.

(** A rollup over [n >= 2] elements that all extract to [null] yields
    [n - 1] commas separated by single spaces. *)
Lemma extract_rollup_of_nulls (items : list JSValue) :
  2 <= List.length items ->
  Forall (fun item => extractPropertyValue item = Normal JNull) items ->
  extractPropertyValue (rollupOf items)
  = Normal (JStr (Str.join " " (repeat "," (List.length items - 1)))).
Proof.
  intros Hlen Hnull.
  unfold rollupOf. rewrite extract_rollup; [|reflexivity].
  change (rollupArray _) with (JArr items). cbn [JS.optMapJoin].
  rewrite (mapC_Normal extractPropertyValue (fun _ => JNull) items Hnull).
  cbn [bindC]. rewrite join_nulls. cbn [bindC].
  destruct (List.length items) as [|[|k]]; try lia.
  replace (S (S k) - 1) with (S k) by lia.
  unfold JS.trimOrNull, JS.or.
  rewrite join_empties_step at 1. cbn [JS.truthy Str.isEmpty negb JS.optTrim bindC].
  rewrite trim_empties. rewrite commas_step || idtac.
  destruct k; reflexivity.
Qed.

(** C10: there is a rollup payload whose aggregated array has two elements,
    each extracting to [null], on which the extractor returns not [null] but
    a non-empty string made of separator characters only. *)
Theorem rollup_of_nulls_is_separators :
  exists items s,
    2 <= List.length items
    /\ Forall (fun item => extractPropertyValue item = Normal JNull) items
    /\ extractPropertyValue (rollupOf items) = Normal (JStr s)
    /\ JStr s <> JNull
    /\ s <> EmptyString
    /\ onlySeparators s = true.
Proof.
  exists [unknownPayload; unknownPayload], ",".
  assert (Hnull : Forall (fun item => extractPropertyValue item = Normal JNull)
                         [unknownPayload; unknownPayload]).
  { repeat constructor. }
  split; [simpl; lia|].
  split; [exact Hnull|].
  split; [rewrite extract_rollup_of_nulls; [reflexivity | simpl; lia | exact Hnull]|].
  repeat split; try discriminate.
Qed.

(* ================================================================== *)
(** * Properties: document serializer *)
(* ================================================================== *)

Lemma includes_app (c : ascii) (s t : string) :
  Str.includes c (s ++ t) = Str.includes c s || Str.includes c t.
Proof.
  induction s as [|d r IH]; simpl; [reflexivity|].
  rewrite IH. apply orb_assoc.
Qed.

(** A replacement neither adds nor removes a character that is neither the
    pattern nor part of the replacement text. *)
Lemma includes_replaceAll_other (c d : ascii) (by_ s : string) :
  Ascii.eqb d c = false -> Str.includes c by_ = false ->
  Str.includes c (Str.replaceAll d by_ s) = Str.includes c s.
Proof.
  intros Hd Hby. induction s as [|x r IH]; simpl; [reflexivity|].
  destruct (Ascii.eqb x d) eqn:E.
  - apply Ascii.eqb_eq in E. subst x.
    rewrite includes_app, Hby, IH, Hd. reflexivity.
  - simpl. rewrite IH. reflexivity.
Qed.

(** After [replace(/c/g, by)] no [c] is left, if [by] holds none. *)
Lemma includes_replaceAll_same (c : ascii) (by_ s : string) :
  Str.includes c by_ = false ->
  Str.includes c (Str.replaceAll c by_ s) = false.
Proof.
  intros Hby. induction s as [|x r IH]; simpl; [reflexivity|].
  destruct (Ascii.eqb x c) eqn:E.
  - rewrite includes_app, Hby, IH. reflexivity.
  - simpl. rewrite E, IH. reflexivity.
Qed.

(** The cleaned value never holds a line feed: the second disjunct of the
    test of line 295 is never true. *)
Lemma cleanValue_no_newline (s : string) :
  Str.includes Str.LF (cleanValue s) = false.
Proof.
  unfold cleanValue.
  rewrite includes_replaceAll_other by reflexivity.
  apply includes_replaceAll_same. reflexivity.
Qed.

Lemma cleanValue_colon (s : string) :
  Str.includes Str.colon (cleanValue s) = Str.includes Str.colon s.
Proof.
  unfold cleanValue.
  rewrite !includes_replaceAll_other by reflexivity. reflexivity.
Qed.

(** What the quoting test of line 295 decides. *)
Lemma needsQuotes_cleanValue (s : string) :
  needsQuotes (cleanValue s)
  = Str.includes Str.colon s || (100 <? String.length (cleanValue s))%nat.
Proof.
  unfold needsQuotes.
  rewrite cleanValue_no_newline, cleanValue_colon, orb_false_r. reflexivity.
Qed.

(** The guard of line 292 drops every falsy value: [null], the empty
    string, and also the number 0 and [false]. *)
Lemma frontmatterLine_falsy (key : string) (value : JSValue) :
  JS.truthy value = false -> frontmatterLine key value = Normal "".
Proof. intros H. unfold frontmatterLine. rewrite H. reflexivity. Qed.

(** C1, evaluated on the specification's scenario: record A, whose [count]
    extracts to the number 0 and whose [done] extracts to [false], is
    serialized to a frontmatter that holds the three metadata lines only;
    neither a [count: 0] nor a [done: false] line is emitted. *)
Theorem zero_count_gets_no_frontmatter_line :
  extractPropertyValue (Sample.numberOf (JNum 0)) = Normal (JNum 0)
  /\ propertyLine Sample.schema ("count", Sample.numberOf (JNum 0)) = Normal ""
  /\ propertyLine Sample.schema ("done", Sample.checkboxOf false) = Normal ""
  /\ frontmatter Sample.recordA Sample.schema
     = Normal ("---" ++ newline
               ++ "notion_id: a" ++ newline
               ++ "created: 2024-01-01T00:00:00.000Z" ++ newline
               ++ "updated: 2024-01-02T00:00:00.000Z" ++ newline).
Proof. repeat split; reflexivity. Qed.

(** C3, evaluated on a text of two lines: the extracted value holds a line
    feed and neither a colon nor more than 100 characters; the line feed is
    collapsed to a space and the value is emitted without quotes. *)
Theorem multiline_value_is_not_quoted :
  extractPropertyValue (Sample.richTextOf Sample.twoLines) = Normal (JStr Sample.twoLines)
  /\ Str.includes Str.LF Sample.twoLines = true
  /\ frontmatterLine "note" (JStr Sample.twoLines)
     = Normal ("note: line one line two" ++ newline)
  /\ propertyLine Sample.schema ("note", Sample.richTextOf Sample.twoLines)
     = Normal ("note: line one line two" ++ newline)
  /\ frontmatter Sample.recordC Sample.schema
     = Normal ("---" ++ newline
               ++ "notion_id: c" ++ newline
               ++ "created: 2024-01-01T00:00:00.000Z" ++ newline
               ++ "updated: 2024-01-02T00:00:00.000Z" ++ newline
               ++ "note: line one line two" ++ newline).
Proof. repeat split; reflexivity. Qed.

(* ------------------------------------------------------------------ *)
(** ** Title resolution *)

Lemma lookup_of_key (k : string) (fs : list (string * JSValue)) :
  In k (map fst fs) -> exists v, JS.lookup k fs = Some v.
Proof.
  induction fs as [|[k' x] r IH]; simpl; [tauto|].
  intros [-> | H].
  - rewrite String.eqb_refl. eauto.
  - destruct (String.eqb k' k); eauto.
Qed.

(** On a schema whose entries are objects, the search of lines 270-272
    returns the first key whose entry is typed [title]. *)
Lemma findTitleKey_find (fs : list (string * JSValue)) (keys : list string) :
  forallb (fun kv => isObject (snd kv)) fs = true ->
  incl keys (map fst fs) ->
  findTitleKey (JObj fs) keys
  = Normal (find (fun key => JS.isStr "title" (JS.getOwn (JS.getOwn (JObj fs) key) "type"))
                 keys).
Proof.
  intros Hobj. rewrite forallb_forall in Hobj.
  induction keys as [|key rest IH]; intros Hincl; [reflexivity|].
  cbn [findTitleKey find JS.member bindC].
  destruct (lookup_of_key key fs) as [v Hv]; [apply Hincl; left; reflexivity|].
  pose proof (Hobj _ (lookup_In _ _ _ Hv)) as Hisobj. simpl in Hisobj.
  unfold JS.getOwn at 1 3. cbn [JS.ownEntries]. rewrite Hv.
  destruct v; try discriminate. cbn [JS.member bindC].
  destruct (JS.isStr "title" _); [reflexivity|].
  apply IH. intros k Hk. apply Hincl. right. exact Hk.
Qed.

Lemma titleProperty_schemaTitleKey (databaseDetails : JSValue) :
  wellShapedSchema databaseDetails = true ->
  titleProperty databaseDetails = Normal (schemaTitleKey databaseDetails).
Proof.
  unfold wellShapedSchema, titleProperty, schemaTitleKey. intros H.
  apply andb_true_iff in H as [Hobj H].
  destruct databaseDetails as [| | | | | |dfs]; try discriminate.
  cbn [JS.member bindC].
  destruct (JS.getOwn (JObj dfs) "properties") as [| | | | | |fs]; try discriminate.
  cbn [JS.keys JS.entries JS.isNullish JS.ownEntries bindC].
  apply findTitleKey_find; [exact H | apply incl_refl].
Qed.

Lemma mapC_plainText (runs : list JSValue) :
  forallb (recordOf ["plain_text"]) runs = true ->
  mapC plainText runs = Normal (map (fun run => JS.getOwn run "plain_text") runs).
Proof.
  intros H. apply mapC_Normal. rewrite forallb_forall in H.
  apply Forall_forall. intros x Hx.
  destruct (recordOf_member _ _ "plain_text" (H x Hx)) as [E _]; [simpl; auto|].
  exact E.
Qed.

Lemma join_plainTexts (runs : list JSValue) :
  forallb (recordOf ["plain_text"]) runs = true ->
  JS.join "" (map (fun run => JS.getOwn run "plain_text") runs)
  = Normal (Str.join "" (map runText runs)).
Proof.
  intros H. unfold JS.join.
  rewrite (mapC_Normal JS.joinElement
             (fun v => match JS.joinElement v with Normal s => s | Throw _ => "" end)).
  - simpl. rewrite map_map. reflexivity.
  - rewrite forallb_forall in H. apply Forall_forall. intros v Hv.
    apply in_map_iff in Hv as [run [<- Hrun]].
    destruct (recordOf_member _ _ "plain_text" (H run Hrun)) as [_ P]; [simpl; auto|].
    destruct (joinElement_primitive _ P) as [s Hs]. rewrite Hs. reflexivity.
Qed.

Lemma join_empty_sep (strs : list string) :
  Str.join "" strs = String.concat "" strs.
Proof.
  induction strs as [|s rest IH]; [reflexivity|].
  destruct rest as [|t r]; [reflexivity|].
  change (Str.join "" (s :: t :: r)) with (s ++ "" ++ Str.join "" (t :: r)).
  rewrite IH. reflexivity.
Qed.

(** X26: away from the empty name, the title is what the specification
    says: on a database and a record of the documented shape whose title
    property has a name, it is the concatenation, in order, of the text runs
    of the record's value for the schema property typed [title] when these
    runs are present and non-empty, and ["Untitled"] in every other case. *)
Theorem resolveTitle_named (page databaseDetails : JSValue) :
  wellShapedSchema databaseDetails = true ->
  wellShapedTitle page databaseDetails = true ->
  schemaTitleKey databaseDetails <> Some EmptyString ->
  resolveTitle page databaseDetails = Normal (titleAsSpecified page databaseDetails).
Proof.
  intros Hschema Htitle Hnamed.
  unfold resolveTitle, titleAsSpecified.
  rewrite (titleProperty_schemaTitleKey _ Hschema). cbn [bindC].
  unfold wellShapedTitle in Htitle.
  apply andb_true_iff in Htitle as [Hpage Htitle].
  apply andb_true_iff in Hpage as [Hpage Hprops].
  destruct (schemaTitleKey databaseDetails) as [key|]; [|reflexivity].
  destruct (Str.isEmpty key) eqn:Hkey.
  { destruct key; [|discriminate]. exfalso. apply Hnamed. reflexivity. }
  destruct page as [| | | | | |pfs]; try discriminate. cbn [JS.member bindC].
  unfold titleRuns.
  destruct (JS.getOwn (JObj pfs) "properties") as [| | | | | |props] eqn:Eprops;
    try discriminate.
  cbn [JS.member bindC].
  cbv zeta in Htitle.
  destruct (JS.getOwn (JObj props) key) as [| | | | | |tfs] eqn:Etv;
    try discriminate; try reflexivity.
  cbn [JS.isNullish isObject orb andb] in Htitle.
  cbn [JS.truthy JS.member bindC JS.optMember].
  destruct (JS.getOwn (JObj tfs) "title") as [| | | | |runs|]; try discriminate;
    try reflexivity.
  cbn [optArrayOf] in Htitle.
  cbn [JS.truthy JS.member bindC String.eqb Ascii.eqb Bool.eqb gtZero].
  destruct runs as [|run runs]; [reflexivity|].
  replace (0 <? Z.of_nat (List.length (run :: runs)))%Z with true
    by (symmetry; apply Z.ltb_lt; simpl List.length; lia).
  unfold mapJoin. rewrite (mapC_plainText _ Htitle). cbn [bindC].
  rewrite (join_plainTexts _ Htitle), join_empty_sep. reflexivity.
Qed.

Lemma resolveTitle_named_witness :
  wellShapedSchema Sample.schema = true
  /\ wellShapedTitle Sample.recordA Sample.schema = true
  /\ schemaTitleKey Sample.schema = Some "Name"
  /\ resolveTitle Sample.recordA Sample.schema = Normal "A".
Proof.
  split; [reflexivity|]. split; [reflexivity|]. split; [reflexivity|].
  apply (resolveTitle_named Sample.recordA Sample.schema);
    [reflexivity | reflexivity | discriminate].
Defined.

(** C9: on a database whose title property has the empty name, the text of
    a record's title is lost.  Line 270 finds the property, under the key
    [""]; the guard of line 275 then tests the key for truthiness, which the
    empty string fails, and the title stays ["Untitled"] where the claim
    gives the text of the runs, ["Plan"].  Lines 290 and 400 compare the
    schema's type tag instead and do take the property for the title: it
    gets no frontmatter line and is no column, so the note holds its text
    nowhere. *)
Theorem resolveTitle_unnamed_title_property :
  wellShapedSchema Sample.unnamedSchema = true
  /\ wellShapedTitle Sample.unnamedRecord Sample.unnamedSchema = true
  /\ titleProperty Sample.unnamedSchema = Normal (Some EmptyString)
  /\ titleAsSpecified Sample.unnamedRecord Sample.unnamedSchema = "Plan"
  /\ resolveTitle Sample.unnamedRecord Sample.unnamedSchema = Normal "Untitled"
  /\ notTitleTyped Sample.unnamedSchema EmptyString = Normal false
  /\ renderPage Sample.unnamedRecord Sample.unnamedSchema
     = Normal ("Untitled",
               "---" ++ newline
               ++ "notion_id: u" ++ newline
               ++ "created: 2024-01-01T00:00:00.000Z" ++ newline
               ++ "updated: 2024-01-02T00:00:00.000Z" ++ newline
               ++ "---" ++ newline ++ newline
               ++ "# Untitled" ++ newline ++ newline)
  /\ propertiesWithData Sample.unnamedSchema [Sample.unnamedRecord] = Normal [].
Proof. repeat split; reflexivity. Qed.

(* ================================================================== *)
(** * Properties: schema inferrer *)
(* ================================================================== *)

Lemma hasData_meaningful (value : JSValue) :
  hasData value = true <-> meaningful value.
Proof.
  unfold meaningful. split.
  - destruct value as [| |[|]| |[|]| |]; simpl; intros H; try discriminate;
      repeat split; discriminate.
  - intros [H1 [H2 [H3 H4]]].
    destruct value as [| |[|]| |[|]| |]; simpl; try reflexivity; congruence.
Qed.

Lemma existsb_eqb_In (key : string) (set : list string) :
  existsb (String.eqb key) set = true <-> In key set.
Proof.
  rewrite existsb_exists. split.
  - intros [x [Hx E]]. apply String.eqb_eq in E. subst. exact Hx.
  - intros H. exists key. split; [exact H | apply String.eqb_refl].
Qed.

Lemma setAdd_In (key x : string) (set : list string) :
  In x (setAdd key set) <-> In x set \/ x = key.
Proof.
  unfold setAdd. destruct (existsb (String.eqb key) set) eqn:E.
  - apply existsb_eqb_In in E. split; [auto | intros [H | ->]; auto].
  - rewrite in_app_iff. simpl. split; intros [H | H]; auto.
    + destruct H as [<- | []]. auto.
Qed.

Lemma setAdd_NoDup (key : string) (set : list string) :
  NoDup set -> NoDup (setAdd key set).
Proof.
  intros H. unfold setAdd. destruct (existsb (String.eqb key) set) eqn:E; [exact H|].
  assert (Hn : ~ In key set).
  { intros Hin. apply existsb_eqb_In in Hin. congruence. }
  clear E. induction H as [|x l Hx Hl IH]; simpl.
  - constructor; [tauto | constructor].
  - constructor.
    + rewrite in_app_iff. simpl. intros [H | [H | []]]; [tauto|].
      subst. apply Hn. left. reflexivity.
    + apply IH. intros H. apply Hn. right. exact H.
Qed.

Lemma notTitleTyped_inv (databaseDetails : JSValue) (key : string) (b : bool) :
  notTitleTyped databaseDetails key = Normal b ->
  b = negb (isTitleTyped databaseDetails key).
Proof.
  unfold notTitleTyped, isTitleTyped. intros H.
  apply bindC_inv in H as [properties [Hp H]].
  apply bindC_inv in H as [schema [Hs H]].
  injection H as <-.
  assert (Ep : properties = JS.getOwn databaseDetails "properties").
  { destruct databaseDetails; simpl in Hp; try discriminate; congruence. }
  subst properties.
  destruct (JS.getOwn databaseDetails "properties") as [| | | |s|l|fs] eqn:E;
    simpl in Hs; try discriminate; try congruence.
  - destruct (String.eqb key "length") eqn:Ek.
    + apply String.eqb_eq in Ek. subst key. injection Hs as <-.
      rewrite (getOwn_name_nonobject (JStr s) "length" "l" "ength"); reflexivity.
    + congruence.
  - destruct (String.eqb key "length") eqn:Ek.
    + apply String.eqb_eq in Ek. subst key. injection Hs as <-.
      rewrite (getOwn_name_nonobject (JArr l) "length" "l" "ength"); reflexivity.
    + congruence.
Qed.

Lemma notTitleTyped_wellShaped (databaseDetails : JSValue) (key : string) :
  wellShapedSchema databaseDetails = true ->
  exists b, notTitleTyped databaseDetails key = Normal b.
Proof.
  unfold wellShapedSchema, notTitleTyped. intros H.
  apply andb_true_iff in H as [Hobj H].
  destruct databaseDetails as [| | | | | |dfs]; try discriminate.
  cbn [JS.member bindC].
  destruct (JS.getOwn (JObj dfs) "properties"); try discriminate.
  cbn [JS.member bindC]. eauto.
Qed.

(** One loop turn adds the entry's key exactly when the entry is not the
    title property and its extracted value is meaningful. *)
Lemma scanEntry_spec (databaseDetails : JSValue) (acc set : list string)
    (key : string) (property : JSValue) :
  scanEntry databaseDetails acc (key, property) = Normal set ->
  (NoDup acc -> NoDup set)
  /\ forall x, In x set <->
       In x acc
       \/ (x = key /\ isTitleTyped databaseDetails key = false
           /\ exists value, extractPropertyValue property = Normal value
                            /\ meaningful value).
Proof.
  unfold scanEntry. intros H.
  apply bindC_inv in H as [keep [Hkeep H]].
  apply notTitleTyped_inv in Hkeep.
  destruct keep.
  - apply bindC_inv in H as [value [Hv H]]. injection H as <-.
    assert (Ht : isTitleTyped databaseDetails key = false)
      by (destruct (isTitleTyped databaseDetails key); [discriminate | reflexivity]).
    destruct (hasData value) eqn:Ed.
    + split; [apply setAdd_NoDup|].
      intros x. rewrite setAdd_In. split; [|tauto].
      intros [Hx | ->]; [auto|]. right. repeat split; auto.
      exists value. split; [exact Hv | apply hasData_meaningful, Ed].
    + split; [auto|]. intros x. split; [auto|].
      intros [Hx | [-> [_ [value' [Hv' Hm]]]]]; [exact Hx|].
      apply hasData_meaningful in Hm. congruence.
  - injection H as <-. split; [auto|]. intros x. split; [auto|].
    intros [Hx | [_ [Ht _]]]; [exact Hx|].
    rewrite Ht in Hkeep. discriminate.
Qed.

Lemma scanEntries_spec (databaseDetails : JSValue)
    (entries : list (string * JSValue)) :
  forall acc set,
  scanEntries databaseDetails acc entries = Normal set ->
  (NoDup acc -> NoDup set)
  /\ forall x, In x set <->
       In x acc
       \/ (isTitleTyped databaseDetails x = false
           /\ exists property value,
                In (x, property) entries
                /\ extractPropertyValue property = Normal value
                /\ meaningful value).
Proof.
  induction entries as [|[key property] rest IH]; intros acc set H.
  - injection H as <-. split; [auto|]. intros x. split; [auto|].
    intros [Hx | [_ [p [v [[] _]]]]]. exact Hx.
  - cbn [scanEntries] in H. apply bindC_inv in H as [mid [Hmid H]].
    apply scanEntry_spec in Hmid as [Hnd1 Hin1].
    apply IH in H as [Hnd2 Hin2].
    split; [auto|]. intros x. rewrite Hin2, Hin1. split.
    + intros [[Hx | [-> [Ht [v [Hv Hm]]]]] | [Ht [p [v [Hp [Hv Hm]]]]]]; auto.
      * right. split; [exact Ht|]. exists property, v. simpl. auto.
      * right. split; [exact Ht|]. exists p, v. simpl. auto.
    + intros [Hx | [Ht [p [v [[E | Hp] [Hv Hm]]]]]]; auto.
      * injection E as <- <-. left. right. eauto 6.
      * right. eauto 6.
Qed.

Lemma scanPages_spec (databaseDetails : JSValue) (pages : list JSValue) :
  forall acc set,
  scanPages databaseDetails acc pages = Normal set ->
  (NoDup acc -> NoDup set)
  /\ forall x, In x set <-> In x acc \/ activeIn databaseDetails pages x.
Proof.
  unfold activeIn.
  induction pages as [|page rest IH]; intros acc set H.
  - injection H as <-. split; [auto|]. intros x. split; [auto|].
    intros [Hx | [_ [p [ps [pr [v [[] _]]]]]]]. exact Hx.
  - cbn [scanPages] in H.
    apply bindC_inv in H as [properties [Hprops H]].
    apply bindC_inv in H as [entries [Hentries H]].
    apply bindC_inv in H as [mid [Hmid H]].
    assert (Ee : entries = JS.ownEntries properties).
    { unfold JS.entries in Hentries.
      destruct (JS.isNullish properties); [discriminate | congruence]. }
    subst entries.
    apply scanEntries_spec in Hmid as [Hnd1 Hin1].
    apply IH in H as [Hnd2 Hin2].
    split; [auto|]. intros x. rewrite Hin2, Hin1. split.
    + intros [[Hx | [Ht [p [v [Hp [Hv Hm]]]]]] | [Ht [pg [ps [p [v [Hpg Hrest]]]]]]]; auto.
      * right. split; [exact Ht|]. exists page, properties, p, v. simpl. auto.
      * right. split; [exact Ht|]. exists pg, ps, p, v. simpl. auto.
    + intros [Hx | [Ht [pg [ps [p [v [[<- | Hpg] [Hps [Hp [Hv Hm]]]]]]]]]]; auto.
      * left. right. split; [exact Ht|].
        assert (ps = properties) by congruence. subst ps. eauto.
      * right. split; [exact Ht|]. exists pg, ps, p, v. auto.
Qed.

(** Whenever the scan of lines 396-411 completes, the names it collected
    are exactly the active ones, each once. *)
Lemma propertiesWithData_sound (databaseDetails : JSValue) (pages : list JSValue)
    (set : list string) :
  propertiesWithData databaseDetails pages = Normal set ->
  NoDup set /\ forall name, In name set <-> activeIn databaseDetails pages name.
Proof.
  intros H. apply scanPages_spec in H as [Hnd Hin].
  split; [apply Hnd; constructor|].
  intros name. rewrite Hin. simpl. tauto.
Qed.

Lemma scanEntries_total (databaseDetails : JSValue)
    (entries : list (string * JSValue)) :
  wellShapedSchema databaseDetails = true ->
  forallb (fun kv => wellShaped (snd kv)) entries = true ->
  forall acc, exists set, scanEntries databaseDetails acc entries = Normal set.
Proof.
  intros Hschema.
  induction entries as [|[key property] rest IH]; intros Hall acc; [simpl; eauto|].
  cbn [forallb snd] in Hall. apply andb_true_iff in Hall as [Hp Hrest].
  cbn [scanEntries scanEntry].
  destruct (notTitleTyped_wellShaped databaseDetails key Hschema) as [keep Hkeep].
  rewrite Hkeep. cbn [bindC].
  destruct keep.
  - destruct (extract_wellShaped property Hp) as [v [Hv _]].
    rewrite Hv. cbn [bindC]. apply IH, Hrest.
  - cbn [bindC]. apply IH, Hrest.
Qed.

Lemma scanPages_total (databaseDetails : JSValue) (pages : list JSValue) :
  wellShapedSchema databaseDetails = true ->
  forallb wellShapedPage pages = true ->
  forall acc, exists set, scanPages databaseDetails acc pages = Normal set.
Proof.
  intros Hschema.
  induction pages as [|page rest IH]; intros Hall acc; [simpl; eauto|].
  cbn [forallb] in Hall. apply andb_true_iff in Hall as [Hpage Hrest].
  unfold wellShapedPage in Hpage. apply andb_true_iff in Hpage as [Hrec Hprops].
  unfold recordOf in Hrec. apply andb_true_iff in Hrec as [Hobj _].
  destruct page as [| | | | | |pfs]; try discriminate.
  cbn [scanPages JS.member bindC].
  destruct (JS.getOwn (JObj pfs) "properties") as [| | | | | |fields]; try discriminate.
  cbn [JS.entries JS.isNullish JS.ownEntries bindC].
  destruct (scanEntries_total databaseDetails fields Hschema Hprops acc) as [mid Hmid].
  rewrite Hmid. cbn [bindC]. apply IH, Hrest.
Qed.

(** C4: for every sequence of fetched records and every property schema (of
    the documented shape), the scan completes, and the property names it
    hands to the view-schema document are, each once, exactly those that are
    not typed [title] and for which at least one record's extracted value is
    not [null], not [undefined], not the empty string and not [false]; a
    property typed [title] is never among them. *)
Theorem activePropertySet_characterized (databaseDetails : JSValue)
    (pages : list JSValue) :
  wellShapedSchema databaseDetails = true ->
  forallb wellShapedPage pages = true ->
  exists set,
    propertiesWithData databaseDetails pages = Normal set
    /\ NoDup set
    /\ (forall name, In name set <-> activeIn databaseDetails pages name)
    /\ (forall name, isTitleTyped databaseDetails name = true -> ~ In name set).
Proof.
  intros Hschema Hpages.
  destruct (scanPages_total databaseDetails pages Hschema Hpages []) as [set Hset].
  exists set. split; [exact Hset|].
  destruct (propertiesWithData_sound _ _ _ Hset) as [Hnd Hin].
  split; [exact Hnd|]. split; [exact Hin|].
  intros name Ht Hn. apply Hin in Hn as [Hf _]. congruence.
Qed.

Lemma activePropertySet_witness :
  wellShapedSchema Sample.schema = true
  /\ forallb wellShapedPage [Sample.recordA; Sample.recordB] = true
  /\ exists set,
       propertiesWithData Sample.schema [Sample.recordA; Sample.recordB] = Normal set
       /\ NoDup set
       /\ (forall name, In name set
                        <-> activeIn Sample.schema [Sample.recordA; Sample.recordB] name)
       /\ (forall name, isTitleTyped Sample.schema name = true -> ~ In name set).
Proof.
  split; [reflexivity|]. split; [reflexivity|].
  apply (activePropertySet_characterized Sample.schema [Sample.recordA; Sample.recordB]);
    reflexivity.
Defined.

(** The [.base] file lists the names the scan collected: its text is
    [baseContent] over them. *)
Lemma createBaseFile_content (host : Host) (database : NotionDatabase)
    (databaseDetails : JSValue) (pages : list JSValue) (folder : Folder)
    (w : World host) (set : list string) :
  propertiesWithData databaseDetails pages = Normal set ->
  let name := sanitizeFilePath host (db_title database) ++ ".base" in
  createBaseFile host database databaseDetails pages folder w
  = match vaultCreate host (path folder ++ "/" ++ name)
            (baseContent (db_title database) set) (vault host w) with
    | (Normal _, v') =>
        (Fulfilled (Some name),
         {| replies := replies host w; cancelled := cancelled host w;
            polls := polls host w; vault := v'; trace := trace host w |})
    | (Throw error, v') =>
        (Fulfilled None,
         {| replies := replies host w; cancelled := cancelled host w;
            polls := polls host w; vault := v';
            trace := trace host w ++ [ConsoleError "Error creating base file:" error] |})
    end.
Proof.
  intros Hset name.
  unfold createBaseFile, tryCatch, bind, sync, write. rewrite Hset.
  fold name. cbn [vault].
  destruct (vaultCreate host _ _ (vault host w)) as [[[]|error] v']; reflexivity.
Qed.

(** On the specification's scenario the active set is [count] alone. *)
Lemma scenario_active_set :
  propertiesWithData Sample.schema [Sample.recordA; Sample.recordB] = Normal ["count"].
Proof. reflexivity. Qed.

(* ================================================================== *)
(** * Properties: paginator *)
(* ================================================================== *)

Section LoopTurns.

Variable host : Host.

Lemma fetchLoop_unfold (n : nat) (databaseId : string) (pages : list JSValue)
    (hasMore nextCursor : JSValue) :
  fetchLoop host n databaseId pages hasMore nextCursor
  = (if negb (JS.truthy hasMore) then ret pages
     else
       stop <~ isCancelled ;;
       if stop then ret pages
       else
         data <~ requestUrl (queryUrl databaseId) (Some (queryBody nextCursor)) ;;
         match n with
         | O => fun w => (Pending, w)
         | S n' =>
             results <~ sync (r <- JS.member data "results" ;; spread r) ;;
             let pages' := (pages ++ results)%list in
             hasMore' <~ sync (JS.member data "has_more") ;;
             nextCursor' <~ sync (JS.member data "next_cursor") ;;
             emit (Status ("Fetched " ++ Str.ofNat (List.length pages') ++ " pages...")) ;;;
             fetchLoop host n' databaseId pages' hasMore' nextCursor'
         end).
Proof. destruct n; reflexivity. Qed.

(** One turn of the loop on a page of records. *)
Lemma fetchLoop_page (n : nat) (databaseId : string) (pages : list JSValue)
    (nextCursor data : JSValue) (hasMore : bool) (rest : list Reply) (w : World host) :
  replies host w = Json data :: rest ->
  cancelled host w (polls host w) = false ->
  isPageWith hasMore data = true ->
  fetchLoop host (S n) databaseId pages (JBool true) nextCursor w
  = fetchLoop host n databaseId (pages ++ resultsOf data)%list (JBool hasMore)
      (cursorOf data)
      {| replies := rest; cancelled := cancelled host w; polls := S (polls host w);
         vault := vault host w;
         trace := trace host w
                  ++ [Request (queryUrl databaseId) (Some (queryBody nextCursor));
                      Status ("Fetched "
                              ++ Str.ofNat (List.length (pages ++ resultsOf data)%list)
                              ++ " pages...")] |}.
Proof.
  intros Hreplies Hcancel Hpage.
  unfold isPageWith in Hpage.
  apply andb_true_iff in Hpage as [Hpage Hmore].
  apply andb_true_iff in Hpage as [Hobj Hresults].
  destruct data as [| | | | | |dfs]; try discriminate.
  unfold resultsOf, cursorOf.
  destruct (JS.getOwn (JObj dfs) "results") as [| | | | |results|] eqn:Er; try discriminate.
  destruct (JS.getOwn (JObj dfs) "has_more") as [| |b| | | |] eqn:Em; try discriminate.
  apply Bool.eqb_prop in Hmore. subst b.
  rewrite (fetchLoop_unfold (S n)). cbn [JS.truthy negb].
  unfold bind at 1. unfold isCancelled at 1. rewrite Hcancel.
  unfold bind at 1. unfold requestUrl at 1. cbn [replies]. rewrite Hreplies.
  unfold bind at 1. unfold sync at 1. cbn [JS.member bindC]. rewrite Er. cbn [spread bindC].
  unfold bind at 1. unfold sync at 1. cbn [JS.member]. rewrite Em.
  unfold bind at 1. unfold sync at 1.
  unfold bind at 1. unfold emit at 1.
  cbn [replies cancelled polls vault trace].
  rewrite <- app_assoc. reflexivity.
Qed.

(** The loop on a call that fails. *)
Lemma fetchLoop_fails (n : nat) (databaseId : string) (pages : list JSValue)
    (nextCursor : JSValue) (error : Exn) (rest : list Reply) (w : World host) :
  replies host w = Fails error :: rest ->
  cancelled host w (polls host w) = false ->
  fetchLoop host n databaseId pages (JBool true) nextCursor w
  = (Rejected error,
     {| replies := rest; cancelled := cancelled host w; polls := S (polls host w);
        vault := vault host w;
        trace := trace host w
                 ++ [Request (queryUrl databaseId) (Some (queryBody nextCursor))] |}).
Proof.
  intros Hreplies Hcancel.
  rewrite fetchLoop_unfold. cbn [JS.truthy negb].
  unfold bind at 1. unfold isCancelled at 1. rewrite Hcancel.
  unfold bind at 1. unfold requestUrl at 1. cbn [replies]. rewrite Hreplies.
  reflexivity.
Qed.

Lemma bind_cong {A B} (m : Async host A) (k1 k2 : A -> Async host B) (w : World host) :
  (forall a w', m w = (Fulfilled a, w') -> k1 a w' = k2 a w') ->
  bind m k1 w = bind m k2 w.
Proof. intros H. unfold bind. destruct (m w) as [[a|e|] w']; auto. Qed.

Lemma isCancelled_replies (w w' : World host) (stop : bool) :
  isCancelled w = (Fulfilled stop, w') -> replies host w' = replies host w.
Proof. unfold isCancelled. intros [= _ <-]. reflexivity. Qed.

Lemma requestUrl_replies (url : string) (body : option JSValue)
    (w w' : World host) (data : JSValue) :
  requestUrl url body w = (Fulfilled data, w') ->
  S (List.length (replies host w')) = List.length (replies host w).
Proof.
  unfold requestUrl. destruct (replies host w) as [|[d|e] rest]; try discriminate.
  intros [= _ <-]. reflexivity.
Qed.

Lemma sync_world {A} (c : Completion A) (w w' : World host) (a : A) :
  sync c w = (Fulfilled a, w') -> w' = w.
Proof. unfold sync. destruct c; [intros [= _ <-]; reflexivity | discriminate]. Qed.

Lemma emit_replies (e : Event) (w w' : World host) (u : unit) :
  emit e w = (Fulfilled u, w') -> replies host w' = replies host w.
Proof. unfold emit. intros [= _ <-]. reflexivity. Qed.

(** The loop does not depend on the bound it runs on, as long as the bound
    covers the replies the service still holds: [fetchAllPages] never stops
    for want of it. *)
Lemma fetchLoop_bound (n : nat) :
  forall m databaseId pages hasMore nextCursor (w : World host),
  List.length (replies host w) <= n ->
  List.length (replies host w) <= m ->
  fetchLoop host n databaseId pages hasMore nextCursor w
  = fetchLoop host m databaseId pages hasMore nextCursor w.
Proof.
  induction n as [|n IH]; intros m databaseId pages hasMore nextCursor w Hn Hm;
    rewrite (fetchLoop_unfold _ databaseId), (fetchLoop_unfold m databaseId);
    (destruct (negb (JS.truthy hasMore)); [reflexivity|]);
    apply bind_cong; intros stop w1 H1; apply isCancelled_replies in H1;
    (destruct stop; [reflexivity|]);
    apply bind_cong; intros data w2 H2; apply requestUrl_replies in H2;
    rewrite H1 in H2; [lia|].
  destruct m as [|m]; [lia|].
  apply bind_cong. intros results w3 H3. apply sync_world in H3. subst w3.
  apply bind_cong. intros hasMore' w4 H4. apply sync_world in H4. subst w4.
  apply bind_cong. intros nextCursor' w5 H5. apply sync_world in H5. subst w5.
  apply bind_cong. intros u w6 H6. apply emit_replies in H6.
  apply IH; rewrite H6; lia.
Qed.

End LoopTurns.

Section PaginatorProperties.

Variable host : Host.

Lemma fetchLoop_done (n : nat) (databaseId : string) (pages : list JSValue)
    (nextCursor : JSValue) (w : World host) :
  fetchLoop host n databaseId pages (JBool false) nextCursor w = (Fulfilled pages, w).
Proof. rewrite fetchLoop_unfold. reflexivity. Qed.

Lemma world_eq (r r' : list Reply) (c c' : nat -> bool) (p p' : nat)
    (v v' : Vault host) (t t' : list Event) :
  r = r' -> c = c' -> p = p' -> v = v' -> t = t' ->
  {| replies := r; cancelled := c; polls := p; vault := v; trace := t |}
  = {| replies := r'; cancelled := c'; polls := p'; vault := v'; trace := t' |}.
Proof. intros; subst; reflexivity. Qed.

(** The loop over a run of pages that end the pagination. *)
Lemma fetchLoop_paginated (databaseId : string) (datas : list JSValue) :
  paginated datas = true ->
  forall n pages nextCursor (w : World host) tail,
  replies host w = (map Json datas ++ tail)%list ->
  (forall k, cancelled host w k = false) ->
  List.length datas <= n ->
  fetchLoop host n databaseId pages (JBool true) nextCursor w
  = (Fulfilled (pages ++ List.concat (map resultsOf datas))%list,
     {| replies := tail; cancelled := cancelled host w;
        polls := polls host w + List.length datas;
        vault := vault host w;
        trace := trace host w
                 ++ pageEvents databaseId nextCursor (List.length pages) datas |}).
Proof.
  induction datas as [|data rest IH]; [discriminate|].
  intros Hpag n pages nextCursor w tail Hreplies Hcancel Hn.
  destruct n as [|n]; [simpl in Hn; lia|].
  destruct rest as [|data' rest'].
  - cbn [paginated] in Hpag.
    rewrite (fetchLoop_page host n databaseId pages nextCursor data false tail w);
      auto.
    rewrite fetchLoop_done. f_equal.
    + cbn [map List.concat]. rewrite app_nil_r. reflexivity.
    + apply world_eq; try reflexivity; try (simpl; lia).
      cbn [pageEvents]. rewrite length_app. reflexivity.
  - cbn [paginated] in Hpag. apply andb_true_iff in Hpag as [Hpage Hrest].
    rewrite (fetchLoop_page host n databaseId pages nextCursor data true
               (map Json (data' :: rest') ++ tail)%list w); auto.
    rewrite (IH Hrest n _ _ _ tail); cbn [replies cancelled polls vault trace]; auto.
    + f_equal.
      * cbn [map List.concat]. rewrite <- app_assoc. reflexivity.
      * apply world_eq; try reflexivity; try (simpl; lia).
        rewrite <- app_assoc. cbn [pageEvents app]. rewrite length_app. reflexivity.
    + simpl in Hn |- *. lia.
Qed.

Lemma last_cons_default {A} (l : list A) (x d d' : A) :
  last (x :: l) d = last (x :: l) d'.
Proof.
  revert x. induction l as [|y l IH]; intros x; [reflexivity|].
  change (last (y :: l) d = last (y :: l) d'). apply IH.
Qed.

(** The loop over a run of pages that all report more. *)
Lemma fetchLoop_more (databaseId : string) (datas : list JSValue) :
  forallb (isPageWith true) datas = true ->
  forall n pages nextCursor (w : World host) tail,
  replies host w = (map Json datas ++ tail)%list ->
  (forall k, cancelled host w k = false) ->
  List.length datas <= n ->
  fetchLoop host n databaseId pages (JBool true) nextCursor w
  = fetchLoop host (n - List.length datas) databaseId
      (pages ++ List.concat (map resultsOf datas))%list (JBool true)
      (cursorAfter nextCursor datas)
      {| replies := tail; cancelled := cancelled host w;
         polls := polls host w + List.length datas;
         vault := vault host w;
         trace := trace host w
                  ++ pageEvents databaseId nextCursor (List.length pages) datas |}.
Proof.
  induction datas as [|data rest IH];
    intros Hall n pages nextCursor w tail Hreplies Hcancel Hn.
  - cbn [map List.concat List.length pageEvents cursorAfter last].
    rewrite !app_nil_r, Nat.sub_0_r, Nat.add_0_r.
    simpl in Hreplies. rewrite <- Hreplies. destruct w; reflexivity.
  - cbn [forallb] in Hall. apply andb_true_iff in Hall as [Hpage Hrest].
    destruct n as [|n]; [simpl in Hn; lia|].
    rewrite (fetchLoop_page host n databaseId pages nextCursor data true
               (map Json rest ++ tail)%list w); auto.
    rewrite (IH Hrest n _ _ _ tail); cbn [replies cancelled polls vault trace]; auto.
    + cbn [map List.concat List.length Nat.sub].
      replace (cursorAfter (cursorOf data) rest) with (cursorAfter nextCursor (data :: rest)).
      * rewrite <- app_assoc. f_equal.
        apply world_eq; try reflexivity; try (simpl; lia).
        rewrite <- app_assoc. cbn [pageEvents app]. rewrite length_app. reflexivity.
      * unfold cursorAfter. cbn [map]. destruct (map cursorOf rest) eqn:E; [reflexivity|].
        change (last (cursorOf data :: j :: l) nextCursor) with (last (j :: l) nextCursor).
        apply last_cons_default.
    + simpl in Hn. lia.
Qed.

Lemma requestsOf_pageEvents (databaseId : string) (datas : list JSValue) :
  forall nextCursor count,
  requestsOf (pageEvents databaseId nextCursor count datas)
  = map (fun cursor => (queryUrl databaseId, Some (queryBody cursor)))
        (match datas with
         | [] => []
         | _ => nextCursor :: map cursorOf (removelast datas)
         end).
Proof.
  induction datas as [|data rest IH]; intros nextCursor count; [reflexivity|].
  cbn [pageEvents requestsOf]. rewrite IH.
  destruct rest; reflexivity.
Qed.

Lemma length_requestsOf_pageEvents (databaseId : string) (datas : list JSValue) :
  forall cursor count,
  List.length (requestsOf (pageEvents databaseId cursor count datas)) = List.length datas.
Proof.
  induction datas as [|d r IH]; intros; [reflexivity|].
  cbn [pageEvents requestsOf List.length]. rewrite IH. reflexivity.
Qed.

End PaginatorProperties.

(** C5: for every N >= 1, when the service answers the successive calls
    with N pages of which every one but the last reports [has_more = true]
    and the last reports [has_more = false], and no cancellation poll ever
    answers true, [fetchAllPages] issues exactly N [requestUrl] calls, the
    first without cursor and each following one with the cursor of the page
    before, and is fulfilled with the pages' records concatenated in arrival
    order; replies beyond the N-th are left unread. *)
Theorem fetchAllPages_paginates (host : Host) (databaseId : string)
    (N : nat) (datas : list JSValue) (tail : list Reply) (w : World host) :
  1 <= N ->
  List.length datas = N ->
  paginated datas = true ->
  replies host w = (map Json datas ++ tail)%list ->
  (forall k, cancelled host w k = false) ->
  exists w' events,
    fetchAllPages host databaseId w
    = (Fulfilled (List.concat (map resultsOf datas)), w')
    /\ replies host w' = tail
    /\ vault host w' = vault host w
    /\ trace host w' = (trace host w ++ events)%list
    /\ requestsOf events
       = map (fun cursor =>
                (queryUrl databaseId,
                 Some (JObj [("start_cursor", cursor); ("page_size", JNum 100)])))
             (cursorsSent datas)
    /\ List.length (requestsOf events) = N.
Proof.
  intros HN Hlen Hpag Hreplies Hcancel.
  unfold fetchAllPages.
  rewrite (fetchLoop_paginated host databaseId datas Hpag _ [] JUndefined w tail
             Hreplies Hcancel).
  2: { rewrite Hreplies, length_app, length_map. lia. }
  eexists. exists (pageEvents databaseId JUndefined 0 datas).
  split; [reflexivity|]. cbn [replies vault trace List.length].
  repeat split.
  - rewrite requestsOf_pageEvents. destruct datas; [discriminate | reflexivity].
  - rewrite length_requestsOf_pageEvents. exact Hlen.
Qed.

Lemma fetchAllPages_paginates_witness :
  exists w' events,
    fetchAllPages (listHost []) "db1"
      (Scenario.world (listHost []) [] (map Json Scenario.twoPages) Scenario.never)
    = (Fulfilled [Sample.recordA; Sample.recordB], w')
    /\ replies _ w' = []
    /\ vault _ w' = []
    /\ trace _ w' = events
    /\ requestsOf events
       = [(queryUrl "db1",
           Some (JObj [("start_cursor", JUndefined); ("page_size", JNum 100)]));
          (queryUrl "db1",
           Some (JObj [("start_cursor", JStr "cursor-1"); ("page_size", JNum 100)]))]
    /\ List.length (requestsOf events) = 2.
Proof.
  apply (fetchAllPages_paginates (listHost []) "db1" 2 Scenario.twoPages []
           (Scenario.world (listHost []) [] (map Json Scenario.twoPages) Scenario.never)).
  - lia.
  - reflexivity.
  - reflexivity.
  - reflexivity.
  - reflexivity.
Defined.

(** C6: when the first cancellation poll of [fetchAllPages] answers true,
    the paginator is fulfilled, without error, with no record; it issues no
    [requestUrl] call: no reply is consumed and the trace is unchanged. *)
Theorem fetchAllPages_cancelled_at_once (host : Host) (databaseId : string)
    (w : World host) :
  cancelled host w (polls host w) = true ->
  fetchAllPages host databaseId w
  = (Fulfilled [],
     {| replies := replies host w; cancelled := cancelled host w;
        polls := S (polls host w); vault := vault host w;
        trace := trace host w |}).
Proof.
  intros Hcancel. unfold fetchAllPages.
  rewrite fetchLoop_unfold. cbn [JS.truthy negb].
  unfold bind, isCancelled. rewrite Hcancel. reflexivity.
Qed.

Lemma fetchAllPages_cancelled_witness :
  cancelled _ Scenario.cancelledStart (polls _ Scenario.cancelledStart) = true
  /\ fetchAllPages (listHost []) "db1" Scenario.cancelledStart
     = (Fulfilled [],
        Build_World (listHost []) (map Json Scenario.twoPages) Scenario.always 1 [] []).
Proof.
  split; [reflexivity|].
  apply (fetchAllPages_cancelled_at_once (listHost []) "db1" Scenario.cancelledStart).
  reflexivity.
Defined.

(* ================================================================== *)
(** * Properties: the run *)
(* ================================================================== *)

Lemma requestsOf_app (a b : list Event) :
  requestsOf (a ++ b) = (requestsOf a ++ requestsOf b)%list.
Proof.
  induction a as [|e a IH]; [reflexivity|].
  destruct e; cbn [app requestsOf]; rewrite IH; reflexivity.
Qed.

Lemma failuresOf_app (a b : list Event) :
  failuresOf (a ++ b) = (failuresOf a ++ failuresOf b)%list.
Proof.
  induction a as [|e a IH]; [reflexivity|].
  destruct e; cbn [app failuresOf]; rewrite IH; reflexivity.
Qed.

Lemma successesOf_app (a b : list Event) :
  successesOf (a ++ b) = (successesOf a ++ successesOf b)%list.
Proof.
  induction a as [|e a IH]; [reflexivity|].
  destruct e; cbn [app successesOf]; rewrite IH; reflexivity.
Qed.

Lemma failuresOf_pageEvents (databaseId : string) (datas : list JSValue) :
  forall cursor count, failuresOf (pageEvents databaseId cursor count datas) = [].
Proof. induction datas as [|d r IH]; intros; [reflexivity | apply IH]. Qed.

Lemma successesOf_pageEvents (databaseId : string) (datas : list JSValue) :
  forall cursor count, successesOf (pageEvents databaseId cursor count datas) = [].
Proof. induction datas as [|d r IH]; intros; [reflexivity | apply IH]. Qed.

(** A transport error leaves the pagination loop as a rejection: pages that
    reported more are read, the failing call is the last one issued. *)
Lemma fetchAllPages_rejects (host : Host) (databaseId : string)
    (datas : list JSValue) (error : Exn) (tail : list Reply) (w : World host) :
  forallb (isPageWith true) datas = true ->
  replies host w = (map Json datas ++ Fails error :: tail)%list ->
  (forall k, cancelled host w k = false) ->
  fetchAllPages host databaseId w
  = (Rejected error,
     {| replies := tail; cancelled := cancelled host w;
        polls := S (polls host w + List.length datas);
        vault := vault host w;
        trace := trace host w
                 ++ pageEvents databaseId JUndefined 0 datas
                 ++ [Request (queryUrl databaseId)
                       (Some (queryBody (cursorAfter JUndefined datas)))] |}).
Proof.
  intros Hall Hreplies Hcancel. unfold fetchAllPages.
  rewrite (fetchLoop_more host databaseId datas Hall _ [] JUndefined w
             (Fails error :: tail) Hreplies Hcancel).
  2: { rewrite Hreplies, length_app, length_map. lia. }
  rewrite (fetchLoop_fails host _ databaseId _ _ error tail);
    cbn [replies cancelled polls vault trace]; auto.
  rewrite <- app_assoc. reflexivity.
Qed.

(** C7: when a page fetch fails with a transport error (after any number
    of pages that reported more), the error leaves the pagination loop
    uncaught and the run stops there: the failing call is the last
    [requestUrl] call, the replies after it are left unread, no record is
    converted, the failure is reported once, against the selected database's
    title, and the vault is what it was. *)
Theorem import_aborts_on_transport_error (host : Host) (this : Importer)
    (selectedDatabase : NotionDatabase) (folder : Folder)
    (databaseDetails : JSValue) (datas : list JSValue) (error : Exn)
    (tail : list Reply) (w : World host) :
  configured host this w selectedDatabase folder ->
  forallb (isPageWith true) datas = true ->
  replies host w
  = (Json databaseDetails :: map Json datas ++ Fails error :: tail)%list ->
  (forall k, cancelled host w k = false) ->
  let events := abortedRunEvents this selectedDatabase datas error in
  fst (fetchAllPages host (selectedDatabaseId this) (atPagination host this w))
  = Rejected error
  /\ import host this w
  = (Fulfilled tt,
     {| replies := tail; cancelled := cancelled host w;
        polls := polls host w + 2 + List.length datas;
        vault := vault host w;
        trace := trace host w ++ events |})
  /\ failuresOf events = [(db_title selectedDatabase, error)]
  /\ successesOf events = []
  /\ List.length (requestsOf events) = 2 + List.length datas
  /\ last (requestsOf events) (EmptyString, None)
     = (queryUrl (selectedDatabaseId this),
        Some (queryBody (cursorAfter JUndefined datas))).
Proof.
  intros [Htoken [Hselected [Hfolder Hfind]]] Hall Hreplies Hcancel events.
  split; [|split].
  - rewrite (fetchAllPages_rejects host _ datas error tail); auto.
    unfold atPagination. cbn [replies]. rewrite Hreplies. reflexivity.
  - unfold import. rewrite Htoken, Hselected, Hfolder, Hfind.
    unfold tryCatch, importBody.
    unfold bind at 1. unfold emit at 1.
    unfold bind at 1. unfold fetchDatabaseDetails, requestUrl at 1.
    cbn [replies cancelled polls vault trace]. rewrite Hreplies.
    unfold bind at 1. unfold isCancelled at 1.
    cbn [replies cancelled polls vault trace]. rewrite Hcancel.
    unfold bind at 1. unfold emit at 1.
    cbn [replies cancelled polls vault trace].
    unfold bind at 1.
    rewrite (fetchAllPages_rejects host _ datas error tail);
      cbn [replies cancelled polls vault trace]; auto.
    unfold bind, emit. cbn [replies cancelled polls vault trace].
    f_equal. apply world_eq; try reflexivity; [lia|].
    unfold events, abortedRunEvents.
    repeat rewrite <- app_assoc. reflexivity.
  - unfold events, abortedRunEvents.
    repeat split.
    + rewrite !failuresOf_app, failuresOf_pageEvents. reflexivity.
    + rewrite !successesOf_app, successesOf_pageEvents. reflexivity.
    + rewrite !requestsOf_app, !length_app, length_requestsOf_pageEvents.
      simpl. lia.
    + rewrite !requestsOf_app. cbn [requestsOf app].
      rewrite app_comm_cons. apply last_last.
Qed.

Lemma import_aborts_witness :
  configured (listHost []) Scenario.importer Aborted.start Scenario.database
    {| path := "Notion" |}
  /\ import (listHost []) Scenario.importer Aborted.start
     = (Fulfilled tt,
        Build_World (listHost []) [] Scenario.never 3 []
          (abortedRunEvents Scenario.importer Scenario.database [Aborted.firstPage]
             Aborted.error))
  /\ failuresOf (abortedRunEvents Scenario.importer Scenario.database
                   [Aborted.firstPage] Aborted.error)
     = [("Tasks", Aborted.error)].
Proof.
  assert (Hc : configured (listHost []) Scenario.importer Aborted.start
                 Scenario.database {| path := "Notion" |}).
  { repeat split. }
  split; [exact Hc|].
  destruct (import_aborts_on_transport_error (listHost []) Scenario.importer
              Scenario.database {| path := "Notion" |} Sample.schema
              [Aborted.firstPage] Aborted.error [] Aborted.start Hc)
    as [_ [Hrun [Hfail _]]].
  - reflexivity.
  - reflexivity.
  - reflexivity.
  - split; [exact Hrun | exact Hfail].
Defined.

(** C8 (amended): when the conversion of one record fails, in its
    serialization or in the write of its note, [convertPageToMarkdown]
    catches the error, logs it with [console.error] and returns [null]; the
    loop of [import] then adds no file name and reports no success for that
    record, reports progress, the only call it makes on the import context
    for that record, and goes on with the remaining records. *)
Theorem conversion_failure_is_skipped (host : Host) (folder : Folder)
    (databaseDetails page : JSValue) (rest : list JSValue) (i total : nat)
    (convertedFiles : list string) (w : World host) (error : Exn)
    (v' : Vault host) :
  cancelled host w (polls host w) = false ->
  conversionFailure host page folder databaseDetails (vault host w) = Some (error, v') ->
  convertPageToMarkdown host page folder databaseDetails w
  = (Fulfilled None,
     {| replies := replies host w; cancelled := cancelled host w;
        polls := polls host w; vault := v';
        trace := trace host w ++ [ConsoleError "Error converting page:" error] |})
  /\ convertLoop host folder databaseDetails (page :: rest) i total convertedFiles w
     = convertLoop host folder databaseDetails rest (S i) total convertedFiles
         {| replies := replies host w; cancelled := cancelled host w;
            polls := S (polls host w); vault := v';
            trace := trace host w
                     ++ [ConsoleError "Error converting page:" error;
                         Progress (i + 1) total] |}.
Proof.
  intros Hcancel Hfail.
  assert (Hconvert : forall p,
    convertPageToMarkdown host page folder databaseDetails
      {| replies := replies host w; cancelled := cancelled host w;
         polls := p; vault := vault host w; trace := trace host w |}
    = (Fulfilled None,
       {| replies := replies host w; cancelled := cancelled host w;
          polls := p; vault := v';
          trace := trace host w ++ [ConsoleError "Error converting page:" error] |})).
  { intros p. unfold conversionFailure in Hfail.
    unfold convertPageToMarkdown, tryCatch, bind, sync.
    destruct (renderPage page databaseDetails) as [[title markdown]|e].
    - unfold write. cbn [vault].
      destruct (saveAsMarkdownFile host folder title markdown (vault host w))
        as [[[]|e] v0]; [discriminate|].
      injection Hfail as <- <-. reflexivity.
    - injection Hfail as <- <-. reflexivity. }
  split.
  - destruct w. apply Hconvert.
  - cbn [convertLoop]. unfold bind at 1. unfold isCancelled at 1. rewrite Hcancel.
    unfold bind at 1. rewrite Hconvert.
    unfold bind at 1. cbn [recordFile]. unfold ret at 1.
    unfold bind at 1. unfold emit at 1. cbn [replies cancelled polls vault trace].
    rewrite <- app_assoc. reflexivity.
Qed.

Lemma conversion_failure_witness :
  cancelled _ Skipped.start (polls _ Skipped.start) = false
  /\ conversionFailure (listHost []) Sample.brokenRecord Skipped.folder Sample.schema
       (vault _ Skipped.start)
     = Some (TypeError "Cannot read properties of null or undefined: type", [])
  /\ fst (convertLoop (listHost []) Skipped.folder Sample.schema Skipped.pages 0 3 []
            Skipped.start)
     = Fulfilled (Some ["A.md"])
  /\ successesOf
       (trace _ (snd (convertLoop (listHost []) Skipped.folder Sample.schema
                        Skipped.pages 0 3 [] Skipped.start)))
     = ["A.md"].
Proof.
  assert (Hfail : conversionFailure (listHost []) Sample.brokenRecord Skipped.folder
                    Sample.schema (vault _ Skipped.start)
                  = Some (TypeError "Cannot read properties of null or undefined: type", []))
    by reflexivity.
  split; [reflexivity|]. split; [exact Hfail|].
  destruct (conversion_failure_is_skipped (listHost []) Skipped.folder Sample.schema
              Sample.brokenRecord [Sample.recordA] 0 3 [] Skipped.start _ _
              eq_refl Hfail)
    as [_ Hloop].
  unfold Skipped.pages. rewrite Hloop. split; reflexivity.
Defined.

(** C8 (as stated) fails: in a complete run whose first record cannot be
    serialized, the failure reaches the console only.  The calls made on
    the import context are the same status, progress and success calls a run
    makes anyway; [ctx.reportFailed] is not called, and no call names the
    record or its error. *)
Lemma conversion_failure_is_not_reported :
  conversionFailure (listHost []) Sample.brokenRecord Skipped.folder Sample.schema []
  = Some (TypeError "Cannot read properties of null or undefined: type", [])
  /\ fst (import (listHost []) Scenario.importer Unreported.start) = Fulfilled tt
  /\ failuresOf (trace _ (snd (import (listHost []) Scenario.importer Unreported.start)))
     = []
  /\ filter throughContext
       (trace _ (snd (import (listHost []) Scenario.importer Unreported.start)))
     = [Status "Fetching database details...";
        Status "Fetching database pages...";
        Status "Fetched 2 pages...";
        Status "Converting pages to markdown...";
        Progress 1 3; NoteSuccess "A.md"; Progress 2 3;
        Status "Creating Obsidian Base file...";
        Progress 3 3;
        Status "Import completed successfully!"].
Proof. repeat split; reflexivity. Qed.

(* ------------------------------------------------------------------ *)
(** ** The end-to-end scenario *)

(** The run on the scenario writes the two notes and the [.base] file, and
    reports the three as successes; the note of record A carries the three
    metadata lines only. *)
Lemma scenario_run :
  fst (import (listHost []) Scenario.importer Scenario.start) = Fulfilled tt
  /\ map fst (vault _ (snd (import (listHost []) Scenario.importer Scenario.start)))
     = ["Notion/A.md"; "Notion/B.md"; "Notion/Tasks.base"]
  /\ successesOf (trace _ (snd (import (listHost []) Scenario.importer Scenario.start)))
     = ["A.md"; "B.md"; "Tasks.base"]
  /\ failuresOf (trace _ (snd (import (listHost []) Scenario.importer Scenario.start)))
     = []
  /\ nth_error (map snd (vault _ (snd (import (listHost []) Scenario.importer
                                         Scenario.start)))) 0
     = Some ("---" ++ newline
             ++ "notion_id: a" ++ newline
             ++ "created: 2024-01-01T00:00:00.000Z" ++ newline
             ++ "updated: 2024-01-02T00:00:00.000Z" ++ newline
             ++ "---" ++ newline ++ newline
             ++ "# A" ++ newline ++ newline)
  /\ nth_error (map snd (vault _ (snd (import (listHost []) Scenario.importer
                                         Scenario.start)))) 2
     = Some (baseContent "Tasks" ["count"]).
Proof. vm_compute. repeat split. Qed.

(* ================================================================== *)
(** * Further properties: document serializer *)
(* ================================================================== *)

(** The comparison of line 277 on operands that are not numbers: a numeric
    string and an array of one number convert to that number, text that is
    no numeric literal converts to NaN, and a decimal too small for a double
    is zero. *)
Lemma gtZero_converts :
  gtZero (JStr "5") = Normal true
  /\ gtZero (JStr " 0x1F ") = Normal true
  /\ gtZero (JStr ".5e1") = Normal true
  /\ gtZero (JStr "-5") = Normal false
  /\ gtZero (JStr "five") = Normal false
  /\ gtZero (JStr "2e-324") = Normal false
  /\ gtZero (JStr "3e-324") = Normal true
  /\ gtZero (JArr [JNum 5]) = Normal true
  /\ gtZero (JArr [JNum 1; JNum 2]) = Normal false
  /\ gtZero (JArr []) = Normal false
  /\ gtZero (JObj [("length", JNum 5)]) = Normal false.
Proof. repeat split; vm_compute; reflexivity. Qed.

(** An object found where the title runs should be, with a [length] that
    converts to a positive number, passes the test of line 277, and the
    [map] call that follows throws: the record is skipped, not written
    under ["Untitled"]. *)
Lemma resolveTitle_of_object_with_length (fields : list (string * JSValue)) :
  JS.lookup "length" fields = Some (JStr "5") ->
  resolveTitle (Sample.pageOf "x" [("Name", JObj [("title", JObj fields)])])
    Sample.schema
  = Throw (TypeError "map is not a function").
Proof.
  intros Hlength.
  unfold resolveTitle. cbn [Sample.schema]. 
  change (titleProperty Sample.schema) with (Normal (A := option string) (Some "Name")).
  cbn [bindC Str.isEmpty]. 
  change (JS.member (Sample.pageOf "x" [("Name", JObj [("title", JObj fields)])])
            "properties")
    with (Normal (JObj [("Name", JObj [("title", JObj fields)])])).
  cbn [bindC].
  change (JS.member (JObj [("Name", JObj [("title", JObj fields)])]) "Name")
    with (Normal (JObj [("title", JObj fields)])).
  cbn [bindC JS.truthy].
  change (JS.member (JObj [("title", JObj fields)]) "title") with (Normal (JObj fields)).
  cbn [bindC JS.truthy JS.member].
  unfold JS.getOwn. cbn [JS.ownEntries]. rewrite Hlength.
  reflexivity.
Qed.

Lemma append_assoc (a b c : string) : ((a ++ b) ++ c = a ++ (b ++ c))%string.
Proof. induction a as [|x a IH]; simpl; [reflexivity | rewrite IH; reflexivity]. Qed.

Lemma length_append (a b : string) :
  String.length (a ++ b) = String.length a + String.length b.
Proof. induction a as [|x a IH]; simpl; [reflexivity | rewrite IH; reflexivity]. Qed.

Lemma trim_empty_of_empty (s : string) :
  Str.isEmpty s = true -> Str.isEmpty (Str.trim s) = true.
Proof. destruct s; [reflexivity | discriminate]. Qed.

(** X1: for a string value, line 292 skips it exactly when it is blank, and
    lines 295-299 wrap the cleaned text in double quotes exactly when the
    text holds a colon or is longer than 100 characters once cleaned; a line
    feed in the value plays no part in the decision. *)
Theorem frontmatterLine_of_string (key s : string) :
  frontmatterLine key (JStr s)
  = Normal (if Str.isEmpty (Str.trim s) then EmptyString
            else key ++ ": "
                 ++ lineBody (Str.includes Str.colon s
                              || (100 <? String.length (cleanValue s))%nat)
                      (cleanValue s)
                 ++ newline).
Proof.
  unfold frontmatterLine. cbn [JS.truthy JS.toString bindC].
  destruct (Str.isEmpty s) eqn:Es.
  - rewrite (trim_empty_of_empty s Es). reflexivity.
  - cbn [negb]. destruct (Str.isEmpty (Str.trim s)); [reflexivity|]. cbn [negb].
    rewrite needsQuotes_cleanValue.
    destruct (Str.includes Str.colon s || (100 <? String.length (cleanValue s))%nat);
      unfold lineBody, quoted; [|reflexivity].
    rewrite !append_assoc. reflexivity.
Qed.




Lemma length_replaceAll_char (c d : ascii) (s : string) :
  String.length (Str.replaceAll c (Str.str d) s) = String.length s.
Proof.
  induction s as [|x r IH]; [reflexivity|]. simpl.
  destruct (Ascii.eqb x c); simpl; rewrite IH; reflexivity.
Qed.

Lemma countChar_replaceAll_other (c d e : ascii) (s : string) :
  Ascii.eqb c e = false -> Ascii.eqb d e = false ->
  countChar e (Str.replaceAll c (Str.str d) s) = countChar e s.
Proof.
  intros Hc Hd. induction s as [|x r IH]; [reflexivity|]. simpl.
  destruct (Ascii.eqb x c) eqn:E; simpl; rewrite IH.
  - apply Ascii.eqb_eq in E. subst x. rewrite Hc, Hd. reflexivity.
  - reflexivity.
Qed.

(** X3: cleaning keeps the length of a value but for one more character per
    double quote: line feeds are replaced one for one, every double quote
    gains a backslash, nothing else is added or removed (a backslash already
    in the value is not escaped).  The 100-character test of line 295 is
    made on this longer text. *)
Theorem cleanValue_length (s : string) :
  String.length (cleanValue s) = String.length s + countChar Str.dquote s.
Proof.
  unfold cleanValue.
  assert (H : forall t,
             String.length (Str.replaceAll Str.dquote
                              (String Str.backslash (Str.str Str.dquote)) t)
             = String.length t + countChar Str.dquote t).
  { induction t as [|x r IH]; [reflexivity|]. simpl.
    destruct (Ascii.eqb x Str.dquote); simpl; rewrite IH; lia. }
  rewrite H.
  change (Str.replaceAll Str.LF " " s) with (Str.replaceAll Str.LF (Str.str " "%char) s).
  rewrite length_replaceAll_char, countChar_replaceAll_other by reflexivity.
  reflexivity.
Qed.

(** X4: notes and view agree in one direction: a property for which some
    record's note carries a frontmatter line is one of the columns the
    [.base] file lists. *)
Theorem frontmatter_line_has_column (databaseDetails : JSValue)
    (pages : list JSValue) (set : list string) (page properties property : JSValue)
    (key line : string) :
  propertiesWithData databaseDetails pages = Normal set ->
  In page pages ->
  JS.member page "properties" = Normal properties ->
  In (key, property) (JS.ownEntries properties) ->
  propertyLine databaseDetails (key, property) = Normal line ->
  line <> EmptyString ->
  In key set.
Proof.
  intros Hset Hpage Hprops Hentry Hline Hne.
  apply (propertiesWithData_sound _ _ _ Hset).
  unfold propertyLine in Hline.
  apply bindC_inv in Hline as [keep [Hkeep Hline]].
  apply notTitleTyped_inv in Hkeep.
  destruct keep; [|congruence].
  apply bindC_inv in Hline as [value [Hvalue Hline]].
  split; [destruct (isTitleTyped databaseDetails key); [discriminate | reflexivity]|].
  exists page, properties, property, value. repeat split; auto;
    intros ->; rewrite frontmatterLine_falsy in Hline by reflexivity; congruence.
Qed.

Lemma frontmatter_line_has_column_witness :
  propertiesWithData Sample.schema [Sample.recordC] = Normal ["note"]
  /\ propertyLine Sample.schema ("note", Sample.richTextOf Sample.twoLines)
     = Normal ("note: line one line two" ++ newline)
  /\ In "note" ["note"].
Proof.
  split; [reflexivity|]. split; [reflexivity|].
  apply (frontmatter_line_has_column Sample.schema [Sample.recordC] ["note"]
           Sample.recordC
           (JObj [("Name", Sample.titleOf "C"); ("note", Sample.richTextOf Sample.twoLines)])
           (Sample.richTextOf Sample.twoLines) "note"
           ("note: line one line two" ++ newline)).
  - reflexivity.
  - left; reflexivity.
  - reflexivity.
  - right; left; reflexivity.
  - reflexivity.
  - discriminate.
Defined.

(* ================================================================== *)
(** * Further properties: property value extractor *)
(* ================================================================== *)

Lemma or_null_defined (a : JSValue) : JS.or a JNull <> JUndefined.
Proof. unfold JS.or. destruct a as [| |[|]| | | |]; simpl; try discriminate;
  match goal with |- context [if ?b then _ else _] => destruct b end; discriminate. Qed.

Lemma trimOrNull_defined (joined v : JSValue) :
  JS.trimOrNull joined = Normal v -> v <> JUndefined.
Proof.
  unfold JS.trimOrNull. intros H. apply bindC_inv in H as [t [_ H]].
  injection H as <-. apply or_null_defined.
Qed.

Lemma presentOrNull_defined (x : JSValue) : presentOrNull x <> JUndefined.
Proof. destruct x; simpl; discriminate. Qed.

(** The extractor never returns [undefined], by induction on the size of
    the payload. *)
Lemma extract_defined (property : JSValue) :
  forall v, extractPropertyValue property = Normal v -> v <> JUndefined.
Proof.
  induction property as [property IH] using size_induction.
  intros v H.
  destruct property as [| | b|n|s|l|fields]; try discriminate;
    try (injection H as <-; discriminate).
  destruct (switchLabel (JS.getOwn (JObj fields) "type")) eqn:El.
  13: { rewrite (extract_formula fields El) in H.
        unfold JS.getOwn in H. cbn [JS.ownEntries] in H.
        destruct (JS.lookup "formula" fields) as [formula|] eqn:Hl; [|discriminate].
        exact (IH formula (lookup_size _ _ _ Hl) v H). }
  13: { rewrite (extract_rollup fields El) in H.
        apply bindC_inv in H as [j [_ H]]. exact (trimOrNull_defined _ _ H). }
  all: cbn [extractPropertyValue] in H; rewrite El in H;
    try (apply bindC_inv in H as [j [_ H]]);
    try exact (trimOrNull_defined _ _ H);
    injection H as <-;
    try apply or_null_defined; try apply presentOrNull_defined; discriminate.
Qed.

(** X5: whatever the payload, the extractor never returns [undefined]: an
    empty value is always [null] (so the [value !== undefined] test of line
    404 never decides anything). *)
Theorem extractPropertyValue_never_undefined (property v : JSValue) :
  extractPropertyValue property = Normal v -> v <> JUndefined.
Proof. exact (extract_defined property v). Qed.

Lemma extractPropertyValue_never_undefined_witness :
  extractPropertyValue More.numericRollup = Normal JNull /\ JNull <> JUndefined.
Proof.
  split; [reflexivity|].
  apply (extractPropertyValue_never_undefined More.numericRollup JNull). reflexivity.
Defined.

Lemma trimEnd_idempotent (s : string) : Str.trimEnd (Str.trimEnd s) = Str.trimEnd s.
Proof.
  induction s as [|c r IH]; [reflexivity|].
  cbn [Str.trimEnd].
  destruct (Str.isWhite c && Str.isEmpty (Str.trimEnd r)) eqn:E; [reflexivity|].
  cbn [Str.trimEnd]. rewrite IH, E. reflexivity.
Qed.

Lemma trimStart_head (s : string) :
  Str.trimStart s = EmptyString
  \/ exists c r, Str.trimStart s = String c r /\ Str.isWhite c = false.
Proof.
  induction s as [|c r IH]; [left; reflexivity|].
  cbn [Str.trimStart]. destruct (Str.isWhite c) eqn:E; [exact IH|].
  right. eauto.
Qed.

(** [trim] leaves nothing to trim. *)
Lemma trim_idempotent (s : string) : Str.trim (Str.trim s) = Str.trim s.
Proof.
  unfold Str.trim.
  destruct (trimStart_head s) as [-> | [c [r [-> Hc]]]]; [reflexivity|].
  cbn [Str.trimEnd]. rewrite Hc. cbn [andb Str.trimStart]. rewrite Hc.
  cbn [Str.trimEnd]. rewrite Hc, trimEnd_idempotent. reflexivity.
Qed.

Lemma trimOrNull_trimmed (joined v : JSValue) :
  JS.trimOrNull joined = Normal v ->
  v = JNull \/ exists s, v = JStr s /\ s <> EmptyString /\ Str.trim s = s.
Proof.
  unfold JS.trimOrNull. intros H. apply bindC_inv in H as [t [Ht H]].
  injection H as <-.
  destruct (JS.or joined (JStr "")) as [| | | |s0| |]; try discriminate;
    injection Ht as <-; unfold JS.or; simpl; auto.
  destruct (Str.trim s0) eqn:E; simpl; [auto|].
  right. eexists. split; [reflexivity|]. split; [discriminate|].
  rewrite <- E. apply trim_idempotent.
Qed.

Lemma optTrim_or_trimmed (x t : JSValue) :
  JS.optTrim x = Normal t ->
  JS.or t JNull = JNull
  \/ exists s, JS.or t JNull = JStr s /\ s <> EmptyString /\ Str.trim s = s.
Proof.
  destruct x as [| | | |s0| |]; try discriminate; intros [= <-]; unfold JS.or; simpl; auto.
  destruct (Str.trim s0) eqn:E; simpl; [auto|].
  right. eexists. split; [reflexivity|]. split; [discriminate|].
  rewrite <- E. apply trim_idempotent.
Qed.

(** X6: for the nine property types whose [case] ends in [.trim() || null]
    (rich_text, multi_select, url, email, phone_number, people, files,
    relation, rollup) and whatever the payload holds, a value the extractor
    returns is [null] or a string that is not empty and carries no white
    space at either end. *)
Theorem extractPropertyValue_trimmed (fields : list (string * JSValue)) (v : JSValue) :
  trimmedLabel (switchLabel (JS.getOwn (JObj fields) "type")) = true ->
  extractPropertyValue (JObj fields) = Normal v ->
  v = JNull \/ exists s, v = JStr s /\ s <> EmptyString /\ Str.trim s = s.
Proof.
  intros Hl H.
  destruct (switchLabel (JS.getOwn (JObj fields) "type")) eqn:El; try discriminate.
  9: { rewrite (extract_rollup fields El) in H.
       apply bindC_inv in H as [j [_ H]]. exact (trimOrNull_trimmed _ _ H). }
  all: cbn [extractPropertyValue] in H; rewrite El in H;
    apply bindC_inv in H as [j [Hj H]];
    try exact (trimOrNull_trimmed _ _ H);
    injection H as <-; exact (optTrim_or_trimmed _ _ Hj).
Qed.

Lemma extractPropertyValue_trimmed_witness :
  extractPropertyValue More.paddedOptions = Normal (JStr "red, blue")
  /\ (JStr "red, blue" = JNull
      \/ exists s, JStr "red, blue" = JStr s /\ s <> EmptyString /\ Str.trim s = s).
Proof.
  split; [reflexivity|].
  apply (extractPropertyValue_trimmed
           [("id", JStr "m"); ("type", JStr "multi_select");
            ("multi_select", JArr [JObj [("name", JStr " red")];
                                   JObj [("name", JStr "blue  ")]])]);
    reflexivity.
Defined.

(** X7: a rollup payload without an aggregated [array] (a rollup that
    computes a number or a date, say) extracts to [null]: only array rollups
    contribute a value. *)
Theorem rollup_without_array_is_null (fields : list (string * JSValue)) :
  switchLabel (JS.getOwn (JObj fields) "type") = TRollup ->
  JS.isNullish (JS.optMember (JS.getOwn (JObj fields) "rollup") "array") = true ->
  extractPropertyValue (JObj fields) = Normal JNull.
Proof.
  intros El Hn. rewrite (extract_rollup fields El), rollupArray_optMember.
  destruct (JS.optMember _ "array"); try discriminate; reflexivity.
Qed.

Lemma rollup_without_array_witness :
  extractPropertyValue More.numericRollup = Normal JNull.
Proof.
  apply (rollup_without_array_is_null
           [("id", JStr "r"); ("type", JStr "rollup");
            ("rollup", JObj [("type", JStr "number"); ("number", JNum 42);
                             ("function", JStr "sum")])]);
    reflexivity.
Defined.

(** X8: a formula is worth what its computed value is worth to the
    extractor, and a computed value typed [string] or [boolean] is worth
    [null], these two tags being no [case] of the [switch]: only formulas
    that compute a number or a date contribute a value. *)
Theorem formula_of_text_is_null (fields inner : list (string * JSValue)) :
  switchLabel (JS.getOwn (JObj fields) "type") = TFormula ->
  JS.lookup "formula" fields = Some (JObj inner) ->
  (JS.getOwn (JObj inner) "type" = JStr "string"
   \/ JS.getOwn (JObj inner) "type" = JStr "boolean") ->
  extractPropertyValue (JObj fields) = Normal JNull.
Proof.
  intros El Hl Ht. rewrite (extract_formula fields El).
  unfold JS.getOwn at 1. cbn [JS.ownEntries]. rewrite Hl.
  cbn [extractPropertyValue]. destruct Ht as [-> | ->]; reflexivity.
Qed.

Lemma formula_of_text_witness :
  extractPropertyValue More.textFormula = Normal JNull.
Proof.
  apply (formula_of_text_is_null
           [("id", JStr "f"); ("type", JStr "formula");
            ("formula", JObj [("type", JStr "string"); ("string", JStr "hello")])]
           [("type", JStr "string"); ("string", JStr "hello")]);
    [reflexivity | reflexivity | left; reflexivity].
Defined.

(* ================================================================== *)
(** * Further properties: what a computation leaves untouched *)
(* ================================================================== *)

Section Preservation.

Variable host : Host.
Variables X : Type.
Variable f : World host -> X.

Lemma preserves_ret {A} (a : A) : preserves f (ret (host := host) a).
Proof. intros w. reflexivity. Qed.

Lemma preserves_sync {A} (c : Completion A) : preserves f (sync (host := host) c).
Proof. intros w. unfold sync. destruct c; reflexivity. Qed.

Lemma preserves_pending {A} : preserves f (fun w : World host => (@Pending A, w)).
Proof. intros w. reflexivity. Qed.

Lemma preserves_bind {A B} (m : Async host A) (k : A -> Async host B) :
  preserves f m -> (forall a, preserves f (k a)) -> preserves f (bind m k).
Proof.
  intros Hm Hk w. unfold bind. specialize (Hm w).
  destruct (m w) as [[a|e|] w']; simpl in Hm; [|exact Hm..].
  rewrite Hk. exact Hm.
Qed.

Lemma preserves_tryCatch {A} (body : Async host A) (handler : Exn -> Async host A) :
  preserves f body -> (forall e, preserves f (handler e)) ->
  preserves f (tryCatch body handler).
Proof.
  intros Hb Hh w. unfold tryCatch. specialize (Hb w).
  destruct (body w) as [[a|e|] w']; simpl in Hb; [exact Hb | | exact Hb].
  rewrite Hh. exact Hb.
Qed.

End Preservation.

Section VaultUntouched.

Variable host : Host.

Lemma vault_emit (e : Event) : preserves (vault host) (emit e).
Proof. intros w. reflexivity. Qed.

Lemma vault_isCancelled : preserves (vault host) isCancelled.
Proof. intros w. reflexivity. Qed.

Lemma vault_requestUrl (url : string) (body : option JSValue) :
  preserves (vault host) (requestUrl url body).
Proof. intros w. unfold requestUrl. destruct (replies host w) as [|[d|e] r]; reflexivity. Qed.

Lemma vault_fetchLoop (n : nat) :
  forall databaseId pages hasMore nextCursor,
  preserves (vault host) (fetchLoop host n databaseId pages hasMore nextCursor).
Proof.
  induction n as [|n IH]; intros databaseId pages hasMore nextCursor;
    rewrite fetchLoop_unfold;
    (destruct (negb (JS.truthy hasMore)); [apply preserves_ret|]);
    (apply preserves_bind; [apply vault_isCancelled|]); intros stop;
    (destruct stop; [apply preserves_ret|]);
    (apply preserves_bind; [apply vault_requestUrl|]); intros data.
  - apply preserves_pending.
  - repeat (apply preserves_bind; [first [apply preserves_sync | apply vault_emit]|]; intros ?).
    apply IH.
Qed.

End VaultUntouched.

(** X9: whatever the service replies (pages, malformed data, errors, or
    nothing at all) and whenever cancellation is signalled, [fetchAllPages]
    leaves the vault as it found it: pagination writes no file. *)
Theorem fetchAllPages_keeps_vault (host : Host) (databaseId : string)
    (w : World host) :
  vault host (snd (fetchAllPages host databaseId w)) = vault host w.
Proof. unfold fetchAllPages. apply vault_fetchLoop. Qed.

Section CancelledMidway.

Variable host : Host.

(** The loop over pages that report more, polls answering false as long as
    they are read. *)
Lemma fetchLoop_more_until (databaseId : string) (datas : list JSValue) :
  forallb (isPageWith true) datas = true ->
  forall n pages nextCursor (w : World host) tail,
  replies host w = (map Json datas ++ tail)%list ->
  (forall k, polls host w <= k < polls host w + List.length datas ->
             cancelled host w k = false) ->
  List.length datas <= n ->
  fetchLoop host n databaseId pages (JBool true) nextCursor w
  = fetchLoop host (n - List.length datas) databaseId
      (pages ++ List.concat (map resultsOf datas))%list (JBool true)
      (cursorAfter nextCursor datas)
      {| replies := tail; cancelled := cancelled host w;
         polls := polls host w + List.length datas;
         vault := vault host w;
         trace := trace host w
                  ++ pageEvents databaseId nextCursor (List.length pages) datas |}.
Proof.
  induction datas as [|data rest IH];
    intros Hall n pages nextCursor w tail Hreplies Hcancel Hn.
  - cbn [map List.concat List.length pageEvents cursorAfter last].
    rewrite !app_nil_r, Nat.sub_0_r, Nat.add_0_r.
    simpl in Hreplies. rewrite <- Hreplies. destruct w; reflexivity.
  - cbn [forallb] in Hall. apply andb_true_iff in Hall as [Hpage Hrest].
    destruct n as [|n]; [simpl in Hn; lia|].
    rewrite (fetchLoop_page host n databaseId pages nextCursor data true
               (map Json rest ++ tail)%list w); auto.
    2: { apply Hcancel. simpl. lia. }
    rewrite (IH Hrest n _ _ _ tail); cbn [replies cancelled polls vault trace]; auto.
    + cbn [map List.concat List.length Nat.sub].
      replace (cursorAfter (cursorOf data) rest) with (cursorAfter nextCursor (data :: rest)).
      * rewrite <- app_assoc. f_equal.
        apply world_eq; try reflexivity; try (simpl; lia).
        rewrite <- app_assoc. cbn [pageEvents app]. rewrite length_app. reflexivity.
      * unfold cursorAfter. cbn [map]. destruct (map cursorOf rest) eqn:E; [reflexivity|].
        change (last (cursorOf data :: j :: l) nextCursor) with (last (j :: l) nextCursor).
        apply last_cons_default.
    + intros k Hk. apply Hcancel. simpl. lia.
    + simpl in Hn. lia.
Qed.

End CancelledMidway.

(** X10: when cancellation is first observed at the poll that follows k
    pages which all reported more, [fetchAllPages] stops without error and
    is fulfilled with the records of those k pages, in order; it has issued
    exactly k calls and leaves the later replies unread. *)
Theorem fetchAllPages_cancelled_midway (host : Host) (databaseId : string)
    (datas : list JSValue) (tail : list Reply) (w : World host) :
  forallb (isPageWith true) datas = true ->
  replies host w = (map Json datas ++ tail)%list ->
  (forall k, polls host w <= k < polls host w + List.length datas ->
             cancelled host w k = false) ->
  cancelled host w (polls host w + List.length datas) = true ->
  fetchAllPages host databaseId w
  = (Fulfilled (List.concat (map resultsOf datas)),
     {| replies := tail; cancelled := cancelled host w;
        polls := S (polls host w + List.length datas);
        vault := vault host w;
        trace := trace host w ++ pageEvents databaseId JUndefined 0 datas |})
  /\ List.length (requestsOf (pageEvents databaseId JUndefined 0 datas))
     = List.length datas.
Proof.
  intros Hall Hreplies Hfalse Htrue. split.
  - unfold fetchAllPages.
    rewrite (fetchLoop_more_until host databaseId datas Hall _ [] JUndefined w tail
               Hreplies Hfalse).
    2: { rewrite Hreplies, length_app, length_map. lia. }
    rewrite fetchLoop_unfold. cbn [JS.truthy negb].
    unfold bind, isCancelled. cbn [replies cancelled polls vault trace].
    rewrite Htrue. reflexivity.
  - apply length_requestsOf_pageEvents.
Qed.

Lemma fetchAllPages_cancelled_midway_witness :
  fetchAllPages (listHost []) "db1" Midway.start
  = (Fulfilled [Sample.recordA; Sample.recordB],
     Build_World (listHost []) Midway.unread (fun k => (2 <=? k)%nat) 3 []
       (pageEvents "db1" JUndefined 0 Midway.served))
  /\ List.length (requestsOf (pageEvents "db1" JUndefined 0 Midway.served)) = 2.
Proof.
  apply (fetchAllPages_cancelled_midway (listHost []) "db1" Midway.served
           Midway.unread Midway.start).
  - reflexivity.
  - reflexivity.
  - intros k Hk. simpl in Hk.
    assert (Hcase : k = 0 \/ k = 1) by lia.
    destruct Hcase as [-> | ->]; reflexivity.
  - reflexivity.
Defined.

(* ================================================================== *)
(** * Further properties: conversion *)
(* ================================================================== *)

(** X11: [convertPageToMarkdown] contains every error: whatever the record,
    the schema and the vault, its promise is fulfilled, never rejected nor
    left pending, and it is fulfilled with [null] exactly when the
    serialization or the write failed; it consumes no reply and makes no
    cancellation poll. *)
Theorem convertPageToMarkdown_contained (host : Host) (page : JSValue)
    (folder : Folder) (databaseDetails : JSValue) (w : World host) :
  exists result w',
    convertPageToMarkdown host page folder databaseDetails w = (Fulfilled result, w')
    /\ replies host w' = replies host w
    /\ polls host w' = polls host w
    /\ (result = None
        <-> conversionFailure host page folder databaseDetails (vault host w) <> None).
Proof.
  unfold convertPageToMarkdown, conversionFailure, tryCatch, bind, sync, write.
  destruct (renderPage page databaseDetails) as [[title markdown]|e].
  - cbn [vault].
    destruct (saveAsMarkdownFile host folder title markdown (vault host w))
      as [[[]|e] v'].
    + eexists; eexists. split; [reflexivity|]. repeat split; try discriminate.
      intros H; contradiction H; reflexivity.
    + eexists; eexists. split; [reflexivity|]. repeat split; try discriminate.
  - eexists; eexists. split; [reflexivity|]. repeat split; try discriminate.
Qed.

Lemma scanEntries_throws (details : JSValue) (entries : list (string * JSValue))
    (key : string) (property : JSValue) (error : Exn) :
  In (key, property) entries ->
  notTitleTyped details key = Normal true ->
  extractPropertyValue property = Throw error ->
  forall acc, exists error', scanEntries details acc entries = Throw error'.
Proof.
  intros Hin Hkeep Hthrow.
  induction entries as [|entry rest IH]; [destruct Hin|]. intros acc.
  cbn [scanEntries].
  destruct (scanEntry details acc entry) as [mid|e] eqn:E; [|eexists; reflexivity].
  cbn [bindC]. destruct Hin as [-> | Hin]; [|apply IH, Hin].
  unfold scanEntry in E. rewrite Hkeep, Hthrow in E. discriminate.
Qed.

Lemma scanPages_throws (details : JSValue) (pages : list JSValue)
    (page properties : JSValue) (key : string) (property : JSValue) (error : Exn) :
  In page pages ->
  JS.member page "properties" = Normal properties ->
  In (key, property) (JS.ownEntries properties) ->
  notTitleTyped details key = Normal true ->
  extractPropertyValue property = Throw error ->
  forall acc, exists error', scanPages details acc pages = Throw error'.
Proof.
  intros Hin Hprops Hentry Hkeep Hthrow.
  induction pages as [|p rest IH]; [destruct Hin|]. intros acc.
  cbn [scanPages].
  destruct (JS.member p "properties") as [props|e] eqn:Ep; [|eexists; reflexivity]. cbn [bindC].
  destruct (JS.entries props) as [entries|e] eqn:Ee; [|eexists; reflexivity]. cbn [bindC].
  destruct (scanEntries details acc entries) as [mid|e] eqn:Es; [|eexists; reflexivity]. cbn [bindC].
  destruct Hin as [-> | Hin]; [|apply IH, Hin].
  assert (props = properties) by congruence. subst props.
  assert (entries = JS.ownEntries properties).
  { unfold JS.entries in Ee. destruct (JS.isNullish properties); congruence. }
  subst entries.
  destruct (scanEntries_throws details _ key property error Hentry Hkeep Hthrow acc)
    as [e' He']. congruence.
Qed.

(** X12: the inference pass has no per-record containment: when the
    extraction of one property (not typed [title]) of one record throws,
    [createBaseFile] writes nothing, logs an error and is fulfilled with
    [null], so the run produces no [.base] file at all, whatever the other
    records hold. *)
Theorem createBaseFile_needs_every_record (host : Host) (database : NotionDatabase)
    (databaseDetails : JSValue) (pages : list JSValue) (folder : Folder)
    (w : World host) (page properties : JSValue) (key : string)
    (property : JSValue) (error : Exn) :
  In page pages ->
  JS.member page "properties" = Normal properties ->
  In (key, property) (JS.ownEntries properties) ->
  notTitleTyped databaseDetails key = Normal true ->
  extractPropertyValue property = Throw error ->
  exists logged,
    createBaseFile host database databaseDetails pages folder w
    = (Fulfilled None,
       {| replies := replies host w; cancelled := cancelled host w;
          polls := polls host w; vault := vault host w;
          trace := trace host w ++ [ConsoleError "Error creating base file:" logged] |}).
Proof.
  intros Hin Hprops Hentry Hkeep Hthrow.
  destruct (scanPages_throws databaseDetails pages page properties key property error
              Hin Hprops Hentry Hkeep Hthrow []) as [logged H].
  exists logged. unfold createBaseFile, tryCatch, bind, sync.
  unfold propertiesWithData. rewrite H. reflexivity.
Qed.

Lemma createBaseFile_needs_every_record_witness :
  exists logged,
    createBaseFile (listHost []) Scenario.database Sample.schema
      [Sample.recordA; Sample.brokenRecord] Skipped.folder Skipped.start
    = (Fulfilled None,
       Build_World (listHost []) [] Scenario.never 0 []
         [ConsoleError "Error creating base file:" logged]).
Proof.
  apply (createBaseFile_needs_every_record (listHost []) Scenario.database
           Sample.schema [Sample.recordA; Sample.brokenRecord] Skipped.folder
           Skipped.start Sample.brokenRecord
           (JObj [("Name", Sample.titleOf "X"); ("total", formulaWithoutValue)])
           "total" formulaWithoutValue
           (TypeError "Cannot read properties of null or undefined: type")).
  - right; left; reflexivity.
  - reflexivity.
  - right; left; reflexivity.
  - reflexivity.
  - reflexivity.
Defined.

Section Reports.

Variable host : Host.

Lemma quiet_emit (X : Type) (g : list Event -> X) (e : Event) :
  (forall t : list Event, g (t ++ [e])%list = g t) ->
  preserves (fun w : World host => g (trace host w)) (emit e).
Proof. intros H w. unfold emit. cbn [snd trace]. apply H. Qed.

Lemma successes_snoc (t : list Event) (e : Event) :
  isReport e = false -> successesOf (t ++ [e]) = successesOf t.
Proof.
  intros H. rewrite successesOf_app.
  destruct e; try discriminate; simpl; apply app_nil_r.
Qed.

Lemma failures_snoc (t : list Event) (e : Event) :
  isReport e = false -> failuresOf (t ++ [e]) = failuresOf t.
Proof.
  intros H. rewrite failuresOf_app.
  destruct e; try discriminate; simpl; apply app_nil_r.
Qed.

Lemma successes_emit (e : Event) :
  isReport e = false -> preserves (successesSoFar (host := host)) (emit e).
Proof. intros H. apply (quiet_emit _ successesOf). intros t. apply successes_snoc, H. Qed.

Lemma failures_emit (e : Event) :
  isReport e = false -> preserves (failuresSoFar (host := host)) (emit e).
Proof. intros H. apply (quiet_emit _ failuresOf). intros t. apply failures_snoc, H. Qed.

Lemma failures_emit_success (name : string) :
  preserves (failuresSoFar (host := host)) (emit (NoteSuccess name)).
Proof.
  apply (quiet_emit _ failuresOf). intros t.
  rewrite failuresOf_app. apply app_nil_r.
Qed.

(** The primitives that do not touch the trace. *)
Lemma trace_isCancelled (X : Type) (g : list Event -> X) :
  preserves (fun w : World host => g (trace host w)) isCancelled.
Proof. intros w. reflexivity. Qed.

Lemma trace_write (X : Type) (g : list Event -> X)
    (op : Vault host -> Completion unit * Vault host) :
  preserves (fun w : World host => g (trace host w)) (write op).
Proof.
  intros w. unfold write. destruct (op (vault host w)) as [[u|e] v]; reflexivity.
Qed.

Lemma reports_requestUrl (X : Type) (g : list Event -> X) url body :
  (forall t : list Event, g (t ++ [Request url body])%list = g t) ->
  preserves (fun w : World host => g (trace host w)) (requestUrl url body).
Proof.
  intros H w. unfold requestUrl.
  destruct (replies host w) as [|[d|e] r]; cbn [snd trace]; apply H.
Qed.

(** [convertPageToMarkdown] and [createBaseFile] report neither a success
    nor a failure themselves. *)
Lemma reports_convertPageToMarkdown (X : Type) (g : list Event -> X) page folder details :
  (forall (t : list Event) e, isReport e = false -> g (t ++ [e])%list = g t) ->
  preserves (fun w : World host => g (trace host w))
    (convertPageToMarkdown host page folder details).
Proof.
  intros H. unfold convertPageToMarkdown.
  apply preserves_tryCatch.
  - apply preserves_bind; [apply preserves_sync|]. intros [title markdown].
    apply preserves_bind; [apply trace_write|]. intros _. apply preserves_ret.
  - intros e. apply preserves_bind; [|intros _; apply preserves_ret].
    apply quiet_emit. intros t. apply H. reflexivity.
Qed.

Lemma reports_createBaseFile (X : Type) (g : list Event -> X) database details pages folder :
  (forall (t : list Event) e, isReport e = false -> g (t ++ [e])%list = g t) ->
  preserves (fun w : World host => g (trace host w))
    (createBaseFile host database details pages folder).
Proof.
  intros H. unfold createBaseFile.
  apply preserves_tryCatch.
  - apply preserves_bind; [apply preserves_sync|]. intros withData.
    apply preserves_bind; [apply trace_write|]. intros _. apply preserves_ret.
  - intros e. apply preserves_bind; [|intros _; apply preserves_ret].
    apply quiet_emit. intros t. apply H. reflexivity.
Qed.

Lemma reports_fetchLoop (X : Type) (g : list Event -> X) (n : nat) :
  (forall (t : list Event) e, isReport e = false -> g (t ++ [e])%list = g t) ->
  forall databaseId pages hasMore nextCursor,
  preserves (fun w : World host => g (trace host w))
    (fetchLoop host n databaseId pages hasMore nextCursor).
Proof.
  intros H.
  induction n as [|n IH]; intros databaseId pages hasMore nextCursor;
    rewrite fetchLoop_unfold;
    (destruct (negb (JS.truthy hasMore)); [apply preserves_ret|]);
    (apply preserves_bind; [apply trace_isCancelled|]); intros stop;
    (destruct stop; [apply preserves_ret|]);
    (apply preserves_bind;
       [apply reports_requestUrl; intros t; apply H; reflexivity|]); intros data.
  - apply preserves_pending.
  - repeat (apply preserves_bind;
              [first [apply preserves_sync
                     | apply quiet_emit; intros t; apply H; reflexivity]|];
            intros ?).
    apply IH.
Qed.

End Reports.

Section ConversionLoop.

Variable host : Host.

Lemma convert_fulfilled (page : JSValue) (folder : Folder) (details : JSValue)
    (w : World host) :
  exists result w', convertPageToMarkdown host page folder details w = (Fulfilled result, w').
Proof.
  unfold convertPageToMarkdown, tryCatch, bind, sync, write.
  destruct (renderPage page details) as [[title markdown]|e];
    [|eexists; eexists; reflexivity].
  cbn [vault].
  destruct (saveAsMarkdownFile host folder title markdown (vault host w)) as [[[]|e] v'];
    eexists; eexists; reflexivity.
Qed.

Lemma recordFile_spec (fileName : option string) (files : list string) (w : World host) :
  exists new w',
    recordFile host fileName files w = (Fulfilled (files ++ new)%list, w')
    /\ successesSoFar w' = (successesSoFar w ++ new)%list
    /\ failuresSoFar w' = failuresSoFar w
    /\ List.length new <= 1.
Proof.
  unfold recordFile, successesSoFar, failuresSoFar.
  destruct fileName as [name|].
  - destruct (Str.isEmpty name).
    + exists [], w. rewrite !app_nil_r. auto.
    + exists [name]. eexists. unfold bind, emit, ret. split; [reflexivity|].
      cbn [trace]. rewrite successesOf_app, failuresOf_app. simpl.
      rewrite app_nil_r. auto.
  - exists [], w. rewrite !app_nil_r. auto.
Qed.

(** The loop of lines 189-200 is always fulfilled; the names it adds are the
    successes it reports, at most one per record; it reports no failure. *)
Lemma convertLoop_spec (folder : Folder) (details : JSValue) (pages : list JSValue) :
  forall i total files (w : World host),
  exists result w',
    convertLoop host folder details pages i total files w = (Fulfilled result, w')
    /\ failuresSoFar w' = failuresSoFar w
    /\ forall files', result = Some files' ->
         exists new,
           files' = (files ++ new)%list
           /\ successesSoFar w' = (successesSoFar w ++ new)%list
           /\ List.length new <= List.length pages.
Proof.
  induction pages as [|page rest IH]; intros i total files w.
  - exists (Some files), w. split; [reflexivity|]. split; [reflexivity|].
    intros files' [= <-]. exists []. rewrite !app_nil_r. auto.
  - cbn [convertLoop]. unfold bind at 1. unfold isCancelled at 1.
    destruct (cancelled host w (polls host w)).
    { eexists; eexists. split; [reflexivity|]. split; [reflexivity|]. discriminate. }
    set (w1 := {| replies := replies host w; cancelled := cancelled host w;
                  polls := S (polls host w); vault := vault host w;
                  trace := trace host w |}).
    destruct (convert_fulfilled page folder details w1) as [fileName [w2 E2]].
    pose proof (reports_convertPageToMarkdown host _ successesOf page folder details
                  successes_snoc w1) as Hs2.
    pose proof (reports_convertPageToMarkdown host _ failuresOf page folder details
                  failures_snoc w1) as Hf2.
    rewrite E2 in Hs2, Hf2. cbn [snd] in Hs2, Hf2.
    unfold bind at 1. rewrite E2.
    destruct (recordFile_spec fileName files w2) as [new [w3 [E3 [Hs3 [Hf3 Hlen]]]]].
    unfold bind at 1. rewrite E3.
    unfold bind at 1. unfold emit at 1.
    set (w4 := {| replies := replies host w3; cancelled := cancelled host w3;
                  polls := polls host w3; vault := vault host w3;
                  trace := trace host w3 ++ [Progress (i + 1) total] |}).
    destruct (IH (S i) total (files ++ new)%list w4) as [result [w' [E [Hf Hsome]]]].
    exists result, w'. split; [exact E|].
    assert (Hs4 : successesSoFar w4 = (successesSoFar w ++ new)%list).
    { unfold successesSoFar in *. cbn [trace w4]. rewrite successes_snoc by reflexivity.
      rewrite Hs3. f_equal. exact Hs2. }
    assert (Hf4 : failuresSoFar w4 = failuresSoFar w).
    { unfold failuresSoFar in *. cbn [trace w4]. rewrite failures_snoc by reflexivity.
      rewrite Hf3. exact Hf2. }
    split; [congruence|].
    intros files' Hr. destruct (Hsome files' Hr) as [more [-> [Hs Hl]]].
    exists (new ++ more)%list. rewrite Hs, Hs4, !app_assoc, length_app.
    repeat split. simpl. lia.
Qed.

End ConversionLoop.

(** X13: the conversion loop of [import] is always fulfilled, whatever the
    records and the vault do; when it runs to the end, the file names it has
    added to [convertedFiles] are exactly what it has reported through
    [ctx.reportNoteSuccess], in the same order, at most one per record. *)
Theorem convertLoop_files_are_successes (host : Host) (folder : Folder)
    (databaseDetails : JSValue) (pages : list JSValue) (i total : nat)
    (convertedFiles : list string) (w : World host) :
  exists result w',
    convertLoop host folder databaseDetails pages i total convertedFiles w
    = (Fulfilled result, w')
    /\ forall files', result = Some files' ->
         exists new,
           files' = (convertedFiles ++ new)%list
           /\ successesSoFar w' = (successesSoFar w ++ new)%list
           /\ List.length new <= List.length pages.
Proof.
  destruct (convertLoop_spec host folder databaseDetails pages i total convertedFiles w)
    as [result [w' [E [_ H]]]].
  exists result, w'. auto.
Qed.

Section RunReports.

Variable host : Host.
Variable this : Importer.

Lemma failures_convertLoop (folder : Folder) (details : JSValue) (pages : list JSValue)
    (i total : nat) (files : list string) :
  preserves (failuresSoFar (host := host))
    (convertLoop host folder details pages i total files).
Proof.
  intros w.
  destruct (convertLoop_spec host folder details pages i total files w)
    as [result [w' [E [Hf _]]]].
  rewrite E. exact Hf.
Qed.

Lemma failures_recordFile (fileName : option string) (files : list string) :
  preserves (failuresSoFar (host := host)) (recordFile host fileName files).
Proof.
  intros w. destruct (recordFile_spec host fileName files w) as [new [w' [E [_ [Hf _]]]]].
  rewrite E. exact Hf.
Qed.

Lemma failures_fetchAllPages (databaseId : string) :
  preserves (failuresSoFar (host := host)) (fetchAllPages host databaseId).
Proof.
  intros w. unfold fetchAllPages.
  apply (reports_fetchLoop host _ failuresOf _ failures_snoc).
Qed.

Ltac quiet_step :=
  first [ apply preserves_ret
        | apply failures_emit; reflexivity
        | apply (trace_isCancelled host _ failuresOf)
        | apply failures_fetchAllPages
        | apply failures_convertLoop
        | apply failures_recordFile
        | apply (reports_createBaseFile host _ failuresOf); apply failures_snoc
        | apply (reports_requestUrl host _ failuresOf); intros t; apply failures_snoc;
          reflexivity ].

Lemma failures_baseFileStep (db : NotionDatabase) (folder : Folder) (details : JSValue)
    (pages : list JSValue) (files : list string) :
  preserves (failuresSoFar (host := host))
    (baseFileStep host this db folder details pages files).
Proof.
  unfold baseFileStep. destruct (createBaseFiles this); [|quiet_step].
  apply preserves_bind; [quiet_step|]. intros stop. destruct stop; [quiet_step|].
  repeat (apply preserves_bind; [quiet_step|]; intros ?). quiet_step.
Qed.

(** The [try] block reports no failure itself. *)
Lemma failures_importBody (db : NotionDatabase) (folder : Folder) :
  preserves (failuresSoFar (host := host)) (importBody host this db folder).
Proof.
  unfold importBody, fetchDatabaseDetails.
  apply preserves_bind; [quiet_step|]. intros _.
  apply preserves_bind; [quiet_step|]. intros details.
  apply preserves_bind; [quiet_step|]. intros stop. destruct stop; [quiet_step|].
  apply preserves_bind; [quiet_step|]. intros _.
  apply preserves_bind; [quiet_step|]. intros pages.
  apply preserves_bind; [quiet_step|]. intros stop. destruct stop; [quiet_step|].
  apply preserves_bind; [quiet_step|]. intros _.
  apply preserves_bind; [quiet_step|]. intros converted.
  destruct converted as [files|]; [|quiet_step].
  apply preserves_bind; [apply failures_baseFileStep|]. intros files'.
  apply preserves_bind; [quiet_step|]. intros _. quiet_step.
Qed.

End RunReports.

(** X14: [import] rejects through [getOutputFolder] only.  The [await] of
    line 158 stands before the [try] of line 170, so when the token and the
    database are set and [getOutputFolder] rejects, [import] rejects with
    the same error, having shown nothing, requested nothing and polled
    nothing; no other error leaves [import], whatever the replies, the
    cancellation signal and the vault: everything after line 170 is caught
    at line 216. *)
Theorem import_rejects_only_at_getOutputFolder (host : Host) (this : Importer)
    (w : World host) (error : Exn) :
  (fst (import host this w) = Rejected error
   <-> Str.isEmpty (notionToken this) = false
       /\ Str.isEmpty (selectedDatabaseId this) = false
       /\ getOutputFolder host (vault host w) = Throw error)
  /\ (fst (import host this w) = Rejected error ->
      trace host (snd (import host this w)) = trace host w
      /\ replies host (snd (import host this w)) = replies host w
      /\ polls host (snd (import host this w)) = polls host w).
Proof.
  unfold import.
  destruct (Str.isEmpty (notionToken this));
    [split; [split; [discriminate | intros [H _]; discriminate] | discriminate]|].
  destruct (Str.isEmpty (selectedDatabaseId this));
    [split; [split; [discriminate | intros [_ [H _]]; discriminate] | discriminate]|].
  destruct (getOutputFolder host (vault host w)) as [[folder|]|e].
  - destruct (find _ (databases this)) as [db|];
      [|split; [split; [discriminate | intros [_ [_ H]]; discriminate] | discriminate]].
    unfold tryCatch.
    destruct (importBody host this db folder w) as [[[]|e|] w1];
      (split; [split; [discriminate | intros [_ [_ H]]; discriminate] | discriminate]).
  - split; [split; [discriminate | intros [_ [_ H]]; discriminate] | discriminate].
  - cbn [fst snd]. split; [|auto].
    split; [intros H; injection H as ->; auto
           | intros [_ [_ H]]; injection H as ->; reflexivity].
Qed.

Lemma import_rejects_witness :
  getOutputFolder Misuse.lockedHost (vault _ Misuse.lockedStart)
  = Throw Misuse.folderError
  /\ fst (import Misuse.lockedHost Scenario.importer Misuse.lockedStart)
     = Rejected Misuse.folderError
  /\ trace _ (snd (import Misuse.lockedHost Scenario.importer Misuse.lockedStart)) = [].
Proof.
  destruct (import_rejects_only_at_getOutputFolder Misuse.lockedHost
              Scenario.importer Misuse.lockedStart Misuse.folderError)
    as [[_ Hrejects] Hquiet].
  assert (Hrun : fst (import Misuse.lockedHost Scenario.importer Misuse.lockedStart)
                 = Rejected Misuse.folderError)
    by (apply Hrejects; repeat split).
  split; [reflexivity|]. split; [exact Hrun|].
  destruct (Hquiet Hrun) as [Htrace _]. exact Htrace.
Defined.

(** X15: a run calls [ctx.reportFailed] at most once, and then with the
    title of the selected database: besides the [catch] of line 216 no part
    of the run reports a failure. *)
Theorem import_reports_failure_at_most_once (host : Host) (this : Importer)
    (w : World host) :
  exists reported,
    failuresSoFar (snd (import host this w)) = (failuresSoFar w ++ reported)%list
    /\ (reported = []
        \/ exists db error,
             find (fun db => String.eqb (db_id db) (selectedDatabaseId this))
                  (databases this) = Some db
             /\ reported = [(db_title db, error)]).
Proof.
  unfold import.
  destruct (Str.isEmpty (notionToken this));
    [exists []; rewrite app_nil_r; split; [apply failures_emit; reflexivity | auto]|].
  destruct (Str.isEmpty (selectedDatabaseId this));
    [exists []; rewrite app_nil_r; split; [apply failures_emit; reflexivity | auto]|].
  destruct (getOutputFolder host (vault host w)) as [[folder|]|e];
    [|exists []; rewrite app_nil_r; split; [apply failures_emit; reflexivity | auto]
     |exists []; rewrite app_nil_r; auto].
  destruct (find _ (databases this)) as [db|] eqn:Hfind;
    [|exists []; rewrite app_nil_r; split; [apply failures_emit; reflexivity | auto]].
  pose proof (failures_importBody host this db folder w) as Hbody.
  unfold tryCatch.
  destruct (importBody host this db folder w) as [[[]|e|] w1]; cbn [snd] in Hbody |- *.
  - exists []. rewrite app_nil_r. auto.
  - exists [(db_title db, e)]. split; [|right; eauto].
    unfold bind, emit, failuresSoFar in *. cbn [snd trace].
    rewrite !failuresOf_app. simpl. rewrite Hbody, !app_nil_r. reflexivity.
  - exists []. rewrite app_nil_r. auto.
Qed.

(** X16: when the token is empty, no database is selected,
    [getOutputFolder] answers [null], or it answers a folder and the
    selected database is not among the loaded ones, the run shows one notice
    and does nothing else: no request, no cancellation poll, no write, no
    report. *)
Theorem import_misconfigured_only_notice (host : Host) (this : Importer)
    (w : World host) :
  misconfigured host this w ->
  exists text,
    import host this w
    = (Fulfilled tt,
       {| replies := replies host w; cancelled := cancelled host w;
          polls := polls host w; vault := vault host w;
          trace := trace host w ++ [Notice text] |}).
Proof.
  unfold misconfigured, import. intros H.
  destruct (Str.isEmpty (notionToken this)); [eexists; reflexivity|].
  destruct (Str.isEmpty (selectedDatabaseId this)); [eexists; reflexivity|].
  destruct (getOutputFolder host (vault host w)) as [[folder|]|e];
    [|eexists; reflexivity
     |destruct H as [H | [H | [H | [[f H] _]]]]; discriminate].
  destruct (find _ (databases this)) as [db|]; [|eexists; reflexivity].
  destruct H as [H | [H | [H | [_ H]]]]; discriminate.
Qed.

(** X17: a run that finds cancellation signalled once the database object
    has arrived stops there: it has issued that one request, it fetches no
    page, converts nothing, writes nothing and reports nothing. *)
Theorem import_cancelled_after_details (host : Host) (this : Importer)
    (selectedDatabase : NotionDatabase) (folder : Folder)
    (databaseDetails : JSValue) (rest : list Reply) (w : World host) :
  configured host this w selectedDatabase folder ->
  replies host w = Json databaseDetails :: rest ->
  cancelled host w (polls host w) = true ->
  import host this w
  = (Fulfilled tt,
     {| replies := rest; cancelled := cancelled host w;
        polls := S (polls host w); vault := vault host w;
        trace := trace host w
                 ++ [Status "Fetching database details...";
                     Request (databaseUrl (selectedDatabaseId this)) None] |}).
Proof.
  intros [Htoken [Hselected [Hfolder Hfind]]] Hreplies Hcancel.
  unfold import. rewrite Htoken, Hselected, Hfolder, Hfind.
  unfold tryCatch, importBody.
  unfold bind at 1. unfold emit at 1.
  unfold bind at 1. unfold fetchDatabaseDetails, requestUrl at 1.
  cbn [replies cancelled polls vault trace]. rewrite Hreplies.
  unfold bind at 1. unfold isCancelled at 1.
  cbn [replies cancelled polls vault trace]. rewrite Hcancel.
  unfold ret. rewrite <- app_assoc. reflexivity.
Qed.

Lemma import_misconfigured_witness :
  misconfigured (listHost []) Misuse.noToken Scenario.start
  /\ exists text,
       import (listHost []) Misuse.noToken Scenario.start
       = (Fulfilled tt,
          Build_World (listHost []) (Json Sample.schema :: map Json Scenario.twoPages)
            Scenario.never 0 [] [Notice text]).
Proof.
  assert (H : misconfigured (listHost []) Misuse.noToken Scenario.start)
    by (left; reflexivity).
  split; [exact H|].
  exact (import_misconfigured_only_notice (listHost []) Misuse.noToken Scenario.start H).
Defined.

Lemma import_cancelled_after_details_witness :
  import (listHost []) Scenario.importer Misuse.cancelledRun
  = (Fulfilled tt,
     Build_World (listHost []) (map Json Scenario.twoPages) Scenario.always 1 []
       [Status "Fetching database details...";
        Request (databaseUrl "db1") None]).
Proof.
  apply (import_cancelled_after_details (listHost []) Scenario.importer
           Scenario.database {| path := "Notion" |} Sample.schema
           (map Json Scenario.twoPages) Misuse.cancelledRun).
  - repeat split.
  - reflexivity.
  - reflexivity.
Defined.

Section Progress.

Variable host : Host.

Lemma progressOf_app (a b : list Event) :
  progressOf (a ++ b) = (progressOf a ++ progressOf b)%list.
Proof.
  induction a as [|e a IH]; [reflexivity|].
  destruct e; cbn [app progressOf]; rewrite IH; reflexivity.
Qed.

Lemma convert_progress (page : JSValue) (folder : Folder) (details : JSValue)
    (w : World host) :
  exists result w',
    convertPageToMarkdown host page folder details w = (Fulfilled result, w')
    /\ progressOf (trace host w') = progressOf (trace host w).
Proof.
  unfold convertPageToMarkdown, tryCatch, bind, sync, write, emit, ret.
  destruct (renderPage page details) as [[title markdown]|e].
  - cbn [vault].
    destruct (saveAsMarkdownFile host folder title markdown (vault host w)) as [[[]|e] v'];
      eexists; eexists; (split; [reflexivity|]); cbn [trace];
      rewrite ?progressOf_app; simpl; rewrite ?app_nil_r; reflexivity.
  - eexists; eexists; (split; [reflexivity|]); cbn [trace].
    rewrite progressOf_app. simpl. apply app_nil_r.
Qed.

Lemma recordFile_progress (fileName : option string) (files : list string)
    (w : World host) :
  exists files' w',
    recordFile host fileName files w = (Fulfilled files', w')
    /\ progressOf (trace host w') = progressOf (trace host w).
Proof.
  unfold recordFile. destruct fileName as [name|]; [|exists files, w; auto].
  destruct (Str.isEmpty name); [exists files, w; auto|].
  unfold bind, emit, ret. eexists; eexists. split; [reflexivity|].
  cbn [trace]. rewrite progressOf_app. simpl. apply app_nil_r.
Qed.

Lemma convertLoop_progress_from (folder : Folder) (details : JSValue)
    (pages : list JSValue) :
  forall i total files (w : World host) files' w',
  convertLoop host folder details pages i total files w = (Fulfilled (Some files'), w') ->
  progressOf (trace host w')
  = (progressOf (trace host w)
     ++ map (fun k => (i + k, total)) (seq 1 (List.length pages)))%list.
Proof.
  induction pages as [|page rest IH]; intros i total files w files' w' H.
  - injection H as _ <-. simpl. rewrite app_nil_r. reflexivity.
  - cbn [convertLoop] in H. unfold bind at 1 in H. unfold isCancelled at 1 in H.
    destruct (cancelled host w (polls host w)); [discriminate|].
    set (w1 := {| replies := replies host w; cancelled := cancelled host w;
                  polls := S (polls host w); vault := vault host w;
                  trace := trace host w |}) in H.
    destruct (convert_progress page folder details w1) as [fileName [w2 [E2 P2]]].
    unfold bind at 1 in H. rewrite E2 in H.
    destruct (recordFile_progress fileName files w2) as [files2 [w3 [E3 P3]]].
    unfold bind at 1 in H. rewrite E3 in H.
    unfold bind at 1 in H. unfold emit at 1 in H.
    apply IH in H. rewrite H. cbn [trace].
    rewrite progressOf_app, P3, P2. cbn [trace w1 progressOf List.length seq map].
    rewrite <- app_assoc. cbn [app]. f_equal. f_equal.
    rewrite <- (seq_shift _ 1), map_map. apply map_ext. intros k. f_equal. lia.
Qed.

End Progress.

(** X18: a conversion loop that runs to the end calls [ctx.reportProgress]
    once per record, failed or not, with the counts [i + 1], [i + 2], ... in
    order and the same total each time; nothing else in the loop reports
    progress. *)
Theorem convertLoop_progress (host : Host) (folder : Folder)
    (databaseDetails : JSValue) (pages : list JSValue) (i total : nat)
    (convertedFiles files' : list string) (w w' : World host) :
  convertLoop host folder databaseDetails pages i total convertedFiles w
  = (Fulfilled (Some files'), w') ->
  progressOf (trace host w')
  = (progressOf (trace host w)
     ++ map (fun k => (i + k, total)) (seq 1 (List.length pages)))%list.
Proof. apply convertLoop_progress_from. Qed.

Lemma convertLoop_progress_witness :
  progressOf
    (trace _ (snd (convertLoop (listHost []) Skipped.folder Sample.schema
                     Skipped.pages 0 3 [] Skipped.start)))
  = [(1, 3); (2, 3)].
Proof.
  apply (convertLoop_progress (listHost []) Skipped.folder Sample.schema
           Skipped.pages 0 3 [] ["A.md"] Skipped.start
           (snd (convertLoop (listHost []) Skipped.folder Sample.schema
                   Skipped.pages 0 3 [] Skipped.start))).
  reflexivity.
Defined.

(* ================================================================== *)
(** * Further properties: schema inferrer *)
(* ================================================================== *)

Lemma scanEntry_extends (details : JSValue) (acc set : list string)
    (entry : string * JSValue) :
  scanEntry details acc entry = Normal set -> exists added, set = (acc ++ added)%list.
Proof.
  destruct entry as [key property]. unfold scanEntry. intros H.
  apply bindC_inv in H as [keep [_ H]].
  destruct keep; [|injection H as <-; exists []; symmetry; apply app_nil_r].
  apply bindC_inv in H as [value [_ H]]. injection H as <-.
  destruct (hasData value); [|exists []; symmetry; apply app_nil_r].
  unfold setAdd. destruct (existsb _ acc); [exists []; symmetry; apply app_nil_r|].
  exists [key]. reflexivity.
Qed.

Lemma scanEntries_extends (details : JSValue) (entries : list (string * JSValue)) :
  forall acc set,
  scanEntries details acc entries = Normal set -> exists added, set = (acc ++ added)%list.
Proof.
  induction entries as [|entry rest IH]; intros acc set H.
  - injection H as <-. exists []. symmetry; apply app_nil_r.
  - cbn [scanEntries] in H. apply bindC_inv in H as [mid [Hmid H]].
    apply scanEntry_extends in Hmid as [a1 ->]. apply IH in H as [a2 ->].
    exists (a1 ++ a2)%list. symmetry; apply app_assoc.
Qed.

Lemma scanPages_extends (details : JSValue) (pages : list JSValue) :
  forall acc set,
  scanPages details acc pages = Normal set -> exists added, set = (acc ++ added)%list.
Proof.
  induction pages as [|page rest IH]; intros acc set H.
  - injection H as <-. exists []. symmetry; apply app_nil_r.
  - cbn [scanPages] in H.
    apply bindC_inv in H as [properties [_ H]].
    apply bindC_inv in H as [entries [_ H]].
    apply bindC_inv in H as [mid [Hmid H]].
    apply scanEntries_extends in Hmid as [a1 ->]. apply IH in H as [a2 ->].
    exists (a1 ++ a2)%list. symmetry; apply app_assoc.
Qed.

Lemma scanPages_app (details : JSValue) (pages more : list JSValue) :
  forall acc,
  scanPages details acc (pages ++ more)
  = (set <- scanPages details acc pages ;; scanPages details set more).
Proof.
  induction pages as [|page rest IH]; intros acc; [reflexivity|].
  cbn [app scanPages].
  destruct (JS.member page "properties") as [properties|e]; [|reflexivity].
  cbn [bindC]. destruct (JS.entries properties) as [entries|e]; [|reflexivity].
  cbn [bindC]. destruct (scanEntries details acc entries) as [mid|e]; [|reflexivity].
  cbn [bindC]. apply IH.
Qed.

(** X19: the inferred columns come in first-seen order and later records
    only add to them: the names collected from a sequence of records are a
    prefix of the names collected from any longer sequence that starts with
    it. *)
Theorem propertiesWithData_grows (databaseDetails : JSValue)
    (pages more : list JSValue) (set set' : list string) :
  propertiesWithData databaseDetails pages = Normal set ->
  propertiesWithData databaseDetails (pages ++ more) = Normal set' ->
  exists added, set' = (set ++ added)%list.
Proof.
  unfold propertiesWithData. intros H H'.
  rewrite scanPages_app, H in H'. cbn [bindC] in H'.
  exact (scanPages_extends _ _ _ _ H').
Qed.

Lemma propertiesWithData_grows_witness :
  propertiesWithData Sample.schema [Sample.recordA] = Normal ["count"]
  /\ propertiesWithData Sample.schema [Sample.recordA; Sample.recordC]
     = Normal ["count"; "note"]
  /\ exists added, ["count"; "note"] = (["count"] ++ added)%list.
Proof.
  split; [reflexivity|]. split; [reflexivity|].
  apply (propertiesWithData_grows Sample.schema [Sample.recordA] [Sample.recordC]);
    reflexivity.
Defined.

(* ================================================================== *)
(** * Further properties: the database directory *)
(* ================================================================== *)

Lemma getOwn_first (first : JSValue) (rest : list JSValue) :
  JS.getOwn (JArr (first :: rest)) "0" = first.
Proof. reflexivity. Qed.

(** X20: a database is listed under the text of the first run of its title
    only (later runs are not read), and under ["Untitled Database"] when its
    title is absent, has no run, or has a first run without text. *)
Theorem toDatabase_title (db : JSValue) (title : JSValue) (loaded : LoadedDatabase) :
  JS.member db "title" = Normal title ->
  toDatabase db = Normal loaded ->
  (JS.isNullish title = true -> ld_title loaded = JStr "Untitled Database")
  /\ (title = JArr [] -> ld_title loaded = JStr "Untitled Database")
  /\ (forall first rest,
        title = JArr (first :: rest) ->
        ld_title loaded
        = JS.or (JS.optMember first "plain_text") (JStr "Untitled Database")).
Proof.
  unfold toDatabase. intros Ht H.
  apply bindC_inv in H as [id [_ H]].
  rewrite Ht in H. cbn [bindC] in H.
  apply bindC_inv in H as [properties [_ H]].
  apply bindC_inv in H as [keys [_ H]].
  injection H as <-. cbn [ld_title].
  split; [|split].
  - intros Hn. destruct title; try discriminate; reflexivity.
  - intros ->. reflexivity.
  - intros first rest ->.
    replace (JS.optMember (JArr (first :: rest)) "0") with first; [reflexivity|].
    unfold JS.optMember, JS.member. cbn [String.eqb Ascii.eqb Bool.eqb].
    symmetry. apply getOwn_first.
Qed.

Lemma toDatabase_title_witness :
  (JS.isNullish (JArr [Sample.textRun "Read"; Sample.textRun "ing list"]) = true ->
   JStr "Read" = JStr "Untitled Database")
  /\ (JArr [Sample.textRun "Read"; Sample.textRun "ing list"] = JArr [] ->
      JStr "Read" = JStr "Untitled Database")
  /\ (forall first rest,
        JArr [Sample.textRun "Read"; Sample.textRun "ing list"] = JArr (first :: rest) ->
        JStr "Read" = JS.or (JS.optMember first "plain_text") (JStr "Untitled Database")).
Proof.
  apply (toDatabase_title
           (Directory.databaseOf "db3" ["Read"; "ing list"] [])
           (JArr [Sample.textRun "Read"; Sample.textRun "ing list"])
           {| ld_id := JStr "db3"; ld_title := JStr "Read"; ld_properties := [] |});
    reflexivity.
Defined.

(** X21: when the search request fails, [loadDatabases] catches the error:
    its promise is fulfilled, [this.databases] is not assigned and the
    dropdown is not rebuilt; the error is logged and one notice is shown. *)
Theorem loadDatabases_request_fails (host : Host) (token : string) (error : Exn)
    (rest : list Reply) (w : World host) :
  Str.isEmpty token = false ->
  replies host w = Fails error :: rest ->
  loadDatabases host token w
  = (Fulfilled {| assigned := None; dropdown := [] |},
     {| replies := rest; cancelled := cancelled host w; polls := polls host w;
        vault := vault host w;
        trace := trace host w
                 ++ [Request searchUrl (Some searchBody);
                     ConsoleError "Failed to load databases:" error;
                     Notice "Failed to load databases. Check your token and try again."] |}).
Proof.
  intros Ht Hr. unfold loadDatabases. rewrite Ht.
  unfold requestUrl. rewrite Hr.
  unfold loadFailed, bind, emit, ret. cbn [replies cancelled polls vault trace].
  rewrite <- !app_assoc. reflexivity.
Qed.

Lemma loadDatabases_request_fails_witness :
  loadDatabases (listHost []) "secret_token" Directory.offline
  = (Fulfilled {| assigned := None; dropdown := [] |},
     Build_World (listHost []) [] Scenario.never 0 []
       [Request searchUrl (Some searchBody);
        ConsoleError "Failed to load databases:"
          (HostError "net::ERR_INTERNET_DISCONNECTED");
        Notice "Failed to load databases. Check your token and try again."]).
Proof.
  apply (loadDatabases_request_fails (listHost []) "secret_token"
           (HostError "net::ERR_INTERNET_DISCONNECTED") [] Directory.offline);
    reflexivity.
Defined.

Lemma loadFailed_requests (host : Host) {A} (error : Exn) (result : A) (w : World host) :
  exists w',
    loadFailed host error result w = (Fulfilled result, w')
    /\ requestsOf (trace host w') = requestsOf (trace host w)
    /\ vault host w' = vault host w /\ polls host w' = polls host w.
Proof.
  unfold loadFailed, bind, emit, ret. eexists. split; [reflexivity|].
  cbn [trace vault polls]. rewrite !requestsOf_app. simpl. rewrite !app_nil_r. auto.
Qed.

(** What [loadDatabases] does to the world, whatever the reply holds. *)
Lemma loadDatabases_spec (host : Host) (token : string) (w : World host) :
  let w' := snd (loadDatabases host token w) in
  ((exists loaded, fst (loadDatabases host token w) = Fulfilled loaded)
   \/ fst (loadDatabases host token w) = Pending)
  /\ requestsOf (trace host w')
     = (requestsOf (trace host w)
        ++ if Str.isEmpty token then [] else [(searchUrl, Some searchBody)])%list
  /\ vault host w' = vault host w
  /\ polls host w' = polls host w.
Proof.
  unfold loadDatabases.
  destruct (Str.isEmpty token).
  { cbn. rewrite app_nil_r. split; [left; eauto | auto]. }
  unfold requestUrl.
  set (w1 := fun r => {| replies := r; cancelled := cancelled host w;
                         polls := polls host w; vault := vault host w;
                         trace := trace host w ++ [Request searchUrl (Some searchBody)] |}).
  assert (Hreq : forall r, requestsOf (trace host (w1 r))
                           = (requestsOf (trace host w) ++ [(searchUrl, Some searchBody)])%list).
  { intros r. cbn [w1 trace]. rewrite requestsOf_app. reflexivity. }
  destruct (replies host w) as [|[data|error] rest].
  - cbn [fst snd]. fold (w1 []). rewrite Hreq. split; [right; reflexivity | auto].
  - fold (w1 rest).
    destruct (mapDatabases data) as [databases|error].
    + destruct (updateDatabaseDropdown databases) as [calls [error|]].
      * destruct (loadFailed_requests host error
                    {| assigned := Some databases; dropdown := calls |} (w1 rest))
          as [w2 [E [Hq [Hv Hp]]]].
        rewrite E. cbn [fst snd]. rewrite Hq, Hv, Hp, Hreq.
        split; [left; eauto | auto].
      * cbn [fst snd]. rewrite Hreq. split; [left; eauto | auto].
    + destruct (loadFailed_requests host error
                  {| assigned := None; dropdown := [] |} (w1 rest))
        as [w2 [E [Hq [Hv Hp]]]].
      rewrite E. cbn [fst snd]. rewrite Hq, Hv, Hp, Hreq.
      split; [left; eauto | auto].
  - fold (w1 rest).
    destruct (loadFailed_requests host error
                {| assigned := None; dropdown := [] |} (w1 rest))
      as [w2 [E [Hq [Hv Hp]]]].
    rewrite E. cbn [fst snd]. rewrite Hq, Hv, Hp, Hreq.
    split; [left; eauto | auto].
Qed.

(** X22: [loadDatabases] never rejects, whatever the reply holds: its
    promise is fulfilled or stays pending; with a token it issues exactly one
    request, the search for databases, and without one it issues none; it
    neither polls for cancellation nor touches the vault. *)
Theorem loadDatabases_contained (host : Host) (token : string) (w : World host) :
  let w' := snd (loadDatabases host token w) in
  ((exists loaded, fst (loadDatabases host token w) = Fulfilled loaded)
   \/ fst (loadDatabases host token w) = Pending)
  /\ requestsOf (trace host w')
     = (requestsOf (trace host w)
        ++ if Str.isEmpty token then [] else [(searchUrl, Some searchBody)])%list
  /\ vault host w' = vault host w
  /\ polls host w' = polls host w.
Proof. exact (loadDatabases_spec host token w). Qed.

(** X24: the handler of the token field stores the entered text trimmed,
    and loads the databases only for a token that is not blank: a text made
    of white space issues no request, any other exactly one. *)
Theorem onTokenChange_trims (host : Host) (value : string) (w : World host) :
  requestsOf (trace host (snd (onTokenChange host value w)))
  = (requestsOf (trace host w)
     ++ if Str.isEmpty (Str.trim value) then [] else [(searchUrl, Some searchBody)])%list
  /\ forall token loaded w',
       onTokenChange host value w = (Fulfilled (token, loaded), w') ->
       token = Str.trim value /\ Str.trim token = token.
Proof.
  unfold onTokenChange.
  destruct (Str.isEmpty (Str.trim value)) eqn:Eb.
  - cbn. rewrite app_nil_r. split; [reflexivity|].
    intros token loaded w' [= <- _ _]. split; [reflexivity | apply trim_idempotent].
  - destruct (loadDatabases_spec host (Str.trim value) w) as [_ [Hq _]].
    rewrite Eb in Hq. unfold bind.
    destruct (loadDatabases host (Str.trim value) w) as [[loaded|e|] w1];
      cbn [snd] in Hq |- *; (split; [exact Hq|]); try discriminate.
    intros token loaded' w' [= <- _ _]. split; [reflexivity | apply trim_idempotent].
Qed.

Lemma addOptions_text (databases : list LoadedDatabase) :
  forallb hasTextTitle databases = true ->
  addOptions databases = (map (fun db => optionOf db (titleText db)) databases, None).
Proof.
  induction databases as [|db rest IH]; [reflexivity|].
  cbn [forallb]. intros H. apply andb_true_iff in H as [Hdb Hrest].
  cbn [addOptions map]. rewrite (IH Hrest).
  unfold optionLabel, optionOf, titleText, hasTextTitle in *.
  destruct (ld_title db); try discriminate. reflexivity.
Qed.

(** X23: for databases whose titles are strings, the rebuilt dropdown
    offers the placeholder and then one option per database, in the order of
    the reply, valued by the database's [id] and labelled with its title and
    its number of properties; it is disabled exactly when no database was
    found. *)
Theorem updateDatabaseDropdown_options (databases : list LoadedDatabase) :
  forallb hasTextTitle databases = true ->
  updateDatabaseDropdown databases
  = (match databases with
     | [] => [AddOption (JStr "") "No databases found"; SetDisabled true]
     | _ => (AddOption (JStr "") "Select a database..."
             :: map (fun db => optionOf db (titleText db)) databases)
            ++ [OnChange]
     end%list, None).
Proof.
  intros H. destruct databases as [|db rest]; [reflexivity|].
  unfold updateDatabaseDropdown. rewrite (addOptions_text _ H). reflexivity.
Qed.

Lemma updateDatabaseDropdown_options_witness :
  updateDatabaseDropdown
    [{| ld_id := JStr "db1"; ld_title := JStr "Tasks";
        ld_properties := ["Name"; "count"; "done"] |};
     {| ld_id := JStr "db2"; ld_title := JStr "Untitled Database";
        ld_properties := ["Name"] |}]
  = ([AddOption (JStr "") "Select a database...";
      AddOption (JStr "db1") "Tasks (3 properties)";
      AddOption (JStr "db2") "Untitled Database (1 properties)";
      OnChange], None).
Proof.
  apply (updateDatabaseDropdown_options
           [{| ld_id := JStr "db1"; ld_title := JStr "Tasks";
               ld_properties := ["Name"; "count"; "done"] |};
            {| ld_id := JStr "db2"; ld_title := JStr "Untitled Database";
               ld_properties := ["Name"] |}]).
  reflexivity.
Defined.

(* ================================================================== *)
(** * Further properties: a run that completes *)
(* ================================================================== *)

Section CompleteRun.

Variable host : Host.
Variable this : Importer.

Lemma bind_eval {A B} (m : Async host A) (k : A -> Async host B) w a w1 :
  m w = (Fulfilled a, w1) -> bind m k w = k a w1.
Proof. intros H. unfold bind. rewrite H. reflexivity. Qed.

(** What one conversion adds to the world. *)
Lemma convert_events (page : JSValue) (folder : Folder) (details : JSValue)
    (w : World host) :
  exists result w' events,
    convertPageToMarkdown host page folder details w = (Fulfilled result, w')
    /\ trace host w' = (trace host w ++ events)%list
    /\ failuresOf events = [] /\ successesOf events = []
    /\ cancelled host w' = cancelled host w
    /\ replies host w' = replies host w.
Proof.
  unfold convertPageToMarkdown, tryCatch, bind, sync, write, emit, ret.
  destruct (renderPage page details) as [[title markdown]|e].
  - cbn [vault].
    destruct (saveAsMarkdownFile host folder title markdown (vault host w)) as [[[]|e] v'].
    + eexists; eexists; exists []. split; [reflexivity|]. cbn [trace cancelled replies].
      rewrite app_nil_r. auto.
    + eexists; eexists; eexists. split; [reflexivity|]. cbn [trace cancelled replies]. auto.
  - eexists; eexists; eexists. split; [reflexivity|]. cbn [trace cancelled replies]. auto.
Qed.

Lemma createBaseFile_events (db : NotionDatabase) (details : JSValue)
    (pages : list JSValue) (folder : Folder) (w : World host) :
  exists result w' events,
    createBaseFile host db details pages folder w = (Fulfilled result, w')
    /\ trace host w' = (trace host w ++ events)%list
    /\ failuresOf events = [] /\ successesOf events = []
    /\ cancelled host w' = cancelled host w
    /\ replies host w' = replies host w.
Proof.
  unfold createBaseFile, tryCatch, bind, sync, write, emit, ret.
  destruct (propertiesWithData details pages) as [set|e].
  - cbn [vault].
    destruct (vaultCreate host _ _ (vault host w)) as [[[]|e] v'].
    + eexists; eexists; exists []. split; [reflexivity|]. cbn [trace cancelled replies].
      rewrite app_nil_r. auto.
    + eexists; eexists; eexists. split; [reflexivity|]. cbn [trace cancelled replies]. auto.
  - eexists; eexists; eexists. split; [reflexivity|]. cbn [trace cancelled replies]. auto.
Qed.

Lemma recordFile_events (fileName : option string) (files : list string) (w : World host) :
  exists new w' events,
    recordFile host fileName files w = (Fulfilled (files ++ new)%list, w')
    /\ trace host w' = (trace host w ++ events)%list
    /\ failuresOf events = [] /\ successesOf events = new
    /\ cancelled host w' = cancelled host w
    /\ replies host w' = replies host w.
Proof.
  unfold recordFile.
  destruct fileName as [name|];
    [destruct (Str.isEmpty name)|];
    try (exists [], w, []; rewrite !app_nil_r; auto 7; fail).
  exists [name]. unfold bind, emit, ret. eexists; eexists.
  split; [reflexivity|]. cbn [trace cancelled replies]. auto 7.
Qed.

(** The conversion loop when no poll answers true. *)
Lemma convertLoop_runs (folder : Folder) (details : JSValue) (pages : list JSValue) :
  forall i total files (w : World host),
  (forall k, cancelled host w k = false) ->
  exists new w' events,
    convertLoop host folder details pages i total files w
    = (Fulfilled (Some (files ++ new)%list), w')
    /\ trace host w' = (trace host w ++ events)%list
    /\ failuresOf events = [] /\ successesOf events = new
    /\ cancelled host w' = cancelled host w
    /\ replies host w' = replies host w.
Proof.
  induction pages as [|page rest IH]; intros i total files w Hcancel.
  - exists [], w, []. rewrite !app_nil_r. auto 7.
  - cbn [convertLoop]. unfold bind at 1. unfold isCancelled at 1. rewrite Hcancel.
    set (w1 := {| replies := replies host w; cancelled := cancelled host w;
                  polls := S (polls host w); vault := vault host w;
                  trace := trace host w |}).
    destruct (convert_events page folder details w1)
      as [fileName [w2 [ev2 [E2 [T2 [F2 [S2 [C2 R2]]]]]]]].
    rewrite (bind_eval _ _ _ _ _ E2).
    destruct (recordFile_events fileName files w2)
      as [new3 [w3 [ev3 [E3 [T3 [F3 [S3 [C3 R3]]]]]]]].
    rewrite (bind_eval _ _ _ _ _ E3).
    unfold bind at 1. unfold emit at 1.
    set (w4 := {| replies := replies host w3; cancelled := cancelled host w3;
                  polls := polls host w3; vault := vault host w3;
                  trace := trace host w3 ++ [Progress (i + 1) total] |}).
    destruct (IH (S i) total (files ++ new3)%list w4)
      as [new [w' [ev [E [T [F [S [C R]]]]]]]].
    { intros k. cbn [w4 cancelled]. rewrite C3, C2. apply Hcancel. }
    exists (new3 ++ new)%list, w', (ev2 ++ ev3 ++ [Progress (i + 1) total] ++ ev)%list.
    rewrite app_assoc. split; [exact E|].
    split.
    { rewrite T. cbn [w4 trace]. rewrite T3, T2. cbn [w1 trace].
      rewrite <- !app_assoc. reflexivity. }
    rewrite !failuresOf_app, !successesOf_app, F2, F3, F, S2, S3, S.
    cbn [failuresOf successesOf app].
    repeat split; try reflexivity.
    + rewrite C. cbn [w4 cancelled]. rewrite C3, C2. reflexivity.
    + rewrite R. cbn [w4 replies]. rewrite R3, R2. reflexivity.
Qed.

(** Lines 202-211 when no poll answers true. *)
Lemma baseFileStep_runs (db : NotionDatabase) (folder : Folder) (details : JSValue)
    (pages : list JSValue) (files : list string) (w : World host) :
  (forall k, cancelled host w k = false) ->
  exists new w' events,
    baseFileStep host this db folder details pages files w
    = (Fulfilled (files ++ new)%list, w')
    /\ trace host w' = (trace host w ++ events)%list
    /\ failuresOf events = [] /\ successesOf events = new
    /\ replies host w' = replies host w.
Proof.
  intros Hcancel. unfold baseFileStep.
  destruct (createBaseFiles this); [|exists [], w, []; rewrite !app_nil_r; auto 6].
  unfold bind at 1. unfold isCancelled at 1. rewrite Hcancel.
  unfold bind at 1. unfold emit at 1.
  set (w1 := {| replies := replies host w; cancelled := cancelled host w;
                polls := S (polls host w); vault := vault host w;
                trace := trace host w ++ [Status "Creating Obsidian Base file..."] |}).
  destruct (createBaseFile_events db details pages folder w1)
    as [fileName [w2 [ev2 [E2 [T2 [F2 [S2 [C2 R2]]]]]]]].
  rewrite (bind_eval _ _ _ _ _ E2).
  destruct (recordFile_events fileName files w2)
    as [new [w3 [ev3 [E3 [T3 [F3 [S3 [C3 R3]]]]]]]].
  rewrite (bind_eval _ _ _ _ _ E3).
  unfold bind, emit, ret.
  exists new. eexists.
  exists ([Status "Creating Obsidian Base file..."] ++ ev2 ++ ev3
          ++ [Progress (List.length pages + 1) (List.length pages + 1)])%list.
  split; [reflexivity|]. cbn [trace replies].
  split.
  { rewrite T3, T2. cbn [w1 trace]. rewrite <- !app_assoc. reflexivity. }
  rewrite !failuresOf_app, !successesOf_app, F2, F3, S2, S3.
  cbn [failuresOf successesOf app]. rewrite app_nil_r.
  repeat split; try reflexivity.
  rewrite R3, R2. reflexivity.
Qed.

End CompleteRun.

(** X25: a configured run that is never cancelled and whose pagination
    completes always ends, fulfilled, with the completion status and notice,
    and reports no failure, even when records or the [.base] file failed to
    convert; the number of files the notice announces is the number of
    successes reported through [ctx.reportNoteSuccess] during the run; the
    replies after the last page are left unread. *)
Theorem import_completes (host : Host) (this : Importer)
    (selectedDatabase : NotionDatabase) (folder : Folder)
    (databaseDetails : JSValue) (datas : list JSValue) (tail : list Reply)
    (w : World host) :
  configured host this w selectedDatabase folder ->
  paginated datas = true ->
  replies host w = (Json databaseDetails :: map Json datas ++ tail)%list ->
  (forall k, cancelled host w k = false) ->
  exists w' events,
    import host this w = (Fulfilled tt, w')
    /\ replies host w' = tail
    /\ trace host w'
       = (trace host w ++ events
          ++ [Status "Import completed successfully!";
              Notice ("Successfully imported "
                      ++ Str.ofNat (List.length (successesOf events))
                      ++ " files from " ++ db_title selectedDatabase)])%list
    /\ failuresOf events = [].
Proof.
  intros [Htoken [Hselected [Hfolder Hfind]]] Hpag Hreplies Hcancel.
  unfold import. rewrite Htoken, Hselected, Hfolder, Hfind.
  unfold tryCatch, importBody.
  unfold bind at 1. unfold emit at 1.
  unfold bind at 1. unfold fetchDatabaseDetails, requestUrl at 1.
  cbn [replies cancelled polls vault trace]. rewrite Hreplies.
  unfold bind at 1. unfold isCancelled at 1.
  cbn [replies cancelled polls vault trace]. rewrite Hcancel.
  unfold bind at 1. unfold emit at 1.
  cbn [replies cancelled polls vault trace].
  unfold bind at 1. unfold fetchAllPages at 1.
  rewrite (fetchLoop_paginated host _ datas Hpag _ [] JUndefined _ tail);
    cbn [replies cancelled polls vault trace]; auto.
  2: { rewrite length_app, length_map. lia. }
  unfold bind at 1. unfold isCancelled at 1.
  cbn [replies cancelled polls vault trace]. rewrite Hcancel.
  unfold bind at 1. unfold emit at 1.
  cbn [replies cancelled polls vault trace app]. cbv zeta.
  match goal with
  | |- context [bind (convertLoop host folder databaseDetails ?ps 0 ?total []) _ ?w3] =>
      destruct (convertLoop_runs host folder databaseDetails ps 0 total [] w3 Hcancel)
        as [new [w4 [ev4 [E4 [T4 [F4 [S4 [C4 R4]]]]]]]]
  end.
  rewrite (bind_eval _ _ _ _ _ _ E4). cbn [app].
  match goal with
  | |- context [bind (baseFileStep host this selectedDatabase folder databaseDetails
                       ?ps _) _ w4] =>
      destruct (baseFileStep_runs host this selectedDatabase folder databaseDetails
                  ps ([] ++ new)%list w4)
        as [new5 [w5 [ev5 [E5 [T5 [F5 [S5 R5]]]]]]]
  end.
  { intros k. rewrite C4. apply Hcancel. }
  rewrite (bind_eval _ _ _ _ _ _ E5).
  unfold bind, emit. cbn [replies cancelled polls vault trace].
  eexists.
  exists ([Status "Fetching database details...";
           Request (databaseUrl (selectedDatabaseId this)) None;
           Status "Fetching database pages..."]
          ++ pageEvents (selectedDatabaseId this) JUndefined 0 datas
          ++ [Status "Converting pages to markdown..."] ++ ev4 ++ ev5)%list.
  split; [reflexivity|]. cbn [replies trace].
  split; [rewrite R5, R4; reflexivity|].
  split.
  - rewrite T5, T4. cbn [trace].
    rewrite !successesOf_app, successesOf_pageEvents, S4, S5.
    cbn [successesOf app List.length].
    repeat (rewrite <- app_assoc || rewrite <- app_comm_cons). reflexivity.
  - rewrite !failuresOf_app, failuresOf_pageEvents, F4, F5. reflexivity.
Qed.

Lemma import_completes_witness :
  exists w' events,
    import (listHost []) Scenario.importer Scenario.start = (Fulfilled tt, w')
    /\ replies _ w' = []
    /\ trace _ w'
       = (trace _ Scenario.start ++ events
          ++ [Status "Import completed successfully!";
              Notice ("Successfully imported "
                      ++ Str.ofNat (List.length (successesOf events))
                      ++ " files from " ++ "Tasks")])%list
    /\ failuresOf events = [].
Proof.
  apply (import_completes (listHost []) Scenario.importer Scenario.database
           {| path := "Notion" |} Sample.schema Scenario.twoPages []
           Scenario.start).
  - repeat split.
  - reflexivity.
  - reflexivity.
  - reflexivity.
Defined.
